(** * Job runner: incremental analysers and job control plane

    A shallow embedding of the job runner's analysis services
    ([services/token.ts], [services/nft.ts], [services/run.ts]), of the
    Mongoose schemas that gate what they persist, and of the job
    submission route and queue worker ([routes/job.ts],
    [queue/workers.ts]).

    Conventions of the embedding.
    - Amounts that the upstream API delivers as decimal integer strings
      (values, fees, gas) are the integers they denote ([Z]); [BigInt(s)]
      is then the identity and [parseFloat(s)] / [Number(b)] is the
      rounding of that integer to binary64.
    - JavaScript numbers that take part in floating-point arithmetic are
      IEEE-754 binary64 values ([spec_float] at precision 53); counters
      and lengths are integers.
    - ISO timestamps are milliseconds since the epoch; every read of the
      wall clock is an explicit argument.
    - [await]ed collaborators (HTTP feed, MongoDB collections, the BullMQ
      queue) are explicit arguments and explicit state; a rejected
      promise or a [throw] is the [Thrown] outcome.
    - Human-readable alert messages, alert [data] payloads and console
      output carry no behaviour and are left out. *)

From Stdlib Require Import String Ascii ZArith List Bool Lia.
From Stdlib Require Import Floats.SpecFloat.
From Stdlib Require Import Sorting.Permutation Sorting.Sorted.
Import ListNotations.

Local Open Scope string_scope.
Local Open Scope list_scope.
Local Open Scope Z_scope.

(** ** JavaScript primitives used by the services *)

Module Js.

(** binary64 numbers *)
Definition number : Type := spec_float.
Definition prec : Z := 53.
Definition emax : Z := 1024.

(** [Number(b)] for a BigInt [b], [parseFloat(s)] for a decimal integer
    string [s], and integer literals: round to nearest, ties to even. *)
Definition Number (n : Z) : number := binary_normalize prec emax n 0 false.

Definition add : number -> number -> number := SFadd prec emax.
Definition sub : number -> number -> number := SFsub prec emax.
Definition mul : number -> number -> number := SFmul prec emax.
Definition div : number -> number -> number := SFdiv prec emax.
Definition abs : number -> number := SFabs.
Definition ltb : number -> number -> bool := SFltb.
Definition leb : number -> number -> bool := SFleb.
Definition gtb (a b : number) : bool := SFltb b a.
Definition geb (a b : number) : bool := SFleb b a.
Definition eqb : number -> number -> bool := SFeqb.

Definition isNaN (x : number) : bool :=
  match x with S754_nan => true | _ => false end.

(** [Math.max(a, b)] *)
Definition max (a b : number) : number :=
  if isNaN a || isNaN b then S754_nan else if ltb a b then b else a.

(** a decimal literal [n / d] such as [0.32] or [0.1]: the binary64
    nearest to the rational, which is what correctly rounded division
    of the two exactly representable integers yields *)
Definition literal (n d : Z) : number := div (Number n) (Number d).

(** [x || d] on numbers: [0], [-0] and [NaN] are falsy *)
Definition orElse (x d : number) : number :=
  match x with
  | S754_zero _ | S754_nan => d
  | _ => x
  end.

(** [BigInt(x)] for a number [x]: the exact integer value; a RangeError
    ([None]) when [x] is not an integer *)
Definition BigInt (x : number) : option Z :=
  match x with
  | S754_zero _ => Some 0
  | S754_finite s m e =>
      let sign (v : Z) := if s then - v else v in
      if 0 <=? e then Some (sign (Zpos m * 2 ^ e))
      else if (Zpos m) mod (2 ^ (- e)) =? 0
           then Some (sign (Zpos m / 2 ^ (- e)))
           else None
  | _ => None
  end.

(** [s.toLowerCase()] on ASCII text (addresses and hashes) *)
Definition lower_ascii (c : ascii) : ascii :=
  let n := nat_of_ascii c in
  if (Nat.leb 65 n && Nat.leb n 90)%bool then ascii_of_nat (n + 32) else c.

Fixpoint toLowerCase (s : string) : string :=
  match s with
  | EmptyString => EmptyString
  | String c s' => String (lower_ascii c) (toLowerCase s')
  end.

(** [arr.slice(0, n)] *)
Definition slice0 {A : Type} (n : nat) (l : list A) : list A := firstn n l.

(** [arr.includes(x)] / [set.has(x)] on strings *)
Definition includes (l : list string) (x : string) : bool :=
  existsb (String.eqb x) l.

(** a [Set<string>] in insertion order; [add] keeps the first
    occurrence, [Array.from] is the identity on the representation *)
Definition set_add (x : string) (s : list string) : list string :=
  if includes s x then s else s ++ [x].

Definition set_of_list (l : list string) : list string :=
  fold_left (fun s x => set_add x s) l [].

(** a [Map<string, V>] in insertion order; [set] on a present key
    replaces the value in place *)
Fixpoint map_get {V : Type} (k : string) (m : list (string * V)) : option V :=
  match m with
  | [] => None
  | (k', v) :: m' => if String.eqb k' k then Some v else map_get k m'
  end.

Fixpoint map_set {V : Type} (k : string) (v : V) (m : list (string * V))
  : list (string * V) :=
  match m with
  | [] => [(k, v)]
  | (k', v') :: m' =>
      if String.eqb k' k then (k', v) :: m' else (k', v') :: map_set k v m'
  end.

(** [arr.sort(cmp)]: the sort is stable, so for a consistent comparator
    the result is the stable insertion order below; only the sign of
    [cmp a b] matters *)
Fixpoint sort_insert {A : Type} (cmp : A -> A -> Z) (x : A) (l : list A) : list A :=
  match l with
  | [] => [x]
  | y :: l' => if cmp x y <=? 0 then x :: l else y :: sort_insert cmp x l'
  end.

Definition sort {A : Type} (cmp : A -> A -> Z) (l : list A) : list A :=
  fold_right (sort_insert cmp) [] l.

(** a plain object used as a dictionary: own keys enumerate with the
    array-index keys first, in ascending numeric order, then the other
    keys in creation order; assignment to a present key keeps its place *)
Definition is_digit (c : ascii) : bool :=
  let n := nat_of_ascii c in (Nat.leb 48 n && Nat.leb n 57)%bool.

Fixpoint digits_value (s : string) (acc : Z) : option Z :=
  match s with
  | EmptyString => Some acc
  | String c s' =>
      if is_digit c
      then digits_value s' (10 * acc + Z.of_nat (nat_of_ascii c) - 48)
      else None
  end.

Definition array_index (k : string) : option Z :=
  match k with
  | EmptyString => None
  | String "0" EmptyString => Some 0
  | String "0" _ => None
  | _ =>
      match digits_value k 0 with
      | Some v => if v <? 2 ^ 32 - 1 then Some v else None
      | None => None
      end
  end.

Fixpoint obj_insert_index {V : Type} (i : Z) (k : string) (v : V)
  (o : list (string * V)) : list (string * V) :=
  match o with
  | [] => [(k, v)]
  | (k', v') :: o' =>
      match array_index k' with
      | Some j => if j <? i then (k', v') :: obj_insert_index i k v o'
                  else (k, v) :: o
      | None => (k, v) :: o
      end
  end.

Definition obj_set {V : Type} (k : string) (v : V) (o : list (string * V))
  : list (string * V) :=
  match map_get k o with
  | Some _ => map_set k v o
  | None =>
      match array_index k with
      | Some i => obj_insert_index i k v o
      | None => o ++ [(k, v)]
      end
  end.

(** [/^0x[a-fA-F0-9]{40}$/.test(s)] *)
Definition is_hex (c : ascii) : bool :=
  let n := nat_of_ascii c in
  ((Nat.leb 48 n && Nat.leb n 57)
   || (Nat.leb 65 n && Nat.leb n 70)
   || (Nat.leb 97 n && Nat.leb n 102))%bool.

Fixpoint all_hex (s : string) : bool :=
  match s with
  | EmptyString => true
  | String c s' => is_hex c && all_hex s'
  end.

Definition isValidEthereumAddress (address : string) : bool :=
  match address with
  | String "0" (String "x" rest) =>
      (Nat.eqb (String.length rest) 40 && all_hex rest)%bool
  | _ => false
  end.

End Js.

(** ** What a service call yields *)

Inductive JsError : Type :=
| UnsupportedNetwork (network : string)
| InvalidAddressFormat (address : string)
| InvalidWalletAddress (address : string)
| WalletNotFound (address : string)
| UpstreamError
| TokenInfoUnavailable (address : string)
| RangeError
| ValidationError (path : string)
| UnknownActionType (action : string)
| BrokerUnreachable.

Inductive outcome (A : Type) : Type :=
| Returned (a : A)
| Thrown (e : JsError).
Arguments Returned {A} a.
Arguments Thrown {A} e.

Inductive Severity : Type := LOW | MEDIUM | HIGH.

Definition Severity_eqb (a b : Severity) : bool :=
  match a, b with
  | LOW, LOW | MEDIUM, MEDIUM | HIGH, HIGH => true
  | _, _ => false
  end.

(** [config/networks.ts] *)
Module Networks.

Definition NETWORKS : list string := ["testnet"; "devnet"; "mainnet"].
Definition DEFAULT_NETWORK : string := "testnet".

Definition isValidNetwork (network : string) : bool :=
  Js.includes NETWORKS (Js.toLowerCase network).

(** the lower-case names that every object inherits from
    [Object.prototype]: the lookup [NETWORKS[name]] finds the inherited
    member under them, and that member is truthy *)
Definition inherited_names : list string := ["constructor"; "__proto__"].

(** [getNetworkConfig] looks the lower-cased name up in [NETWORKS] and
    throws when the lookup yields nothing; what it returns only feeds
    URLs *)
Definition getNetworkConfig (network : string) : outcome unit :=
  let name := Js.toLowerCase network in
  if Js.includes NETWORKS name || Js.includes inherited_names name
  then Returned tt
  else Thrown (UnsupportedNetwork network).

(** the [enum] every schema puts on its [network] path: exact match *)
Definition schema_network_enum : list string := ["testnet"; "devnet"; "mainnet"].

End Networks.

(** [findOne(filter).sort({ timestamp: -1 })]: the matching document with
    the greatest timestamp (the earliest stored one among equals) *)
Definition findLatest {S : Type} (matches : S -> bool) (ts : S -> Z) (db : list S)
  : option S :=
  fold_left
    (fun best s =>
       if matches s then
         match best with
         | None => Some s
         | Some b => if ts b <? ts s then Some s else Some b
         end
       else best)
    db None.


(** The part of Mongoose that the services rely on: a document is
    validated against its schema when it is saved, and an invalid document
    rejects the [save()] promise without touching the collection. Storage
    outages are not modelled. *)
Module Mongoose.

(** [required: true] on a String path *)
Definition required (s : string) : bool := negb (String.eqb s "").

(** [enum: [...]] on a String path *)
Definition enum (allowed : list string) (s : string) : bool :=
  Js.includes allowed s.

(** [min] / [max] on a Number path *)
Definition within (lo hi n : Z) : bool := (lo <=? n) && (n <=? hi).

(** [doc.save()]; [validate] names the first offending path, if any *)
Definition save {S : Type} (validate : S -> option string) (doc : S) (db : list S)
  : outcome unit * list S :=
  match validate doc with
  | Some path => (Thrown (ValidationError path), db)
  | None => (Returned tt, db ++ [doc])
  end.

End Mongoose.

(** ** Token flow analyser ([services/token.ts], [models/MemeCoinSnapshot.ts]) *)

Module Token.

Record TokenInfo : Type := {
  hash : string;
  name : string;
  symbol : string;
  decimals : string;
  totalSupply : string
}.

(** a transfer as the explorer delivers it; [actionType], [fee] and
    [tokenHash] are never read by the analyser *)
Record Transaction : Type := {
  timestamp : Z;
  from : string;
  to : string;
  value : Z;
  txHash : string;
  status : bool;
  token : option TokenInfo
}.

Record LargeTransfer : Type := {
  lt_txHash : string;
  lt_from : string;
  lt_to : string;
  lt_value : Z;
  lt_timestamp : Z
}.

Record BurnTransaction : Type := {
  bt_txHash : string;
  bt_from : string;
  bt_value : Z;
  bt_timestamp : Z
}.

Record TopSender : Type := {
  ts_address : string;
  totalSent : Z;
  ts_transactionCount : Z
}.

Record TopReceiver : Type := {
  tr_address : string;
  totalReceived : Z;
  tr_transactionCount : Z
}.

Record FlowMetrics : Type := {
  totalTransfers : Z;
  totalVolume : Z;
  uniqueAddresses : list string;
  largeTransfers : list LargeTransfer;
  burnTransactions : list BurnTransaction;
  topSenders : list TopSender;
  topReceivers : list TopReceiver;
  last1h : Z;
  last6h : Z;
  last24h : Z;
  avgTransferSize : Z;
  medianTransferSize : Z;
  transferFrequency : Z;
  processedTransactionHashes : list string
}.

Inductive AlertType : Type :=
| LARGE_TRANSFER | BURN_DETECTED | WHALE_MOVEMENT
| VOLUME_SPIKE | SUSPICIOUS_PATTERN | WATCHED_WALLET_ACTIVITY.

Record AlertData : Type := {
  alert_type : AlertType;
  severity : Severity;
  alert_timestamp : Z
}.

Record Thresholds : Type := {
  largeTransfer : Js.number;
  whalePercentage : Js.number;
  volumeSpike : Js.number
}.

Record TokenConfig : Type := {
  address : string;
  cfg_name : string;
  cfg_symbol : string;
  thresholds : Thresholds;
  watchedAddresses : list string
}.

Record AnalysisMetadata : Type := {
  transactionsAnalyzed : Z;
  newTransactionsThisBatch : Z;
  cumulativeTransactions : Z;
  dataQuality : string;
  lastUpdated : Z
}.

Record MemeCoinSnapshot : Type := {
  tokenAddress : string;
  network : string;
  tokenInfo : TokenInfo;
  snapshot_timestamp : Z;
  flowMetrics : FlowMetrics;
  alerts : list AlertData;
  riskScore : Z;
  analysisMetadata : AnalysisMetadata
}.

Definition BURN_ADDRESS : string := "0x0000000000000000000000000000000000000000".

(** the three endpoints tried in order; [None] is a failed request or a
    body that exposes neither [items] nor [transfers] *)
Record Feed : Type := {
  erc20_transfers : option (list Transaction);
  token_transactions : option (list Transaction);
  contract_transactions : option (list Transaction)
}.

Fixpoint first_response (endpoints : list (option (list Transaction)))
  : option (list Transaction) :=
  match endpoints with
  | [] => None
  | Some body :: _ => Some body
  | None :: rest => first_response rest
  end.

(** when every endpoint fails the error is caught and an empty page with
    no token info is returned *)
Definition fetchLatestTransactions (feed : Feed)
  : list Transaction * option TokenInfo :=
  match first_response
          [erc20_transfers feed; token_transactions feed; contract_transactions feed] with
  | None => ([], None)
  | Some transactions =>
      (transactions,
       match transactions with
       | tx :: _ => token tx
       | [] => None
       end)
  end.

Definition getNewTransactions (latestTransactions : list Transaction)
  (previousSnapshot : option MemeCoinSnapshot) : list Transaction :=
  match previousSnapshot with
  | None => latestTransactions
  | Some prev =>
      let processedHashes := processedTransactionHashes (flowMetrics prev) in
      filter (fun tx => negb (Js.includes processedHashes (txHash tx)))
             latestTransactions
  end.

(** per address: cumulative amount and transaction count *)
Definition AddressMetrics : Type := list (string * (Z * Z)).

Definition bump (address : string) (amount : Z) (m : AddressMetrics) : AddressMetrics :=
  match Js.map_get address m with
  | Some (total, count) => Js.map_set address (total + amount, count + 1) m
  | None => Js.map_set address (amount, 1) m
  end.

Definition mergeSenderReceiverMetrics (newTransactions : list Transaction)
  (previousMetrics : option FlowMetrics) : AddressMetrics * AddressMetrics :=
  let senderMetrics0 :=
    match previousMetrics with
    | Some pm =>
        fold_left
          (fun m s => Js.map_set (Js.toLowerCase (ts_address s))
                                 (totalSent s, ts_transactionCount s) m)
          (topSenders pm) []
    | None => []
    end in
  let receiverMetrics0 :=
    match previousMetrics with
    | Some pm =>
        fold_left
          (fun m r => Js.map_set (Js.toLowerCase (tr_address r))
                                 (totalReceived r, tr_transactionCount r) m)
          (topReceivers pm) []
    | None => []
    end in
  fold_left
    (fun (acc : AddressMetrics * AddressMetrics) tx =>
       if negb (status tx) then acc
       else
         let sender := Js.toLowerCase (from tx) in
         let receiver := Js.toLowerCase (to tx) in
         (bump sender (value tx) (fst acc), bump receiver (value tx) (snd acc)))
    newTransactions (senderMetrics0, receiverMetrics0).

(** what the loop over the new transactions accumulates *)
Record FlowAcc : Type := {
  acc_newVolume : Z;
  acc_newLargeTransfers : list LargeTransfer;
  acc_newBurnTransactions : list BurnTransaction;
  acc_newTransferSizes : list Z;
  acc_uniqueAddresses : list string;
  acc_volume1h : Z;
  acc_volume6h : Z;
  acc_volume24h : Z
}.

Definition HOUR : Z := 60 * 60 * 1000.

Definition flow_step (config : TokenConfig) (now : Z) (acc : FlowAcc) (tx : Transaction)
  : FlowAcc :=
  if negb (status tx) then acc
  else
    let value := value tx in
    let txTime := timestamp tx in
    {| acc_newVolume := acc_newVolume acc + value;
       acc_newTransferSizes := acc_newTransferSizes acc ++ [value];
       acc_uniqueAddresses :=
         Js.set_add (Js.toLowerCase (to tx))
           (Js.set_add (Js.toLowerCase (from tx)) (acc_uniqueAddresses acc));
       acc_volume1h :=
         if now - HOUR <=? txTime then acc_volume1h acc + value else acc_volume1h acc;
       acc_volume6h :=
         if now - 6 * HOUR <=? txTime then acc_volume6h acc + value else acc_volume6h acc;
       acc_volume24h :=
         if now - 24 * HOUR <=? txTime then acc_volume24h acc + value else acc_volume24h acc;
       acc_newLargeTransfers :=
         if Js.geb (Js.Number value) (largeTransfer (thresholds config))
         then acc_newLargeTransfers acc ++
              [{| lt_txHash := txHash tx; lt_from := from tx; lt_to := to tx;
                  lt_value := value; lt_timestamp := timestamp tx |}]
         else acc_newLargeTransfers acc;
       acc_newBurnTransactions :=
         if String.eqb (Js.toLowerCase (to tx)) (Js.toLowerCase BURN_ADDRESS)
         then acc_newBurnTransactions acc ++
              [{| bt_txHash := txHash tx; bt_from := from tx;
                  bt_value := value; bt_timestamp := timestamp tx |}]
         else acc_newBurnTransactions acc |}.

Definition analyzeCumulativeFlows (newTransactions : list Transaction)
  (config : TokenConfig) (previousSnapshot : option MemeCoinSnapshot) (now : Z)
  : FlowMetrics :=
  let previousMetrics := option_map flowMetrics previousSnapshot in
  let prev {A : Type} (f : FlowMetrics -> A) (d : A) : A :=
    match previousMetrics with Some pm => f pm | None => d end in
  let '(senderMetrics, receiverMetrics) :=
    mergeSenderReceiverMetrics newTransactions previousMetrics in
  let acc :=
    fold_left (flow_step config now) newTransactions
      {| acc_newVolume := 0;
         acc_newLargeTransfers := [];
         acc_newBurnTransactions := [];
         acc_newTransferSizes := [];
         acc_uniqueAddresses := Js.set_of_list (prev uniqueAddresses []);
         acc_volume1h := prev last1h 0;
         acc_volume6h := prev last6h 0;
         acc_volume24h := prev last24h 0 |} in
  let allLargeTransfers :=
    Js.slice0 100 (acc_newLargeTransfers acc
                   ++ Js.slice0 50 (prev largeTransfers [])) in
  let allBurnTransactions :=
    Js.slice0 100 (acc_newBurnTransactions acc
                   ++ Js.slice0 50 (prev burnTransactions [])) in
  let cumulativeTotalVolume := prev totalVolume 0 + acc_newVolume acc in
  let cumulativeTotalTransfers :=
    prev totalTransfers 0 + Z.of_nat (length newTransactions) in
  let topSenders :=
    map (fun e : string * (Z * Z) =>
           {| ts_address := fst e; totalSent := fst (snd e);
              ts_transactionCount := snd (snd e) |})
        (Js.slice0 10
           (Js.sort (fun a b : string * (Z * Z) => fst (snd b) - fst (snd a))
                    senderMetrics)) in
  let topReceivers :=
    map (fun e : string * (Z * Z) =>
           {| tr_address := fst e; totalReceived := fst (snd e);
              tr_transactionCount := snd (snd e) |})
        (Js.slice0 10
           (Js.sort (fun a b : string * (Z * Z) => fst (snd b) - fst (snd a))
                    receiverMetrics)) in
  let avgTransferSize :=
    if 0 <? cumulativeTotalTransfers
    then Z.quot cumulativeTotalVolume cumulativeTotalTransfers
    else 0 in
  let sortedNewSizes := Js.sort (fun a b : Z => a - b) (acc_newTransferSizes acc) in
  let medianTransferSize :=
    match sortedNewSizes with
    | [] => prev medianTransferSize 0
    | _ :: _ => nth (Nat.div2 (length sortedNewSizes)) sortedNewSizes 0
    end in
  {| totalTransfers := cumulativeTotalTransfers;
     totalVolume := cumulativeTotalVolume;
     uniqueAddresses := acc_uniqueAddresses acc;
     largeTransfers := allLargeTransfers;
     burnTransactions := allBurnTransactions;
     topSenders := topSenders;
     topReceivers := topReceivers;
     last1h := acc_volume1h acc;
     last6h := acc_volume6h acc;
     last24h := acc_volume24h acc;
     avgTransferSize := avgTransferSize;
     medianTransferSize := medianTransferSize;
     transferFrequency := Z.of_nat (length newTransactions);
     processedTransactionHashes :=
       Js.slice0 1000 (map txHash newTransactions
                       ++ prev processedTransactionHashes []) |}.

Definition within_last_hour (now ts : Z) : bool := now - HOUR <=? ts.

Definition touches_watched (config : TokenConfig) (tx : Transaction) : bool :=
  existsb
    (fun addr =>
       String.eqb (Js.toLowerCase addr) (Js.toLowerCase (from tx))
       || String.eqb (Js.toLowerCase addr) (Js.toLowerCase (to tx)))
    (watchedAddresses config).

Definition mkAlert (t : AlertType) (s : Severity) (now : Z) : AlertData :=
  {| alert_type := t; severity := s; alert_timestamp := now |}.

(** [alerts.push(...)] guarded by a condition *)
Definition alert_if (cond : bool) (a : AlertData) : list AlertData :=
  if cond then [a] else [].

(** [BigInt(config.thresholds.largeTransfer * 10)] raises a RangeError on
    a fractional product, which aborts the detection *)
Definition detectAlerts (metrics : FlowMetrics) (config : TokenConfig)
  (previousSnapshot : option MemeCoinSnapshot) (newTransactions : list Transaction)
  (now : Z) : outcome (list AlertData) :=
  let recentLargeTransfers :=
    filter (fun t => within_last_hour now (lt_timestamp t)) (largeTransfers metrics) in
  let recentBurns :=
    filter (fun b => within_last_hour now (bt_timestamp b)) (burnTransactions metrics) in
  match Js.BigInt (Js.mul (largeTransfer (thresholds config)) (Js.Number 10)) with
  | None => Thrown RangeError
  | Some whaleThreshold =>
      let whaleMovements :=
        filter (fun s => whaleThreshold <=? totalSent s) (topSenders metrics) in
      let volumeSpikeAlert :=
        match previousSnapshot with
        | None => []
        | Some prev =>
            let currentVolume := last24h metrics in
            let previousVolume := last24h (flowMetrics prev) in
            if 0 <? previousVolume then
              let volumeChangePercent :=
                Js.Number (Z.quot ((currentVolume - previousVolume) * 100) previousVolume) in
              alert_if (Js.gtb volumeChangePercent (volumeSpike (thresholds config)))
                       (mkAlert VOLUME_SPIKE MEDIUM now)
            else []
        end in
      let suspiciousPatterns :=
        filter
          (fun s =>
             (100 <? ts_transactionCount s)
             && Js.ltb (Js.div (Js.Number (totalSent s))
                               (Js.Number (ts_transactionCount s)))
                       (Js.Number 100))
          (topSenders metrics) in
      let watchedActivity := filter (touches_watched config) newTransactions in
      Returned
        (alert_if (negb (Nat.eqb (length recentLargeTransfers) 0))
                  (mkAlert LARGE_TRANSFER HIGH now)
         ++ alert_if (negb (Nat.eqb (length recentBurns) 0))
                     (mkAlert BURN_DETECTED MEDIUM now)
         ++ alert_if (negb (Nat.eqb (length whaleMovements) 0))
                     (mkAlert WHALE_MOVEMENT HIGH now)
         ++ volumeSpikeAlert
         ++ alert_if (negb (Nat.eqb (length suspiciousPatterns) 0))
                     (mkAlert SUSPICIOUS_PATTERN MEDIUM now)
         ++ alert_if (negb (Nat.eqb (length watchedActivity) 0))
                     (mkAlert WATCHED_WALLET_ACTIVITY LOW now))
  end.

Definition count_severity (s : Severity) (alerts : list AlertData) : Z :=
  Z.of_nat (length (filter (fun a => Severity_eqb (severity a) s) alerts)).

Definition calculateRiskScore (metrics : FlowMetrics) (alerts : list AlertData)
  (now : Z) : Z :=
  let riskScore := 1 in
  let recentLargeTransfers :=
    filter (fun t => within_last_hour now (lt_timestamp t)) (largeTransfers metrics) in
  let riskScore :=
    if Nat.ltb 5 (length recentLargeTransfers) then riskScore + 2
    else if Nat.ltb 0 (length recentLargeTransfers) then riskScore + 1
    else riskScore in
  let riskScore :=
    if 0 <? totalVolume metrics then
      let topSenderVolume :=
        match topSenders metrics with
        | s :: _ => totalSent s
        | [] => 0
        end in
      let concentration :=
        Js.Number (Z.quot (topSenderVolume * 100) (totalVolume metrics)) in
      if Js.gtb concentration (Js.Number 50) then riskScore + 2
      else if Js.gtb concentration (Js.Number 25) then riskScore + 1
      else riskScore
    else riskScore in
  let riskScore := riskScore + count_severity HIGH alerts * 2 in
  let riskScore := riskScore + count_severity MEDIUM alerts in
  let riskScore :=
    if 20 <? transferFrequency metrics then riskScore + 1 else riskScore in
  Z.min riskScore 10.

(** [MemeCoinSnapshotSchema]: the constraints that can reject a document *)
Definition dataQuality_enum : list string := ["LIMITED"; "PARTIAL"; "COMPLETE"].

Definition validate (doc : MemeCoinSnapshot) : option string :=
  if negb (Mongoose.required (tokenAddress doc)) then Some "tokenAddress"
  else if negb (Mongoose.enum Networks.schema_network_enum (network doc))
  then Some "network"
  else if negb (Mongoose.within 0 10 (riskScore doc)) then Some "riskScore"
  else if negb (Mongoose.enum dataQuality_enum (dataQuality (analysisMetadata doc)))
  then Some "analysisMetadata.dataQuality"
  else None.

(** [MemeCoinSnapshot.findOne({ tokenAddress, network }).sort({ timestamp: -1 })] *)
Definition findPrevious (tokenAddress_ network_ : string) (db : list MemeCoinSnapshot)
  : option MemeCoinSnapshot :=
  findLatest
    (fun s => String.eqb (tokenAddress s) tokenAddress_
              && String.eqb (network s) network_)
    snapshot_timestamp db.

(** the reads of the wall clock during one cycle, in program order *)
Record Clock : Type := {
  now_flows : Z;
  now_alerts : Z;
  now_risk : Z;
  now_snapshot : Z
}.

(** one analyser cycle: the value the promise settles with ([None] is
    [null]) and the collection afterwards *)
Definition analyzeCoinFlows (config : TokenConfig) (network_ : string)
  (feed : Feed) (clock : Clock) (db : list MemeCoinSnapshot)
  : outcome (option MemeCoinSnapshot) * list MemeCoinSnapshot :=
  match Networks.getNetworkConfig network_ with
  | Thrown e => (Thrown e, db)
  | Returned _ =>
      if negb (Js.isValidEthereumAddress (address config))
      then (Thrown (InvalidAddressFormat (address config)), db)
      else
        let '(latestTransactions, tokenInfo_) := fetchLatestTransactions feed in
        match tokenInfo_ with
        | None => (Thrown (TokenInfoUnavailable (address config)), db)
        | Some info =>
            let previousSnapshot := findPrevious (address config) network_ db in
            let newTransactions :=
              getNewTransactions latestTransactions previousSnapshot in
            match newTransactions with
            | [] => (Returned None, db)
            | _ :: _ =>
                let flowMetrics_ :=
                  analyzeCumulativeFlows newTransactions config previousSnapshot
                                         (now_flows clock) in
                match detectAlerts flowMetrics_ config previousSnapshot
                                   newTransactions (now_alerts clock) with
                | Thrown e => (Thrown e, db)
                | Returned alerts_ =>
                    let riskScore_ :=
                      calculateRiskScore flowMetrics_ alerts_ (now_risk clock) in
                    let snapshot :=
                      {| tokenAddress := address config;
                         network := network_;
                         tokenInfo := info;
                         snapshot_timestamp := now_snapshot clock;
                         flowMetrics := flowMetrics_;
                         alerts := alerts_;
                         riskScore := riskScore_;
                         analysisMetadata :=
                           {| transactionsAnalyzed :=
                                Z.of_nat (length latestTransactions);
                              newTransactionsThisBatch :=
                                Z.of_nat (length newTransactions);
                              cumulativeTransactions := totalTransfers flowMetrics_;
                              dataQuality :=
                                if 100 <? totalTransfers flowMetrics_ then "COMPLETE"
                                else if 10 <? totalTransfers flowMetrics_ then "PARTIAL"
                                else "LIMITED";
                              lastUpdated := now_snapshot clock |} |} in
                    match Mongoose.save validate snapshot db with
                    | (Thrown e, db') => (Thrown e, db')
                    | (Returned _, db') => (Returned (Some snapshot), db')
                    end
                end
            end
        end
  end.

End Token.

(** ** NFT movement analyser ([services/nft.ts], [models/NFTSnapshot.ts]) *)

Module Nft.

Record NFTTokenInfo : Type := {
  hash : string;
  name : string;
  symbol : string;
  totalSupply : string
}.

(** [actionType] and [tokenHash] are never read by the analyser *)
Record NFTTransaction : Type := {
  timestamp : Z;
  from : string;
  to : string;
  tokenItemId : string;
  txHash : string;
  status : bool;
  fee : Z;
  token : option NFTTokenInfo
}.

Record Transfer : Type := {
  th_tokenId : string;
  th_from : string;
  th_to : string;
  th_txHash : string;
  th_timestamp : Z;
  th_fee : Z
}.

Record Mint : Type := {
  mt_tokenId : string;
  mt_to : string;
  mt_txHash : string;
  mt_timestamp : Z;
  mt_fee : Z
}.

Record Burn : Type := {
  bn_tokenId : string;
  bn_from : string;
  bn_txHash : string;
  bn_timestamp : Z;
  bn_fee : Z
}.

(** what the object [currentHolders] holds under a key, and so what the
    holder statistics are keyed by: a string, or a value that is not one
    (an object internal to the ODM) *)
Inductive HolderValue : Type :=
| Text (s : string)
| Internal (what : string).

(** [a === b] *)
Definition HolderValue_eqb (a b : HolderValue) : bool :=
  match a, b with
  | Text x, Text y => String.eqb x y
  | Internal x, Internal y => String.eqb x y
  | _, _ => false
  end.

Record TopHolder : Type := {
  h_address : HolderValue;
  tokenCount : Z;
  tokensOwned : list string
}.

Record ActiveTrader : Type := {
  t_address : string;
  t_totalTransfers : Z;
  uniqueTokensTraded : Z
}.

Record TradedToken : Type := {
  tt_tokenId : string;
  transferCount : Z;
  uniqueOwners : Z
}.

Record FeeDistribution : Type := { low : Z; medium : Z; high : Z }.

Record NFTMovementMetrics : Type := {
  totalTransfers : Z;
  uniqueHolders : list string;
  currentHolders : list (string * HolderValue);
  transferHistory : list Transfer;
  mintTransactions : list Mint;
  burnTransactions : list Burn;
  topHolders : list TopHolder;
  mostActiveTraders : list ActiveTrader;
  last1h : Z;
  last6h : Z;
  last24h : Z;
  avgHoldingTime : Z;
  mostTradedTokens : list TradedToken;
  transferFrequency : Z;
  flippingActivity : Z;
  avgTransactionFee : Z;
  totalFeesGenerated : Z;
  feeDistribution : FeeDistribution;
  processedTransactionHashes : list string
}.

Inductive AlertType : Type :=
| MASS_TRANSFER | WHALE_ACCUMULATION | SUSPICIOUS_MINTING
| HIGH_ACTIVITY_SPIKE | WASH_TRADING | WATCHED_WALLET_ACTIVITY.

Record NFTAlertData : Type := {
  alert_type : AlertType;
  severity : Severity;
  alert_timestamp : Z
}.

Record Thresholds : Type := {
  massTransferCount : Js.number;
  whaleTokenCount : Js.number;
  suspiciousMintRate : Js.number;
  highActivitySpike : Js.number
}.

Record NFTConfig : Type := {
  address : string;
  cfg_name : string;
  cfg_symbol : string;
  thresholds : Thresholds;
  watchedAddresses : list string
}.

Record AnalysisMetadata : Type := {
  transactionsAnalyzed : Z;
  newTransactionsThisBatch : Z;
  cumulativeTransactions : Z;
  uniqueTokensTracked : Z;
  uniqueHoldersCount : Z;
  dataQuality : string;
  lastUpdated : Z
}.

Record NFTSnapshot : Type := {
  tokenAddress : string;
  network : string;
  tokenInfo : NFTTokenInfo;
  snapshot_timestamp : Z;
  movementMetrics : NFTMovementMetrics;
  alerts : list NFTAlertData;
  riskScore : Z;
  analysisMetadata : AnalysisMetadata
}.

Definition ZERO_ADDRESS : string := "0x0000000000000000000000000000000000000000".

(** the single endpoint; [None] is a failed request or a body without
    [items], both caught and turned into an empty page *)
Definition Feed : Type := option (list NFTTransaction).

Definition fetchLatestNFTTransactions (feed : Feed)
  : list NFTTransaction * option NFTTokenInfo :=
  match feed with
  | None => ([], None)
  | Some transactions =>
      (transactions,
       match transactions with
       | tx :: _ => token tx
       | [] => None
       end)
  end.

Definition getNewNFTTransactions (latestTransactions : list NFTTransaction)
  (previousSnapshot : option NFTSnapshot) : list NFTTransaction :=
  match previousSnapshot with
  | None => latestTransactions
  | Some prev =>
      let processedHashes := processedTransactionHashes (movementMetrics prev) in
      filter (fun tx => negb (Js.includes processedHashes (txHash tx)))
             latestTransactions
  end.

(** per trader: transfer count and the set of token ids seen this cycle *)
Definition TraderStats : Type := list (string * (Z * list string)).
(** per holder: token count and the token ids owned; a [Map] keyed by
    whatever the holder table holds *)
Definition HolderStats : Type := list (HolderValue * (Z * list string)).

Fixpoint holder_get (k : HolderValue) (m : HolderStats) : option (Z * list string) :=
  match m with
  | [] => None
  | (k', v) :: m' => if HolderValue_eqb k' k then Some v else holder_get k m'
  end.

Fixpoint holder_set (k : HolderValue) (v : Z * list string) (m : HolderStats)
  : HolderStats :=
  match m with
  | [] => [(k, v)]
  | (k', v') :: m' =>
      if HolderValue_eqb k' k then (k', v) :: m' else (k', v') :: holder_set k v m'
  end.

(** [{ ...map }] for the holder table of a snapshot read back from the
    collection, which is a Mongoose [Map]: a [Map] keeps its entries in
    internal slots, so the spread copies none of them; what it copies
    are the own bookkeeping fields of the instance *)
Definition spread_stored_map (entries : list (string * HolderValue))
  : list (string * HolderValue) :=
  [ ("$__parent", Internal "document");
    ("$__path", Text "movementMetrics.currentHolders");
    ("$__schemaType", Internal "schema type") ].

Definition trade (who tokenId : string) (m : TraderStats) : TraderStats :=
  if String.eqb who (Js.toLowerCase ZERO_ADDRESS) then m
  else
    match Js.map_get who m with
    | Some (n, seen) => Js.map_set who (n + 1, Js.set_add tokenId seen) m
    | None => Js.map_set who (1, [tokenId]) m
    end.

(** the holder table starts from the spread of the prior snapshot's
    table, or from [{}] without a prior snapshot *)
Definition updateHolderMetrics (newTransactions : list NFTTransaction)
  (previousMetrics : option NFTMovementMetrics)
  : list (string * HolderValue) * HolderStats * TraderStats :=
  let currentHolders0 :=
    match previousMetrics with
    | Some pm => spread_stored_map (currentHolders pm)
    | None => []
    end in
  let traderStats0 : TraderStats :=
    match previousMetrics with
    | Some pm =>
        fold_left
          (fun m t => Js.map_set (Js.toLowerCase (t_address t))
                                 (t_totalTransfers t, []) m)
          (mostActiveTraders pm) []
    | None => []
    end in
  let '(currentHolders_, traderStats) :=
    fold_left
      (fun (acc : list (string * HolderValue) * TraderStats) tx =>
         if negb (status tx) then acc
         else
           let tokenId := tokenItemId tx in
           let from_ := Js.toLowerCase (from tx) in
           let to_ := Js.toLowerCase (to tx) in
           (Js.obj_set tokenId (Text to_) (fst acc),
            trade to_ tokenId (trade from_ tokenId (snd acc))))
      newTransactions (currentHolders0, traderStats0) in
  let holderStats : HolderStats :=
    fold_left
      (fun (m : HolderStats) (entry : string * HolderValue) =>
         let '(tokenId, owner) := entry in
         if HolderValue_eqb owner (Text (Js.toLowerCase ZERO_ADDRESS)) then m
         else
           match holder_get owner m with
           | Some (n, owned) => holder_set owner (n + 1, owned ++ [tokenId]) m
           | None => holder_set owner (1, [tokenId]) m
           end)
      currentHolders_ [] in
  (currentHolders_, holderStats, traderStats).

(** what the loop over the new transactions accumulates *)
Record MovementAcc : Type := {
  acc_uniqueHolders : list string;
  acc_newTransferHistory : list Transfer;
  acc_newMintTransactions : list Mint;
  acc_newBurnTransactions : list Burn;
  acc_tokenTransferCounts : list (string * Z);
  acc_transfers1h : Z;
  acc_transfers6h : Z;
  acc_transfers24h : Z;
  acc_totalFees : Z;
  acc_feeDistribution : FeeDistribution;
  acc_flippingCount : Z
}.

Definition HOUR : Z := 60 * 60 * 1000.

Inductive MovementKind : Type := IsMint | IsBurn | IsTransfer.

Definition movement_kind (tx : NFTTransaction) : MovementKind :=
  if String.eqb (Js.toLowerCase (from tx)) (Js.toLowerCase ZERO_ADDRESS) then IsMint
  else if String.eqb (Js.toLowerCase (to tx)) (Js.toLowerCase ZERO_ADDRESS) then IsBurn
  else IsTransfer.

Definition movement_step (now : Z) (acc : MovementAcc) (tx : NFTTransaction)
  : MovementAcc :=
  if negb (status tx) then acc
  else
    let txTime := timestamp tx in
    let fee_ := fee tx in
    let tokenId := tokenItemId tx in
    let feeInWei := Js.Number fee_ in
    let fd := acc_feeDistribution acc in
    let kind := movement_kind tx in
    {| acc_uniqueHolders :=
         Js.set_add (Js.toLowerCase (to tx))
           (Js.set_add (Js.toLowerCase (from tx)) (acc_uniqueHolders acc));
       acc_transfers1h :=
         if now - HOUR <=? txTime then acc_transfers1h acc + 1 else acc_transfers1h acc;
       acc_transfers6h :=
         if now - 6 * HOUR <=? txTime then acc_transfers6h acc + 1
         else acc_transfers6h acc;
       acc_transfers24h :=
         if now - 24 * HOUR <=? txTime then acc_transfers24h acc + 1
         else acc_transfers24h acc;
       acc_totalFees := acc_totalFees acc + fee_;
       acc_feeDistribution :=
         if Js.ltb feeInWei (Js.Number (10 ^ 15))
         then {| low := low fd + 1; medium := medium fd; high := high fd |}
         else if Js.ltb feeInWei (Js.Number (10 ^ 16))
         then {| low := low fd; medium := medium fd + 1; high := high fd |}
         else {| low := low fd; medium := medium fd; high := high fd + 1 |};
       acc_tokenTransferCounts :=
         Js.map_set tokenId
           (match Js.map_get tokenId (acc_tokenTransferCounts acc) with
            | Some c => c + 1
            | None => 1
            end)
           (acc_tokenTransferCounts acc);
       acc_newMintTransactions :=
         match kind with
         | IsMint =>
             acc_newMintTransactions acc ++
             [{| mt_tokenId := tokenId; mt_to := to tx; mt_txHash := txHash tx;
                 mt_timestamp := timestamp tx; mt_fee := fee_ |}]
         | _ => acc_newMintTransactions acc
         end;
       acc_newBurnTransactions :=
         match kind with
         | IsBurn =>
             acc_newBurnTransactions acc ++
             [{| bn_tokenId := tokenId; bn_from := from tx; bn_txHash := txHash tx;
                 bn_timestamp := timestamp tx; bn_fee := fee_ |}]
         | _ => acc_newBurnTransactions acc
         end;
       acc_newTransferHistory :=
         match kind with
         | IsTransfer =>
             acc_newTransferHistory acc ++
             [{| th_tokenId := tokenId; th_from := from tx; th_to := to tx;
                 th_txHash := txHash tx; th_timestamp := timestamp tx;
                 th_fee := fee_ |}]
         | _ => acc_newTransferHistory acc
         end;
       acc_flippingCount :=
         match kind with
         | IsTransfer =>
             if now - 24 * HOUR <=? txTime then acc_flippingCount acc + 1
             else acc_flippingCount acc
         | _ => acc_flippingCount acc
         end |}.

Definition analyzeCumulativeNFTMovements (newTransactions : list NFTTransaction)
  (config : NFTConfig) (previousSnapshot : option NFTSnapshot) (now : Z)
  : NFTMovementMetrics :=
  let previousMetrics := option_map movementMetrics previousSnapshot in
  let prev {A : Type} (f : NFTMovementMetrics -> A) (d : A) : A :=
    match previousMetrics with Some pm => f pm | None => d end in
  let '(currentHolders_, holderStats, traderStats) :=
    updateHolderMetrics newTransactions previousMetrics in
  let acc :=
    fold_left (movement_step now) newTransactions
      {| acc_uniqueHolders := Js.set_of_list (prev uniqueHolders []);
         acc_newTransferHistory := [];
         acc_newMintTransactions := [];
         acc_newBurnTransactions := [];
         acc_tokenTransferCounts := [];
         acc_transfers1h := prev last1h 0;
         acc_transfers6h := prev last6h 0;
         acc_transfers24h := prev last24h 0;
         acc_totalFees := prev totalFeesGenerated 0;
         acc_feeDistribution :=
           prev feeDistribution {| low := 0; medium := 0; high := 0 |};
         acc_flippingCount := 0 |} in
  let allTransferHistory :=
    Js.slice0 1000 (acc_newTransferHistory acc
                    ++ Js.slice0 500 (prev transferHistory [])) in
  let allMintTransactions :=
    Js.slice0 500 (acc_newMintTransactions acc
                   ++ Js.slice0 200 (prev mintTransactions [])) in
  let allBurnTransactions :=
    Js.slice0 500 (acc_newBurnTransactions acc
                   ++ Js.slice0 200 (prev burnTransactions [])) in
  let cumulativeTotalTransfers :=
    prev totalTransfers 0 + Z.of_nat (length newTransactions) in
  let topHolders :=
    map (fun e : HolderValue * (Z * list string) =>
           {| h_address := fst e; tokenCount := fst (snd e);
              tokensOwned := snd (snd e) |})
        (Js.slice0 10
           (Js.sort (fun a b : HolderValue * (Z * list string) =>
                       fst (snd b) - fst (snd a))
                    holderStats)) in
  let mostActiveTraders :=
    map (fun e : string * (Z * list string) =>
           {| t_address := fst e; t_totalTransfers := fst (snd e);
              uniqueTokensTraded := Z.of_nat (length (snd (snd e))) |})
        (Js.slice0 10
           (Js.sort (fun a b : string * (Z * list string) => fst (snd b) - fst (snd a))
                    traderStats)) in
  let mostTradedTokens :=
    map (fun e : string * Z =>
           let owners :=
             fold_left
               (fun s t => Js.set_add (th_to t) (Js.set_add (th_from t) s))
               (filter (fun t => String.eqb (th_tokenId t) (fst e)) allTransferHistory)
               [] in
           {| tt_tokenId := fst e; transferCount := snd e;
              uniqueOwners := Z.of_nat (length owners) |})
        (Js.slice0 10
           (Js.sort (fun a b : string * Z => snd b - snd a)
                    (acc_tokenTransferCounts acc))) in
  let avgFee :=
    if Nat.ltb 0 (length newTransactions)
    then Z.quot (acc_totalFees acc) (Z.max cumulativeTotalTransfers 1)
    else 0 in
  {| totalTransfers := cumulativeTotalTransfers;
     uniqueHolders := acc_uniqueHolders acc;
     currentHolders := currentHolders_;
     transferHistory := allTransferHistory;
     mintTransactions := allMintTransactions;
     burnTransactions := allBurnTransactions;
     topHolders := topHolders;
     mostActiveTraders := mostActiveTraders;
     last1h := acc_transfers1h acc;
     last6h := acc_transfers6h acc;
     last24h := acc_transfers24h acc;
     avgHoldingTime := 168;
     mostTradedTokens := mostTradedTokens;
     transferFrequency := Z.of_nat (length newTransactions);
     flippingActivity := acc_flippingCount acc;
     avgTransactionFee := avgFee;
     totalFeesGenerated := acc_totalFees acc;
     feeDistribution := acc_feeDistribution acc;
     processedTransactionHashes :=
       Js.slice0 2000 (map txHash newTransactions
                       ++ prev processedTransactionHashes []) |}.

Definition within_last (span now ts : Z) : bool := now - span <=? ts.

Definition touches_watched (config : NFTConfig) (tx : NFTTransaction) : bool :=
  existsb
    (fun addr =>
       String.eqb (Js.toLowerCase addr) (Js.toLowerCase (from tx))
       || String.eqb (Js.toLowerCase addr) (Js.toLowerCase (to tx)))
    (watchedAddresses config).

Definition mkAlert (t : AlertType) (s : Severity) (now : Z) : NFTAlertData :=
  {| alert_type := t; severity := s; alert_timestamp := now |}.

Definition alert_if (cond : bool) (a : NFTAlertData) : list NFTAlertData :=
  if cond then [a] else [].

Definition detectNFTAlerts (metrics : NFTMovementMetrics) (config : NFTConfig)
  (previousSnapshot : option NFTSnapshot) (newTransactions : list NFTTransaction)
  (now : Z) : list NFTAlertData :=
  let th := thresholds config in
  let whales :=
    filter (fun h => Js.geb (Js.Number (tokenCount h)) (whaleTokenCount th))
           (topHolders metrics) in
  let recentMints :=
    filter (fun m => within_last HOUR now (mt_timestamp m)) (mintTransactions metrics) in
  let activitySpike :=
    match previousSnapshot with
    | None => []
    | Some prev =>
        let currentActivity := last24h metrics in
        let previousActivity := last24h (movementMetrics prev) in
        if 0 <? previousActivity then
          let activityChangePercent :=
            Js.mul (Js.div (Js.Number (currentActivity - previousActivity))
                           (Js.Number previousActivity))
                   (Js.Number 100) in
          alert_if (Js.gtb activityChangePercent (highActivitySpike th))
                   (mkAlert HIGH_ACTIVITY_SPIKE MEDIUM now)
        else []
    end in
  let potentialWashTrading :=
    filter (fun t => (20 <? t_totalTransfers t) && (uniqueTokensTraded t <? 3))
           (mostActiveTraders metrics) in
  let watchedActivity := filter (touches_watched config) newTransactions in
  alert_if (Js.gtb (Js.Number (last1h metrics)) (massTransferCount th))
           (mkAlert MASS_TRANSFER HIGH now)
  ++ alert_if (negb (Nat.eqb (length whales) 0))
              (mkAlert WHALE_ACCUMULATION MEDIUM now)
  ++ alert_if (Js.gtb (Js.Number (Z.of_nat (length recentMints)))
                      (suspiciousMintRate th))
              (mkAlert SUSPICIOUS_MINTING HIGH now)
  ++ activitySpike
  ++ alert_if (negb (Nat.eqb (length potentialWashTrading) 0))
              (mkAlert WASH_TRADING MEDIUM now)
  ++ alert_if (negb (Nat.eqb (length watchedActivity) 0))
              (mkAlert WATCHED_WALLET_ACTIVITY LOW now).

Definition count_severity (s : Severity) (alerts : list NFTAlertData) : Z :=
  Z.of_nat (length (filter (fun a => Severity_eqb (severity a) s) alerts)).

Definition calculateNFTRiskScore (metrics : NFTMovementMetrics)
  (alerts : list NFTAlertData) (now : Z) : Z :=
  let riskScore := 1 in
  let riskScore :=
    if 50 <? last1h metrics then riskScore + 3
    else if 20 <? last1h metrics then riskScore + 2
    else if 10 <? last1h metrics then riskScore + 1
    else riskScore in
  let riskScore :=
    match topHolders metrics with
    | [] => riskScore
    | top :: _ =>
        let totalSupply := Z.of_nat (length (currentHolders metrics)) in
        let concentration :=
          Js.mul (Js.div (Js.Number (tokenCount top)) (Js.Number totalSupply))
                 (Js.Number 100) in
        if Js.gtb concentration (Js.Number 50) then riskScore + 2
        else if Js.gtb concentration (Js.Number 25) then riskScore + 1
        else riskScore
    end in
  let recentMints :=
    filter (fun m => within_last (24 * HOUR) now (mt_timestamp m))
           (mintTransactions metrics) in
  let riskScore :=
    if Nat.ltb 100 (length recentMints) then riskScore + 2
    else if Nat.ltb 50 (length recentMints) then riskScore + 1
    else riskScore in
  let riskScore := riskScore + count_severity HIGH alerts * 2 in
  let riskScore := riskScore + count_severity MEDIUM alerts in
  let riskScore :=
    if 20 <? flippingActivity metrics then riskScore + 1 else riskScore in
  Z.min riskScore 10.

(** [NFTSnapshotSchema]: required paths, enums and ranges *)
Definition dataQuality_enum : list string := ["COMPLETE"; "PARTIAL"; "LIMITED"].

Definition valid_tokenInfo (i : NFTTokenInfo) : bool :=
  Mongoose.required (hash i) && Mongoose.required (name i)
  && Mongoose.required (symbol i) && Mongoose.required (totalSupply i).

Definition valid_transfer (t : Transfer) : bool :=
  Mongoose.required (th_tokenId t) && Mongoose.required (th_from t)
  && Mongoose.required (th_to t) && Mongoose.required (th_txHash t).

Definition valid_mint (m : Mint) : bool :=
  Mongoose.required (mt_tokenId m) && Mongoose.required (mt_to m)
  && Mongoose.required (mt_txHash m).

Definition valid_burn (b : Burn) : bool :=
  Mongoose.required (bn_tokenId b) && Mongoose.required (bn_from b)
  && Mongoose.required (bn_txHash b).

(** the cast of the holder table to a [Map] of [String]: a key may not
    start with [$], hold a dot or be a reserved name, and a value must be
    a string *)
Definition valid_map_key (k : string) : bool :=
  negb (String.prefix "$" k)
  && negb (existsb (Ascii.eqb ".") (list_ascii_of_string k))
  && negb (Js.includes ["__proto__"; "constructor"; "prototype"] k).

Definition castable_holders (o : list (string * HolderValue)) : bool :=
  forallb
    (fun e : string * HolderValue =>
       valid_map_key (fst e)
       && match snd e with Text _ => true | Internal _ => false end)
    o.

(** [address: { type: String, required: true }] *)
Definition valid_holder_address (a : HolderValue) : bool :=
  match a with
  | Text s => Mongoose.required s
  | Internal _ => false
  end.

Definition valid_metrics (m : NFTMovementMetrics) : bool :=
  forallb valid_transfer (transferHistory m)
  && forallb valid_mint (mintTransactions m)
  && forallb valid_burn (burnTransactions m)
  && forallb (fun h => valid_holder_address (h_address h)) (topHolders m)
  && forallb (fun t => Mongoose.required (t_address t)) (mostActiveTraders m)
  && forallb (fun t => Mongoose.required (tt_tokenId t)) (mostTradedTokens m).

Definition validate (doc : NFTSnapshot) : option string :=
  if negb (Mongoose.required (tokenAddress doc)) then Some "tokenAddress"
  else if negb (Mongoose.enum Networks.schema_network_enum (network doc))
  then Some "network"
  else if negb (valid_tokenInfo (tokenInfo doc)) then Some "tokenInfo"
  else if negb (castable_holders (currentHolders (movementMetrics doc)))
  then Some "movementMetrics.currentHolders"
  else if negb (valid_metrics (movementMetrics doc)) then Some "movementMetrics"
  else if negb (Mongoose.within 1 10 (riskScore doc)) then Some "riskScore"
  else if negb (Mongoose.enum dataQuality_enum (dataQuality (analysisMetadata doc)))
  then Some "analysisMetadata.dataQuality"
  else None.

(** [NFTSnapshot.findOne({ tokenAddress, network }).sort({ timestamp: -1 })];
    the schema's [lowercase] setter applies to the stored address and to
    the address in the filter alike *)
Definition findPrevious (tokenAddress_ network_ : string) (db : list NFTSnapshot)
  : option NFTSnapshot :=
  findLatest
    (fun s => String.eqb (tokenAddress s) (Js.toLowerCase tokenAddress_)
              && String.eqb (network s) network_)
    snapshot_timestamp db.

Record Clock : Type := {
  now_movements : Z;
  now_alerts : Z;
  now_risk : Z;
  now_snapshot : Z
}.

Definition analyzeNFTMovements (config : NFTConfig) (network_ : string)
  (feed : Feed) (clock : Clock) (db : list NFTSnapshot)
  : outcome (option NFTSnapshot) * list NFTSnapshot :=
  match Networks.getNetworkConfig network_ with
  | Thrown e => (Thrown e, db)
  | Returned _ =>
      if negb (Js.isValidEthereumAddress (address config))
      then (Thrown (InvalidAddressFormat (address config)), db)
      else
        let '(latestTransactions, tokenInfo_) := fetchLatestNFTTransactions feed in
        match tokenInfo_ with
        | None => (Thrown (TokenInfoUnavailable (address config)), db)
        | Some info =>
            let previousSnapshot := findPrevious (address config) network_ db in
            let newTransactions :=
              getNewNFTTransactions latestTransactions previousSnapshot in
            match newTransactions with
            | [] => (Returned None, db)
            | _ :: _ =>
                let movementMetrics_ :=
                  analyzeCumulativeNFTMovements newTransactions config
                    previousSnapshot (now_movements clock) in
                let alerts_ :=
                  detectNFTAlerts movementMetrics_ config previousSnapshot
                                  newTransactions (now_alerts clock) in
                let riskScore_ :=
                  calculateNFTRiskScore movementMetrics_ alerts_ (now_risk clock) in
                let snapshot :=
                  {| tokenAddress := Js.toLowerCase (address config);
                     network := network_;
                     tokenInfo := info;
                     snapshot_timestamp := now_snapshot clock;
                     movementMetrics := movementMetrics_;
                     alerts := alerts_;
                     riskScore := riskScore_;
                     analysisMetadata :=
                       {| transactionsAnalyzed := Z.of_nat (length latestTransactions);
                          newTransactionsThisBatch :=
                            Z.of_nat (length newTransactions);
                          cumulativeTransactions := totalTransfers movementMetrics_;
                          uniqueTokensTracked :=
                            Z.of_nat (length (currentHolders movementMetrics_));
                          uniqueHoldersCount :=
                            Z.of_nat (length (uniqueHolders movementMetrics_));
                          dataQuality :=
                            if 100 <? totalTransfers movementMetrics_ then "COMPLETE"
                            else if 10 <? totalTransfers movementMetrics_ then "PARTIAL"
                            else "LIMITED";
                          lastUpdated := now_snapshot clock |} |} in
                match Mongoose.save validate snapshot db with
                | (Thrown e, db') => (Thrown e, db')
                | (Returned _, db') => (Returned (Some snapshot), db')
                end
            end
        end
  end.

End Nft.

(** ** Wallet analyser ([services/run.ts], [models/WalletSnapshot.ts]) *)

Module Wallet.

(** [gasLimit] and [failureReason] are never read; an absent [to],
    [data] or [method] is the empty string, which is falsy as well *)
Record Transaction : Type := {
  hash : string;
  timestamp : Z;
  value : Z;
  fee : Z;
  type : Z;
  actionType : string;
  from : string;
  to : string;
  data : string;
  method : string;
  gasPrice : Z;
  gasUsedByTransaction : Z;
  status : bool
}.

Record Erc20Token : Type := {
  contractAddress : string;
  balance : Z;
  decimals : Z
}.

Record Erc721Token : Type := {
  tokenId : string;
  nft_contractAddress : string
}.

Record TokenPrice : Type := {
  price_symbol : string;
  price_address : string;
  price : Js.number
}.

Record PortfolioValue : Type := {
  totalValue : Js.number;
  nativeValue : Js.number;
  tokenValue : Js.number
}.

Inductive AlertType : Type :=
| LARGE_TRANSACTION | HIGH_GAS_USAGE | MULTIPLE_CONTRACT_INTERACTIONS
| PORTFOLIO_VALUE_CHANGE | SUSPICIOUS_ACTIVITY.

Record Alert : Type := {
  alert_type : AlertType;
  severity : Severity;
  alert_timestamp : Z
}.

Record TransactionMetrics : Type := {
  totalIncoming : Z;
  totalOutgoing : Z;
  totalGasUsed : Z;
  totalFeesPaid : Z;
  contractInteractions : Z;
  nativeTransfers : Z;
  executionTransactions : Z;
  uniqueContracts : list string;
  transactionCategories : list (string * Z);
  avgGasPrice : Z;
  avgTransactionValue : Z;
  failedTransactions : Z;
  lastActivityTime : option Z
}.

Record AnalysisMetadata : Type := {
  apiEndpointsUsed : list string;
  dataQuality : string;
  lastUpdated : Z
}.

(** [None] for a token list is the string ["N/A"] the analyser stores
    when the token fetch failed *)
Record WalletSnapshot : Type := {
  walletAddress : string;
  network : string;
  snapshot_timestamp : Z;
  ethBalance : Js.number;
  erc20Tokens : option (list Erc20Token);
  erc721Tokens : option (list Erc721Token);
  transactionsAnalyzed : Z;
  transactionMetrics : TransactionMetrics;
  portfolioValue : PortfolioValue;
  riskScore : Z;
  alerts : list Alert;
  analysisMetadata : AnalysisMetadata
}.

Definition truthy (s : string) : bool := negb (String.eqb s "").

Definition defiMethods : list (string * string) :=
  [ ("0xa9059cbb", "ERC20_TRANSFER");
    ("0x23b872dd", "ERC20_TRANSFER_FROM");
    ("0x095ea7b3", "ERC20_APPROVE");
    ("0x7c025200", "UNISWAP_SWAP");
    ("0x38ed1739", "UNISWAP_SWAP_EXACT_TOKENS");
    ("0x8803dbee", "UNISWAP_SWAP_TOKENS_SUPPORTING_FEE");
    ("0xb6f9de95", "SUSHISWAP_SWAP");
    ("0xe8e33700", "COMPOUND_MINT");
    ("0xdb006a75", "COMPOUND_REDEEM");
    ("0xf2fde38b", "OWNERSHIP_TRANSFER");
    ("0x42842e0e", "NFT_SAFE_TRANSFER_FROM");
    ("0xff0d7c2f", "CUSTOM_EXECUTION") ].

(** [defiMethods] is a plain object, so a lookup under a name of
    [Object.prototype] finds the inherited member, which is truthy and is
    what the function then returns. The caller uses the result as a
    property key only; listed here is the text each member turns into
    there. *)
Definition native_function (name : string) : string :=
  String.append "function " (String.append name "() { [native code] }").

Definition inherited_members : list (string * string) :=
  [ ("constructor", native_function "Object");
    ("__proto__", "[object Object]");
    ("hasOwnProperty", native_function "hasOwnProperty");
    ("isPrototypeOf", native_function "isPrototypeOf");
    ("propertyIsEnumerable", native_function "propertyIsEnumerable");
    ("toLocaleString", native_function "toLocaleString");
    ("toString", native_function "toString");
    ("valueOf", native_function "valueOf");
    ("__defineGetter__", native_function "__defineGetter__");
    ("__defineSetter__", native_function "__defineSetter__");
    ("__lookupGetter__", native_function "__lookupGetter__");
    ("__lookupSetter__", native_function "__lookupSetter__") ].

Definition categorizeTransaction (tx : Transaction) : string :=
  if negb (truthy (data tx)) || String.eqb (data tx) "0x" || String.eqb (data tx) "0"
  then if type tx =? 0 then "NATIVE_TRANSFER" else "SIMPLE_CONTRACT_CALL"
  else
    let methodId :=
      if truthy (method tx) then method tx else String.substring 0 10 (data tx) in
    match Js.map_get methodId defiMethods with
    | Some label => label
    | None =>
        match Js.map_get methodId inherited_members with
        | Some member => member
        | None => "UNKNOWN_CONTRACT_INTERACTION"
        end
    end.

Definition priceData : list TokenPrice :=
  [ {| price_symbol := "SEI"; price_address := "native";
       price := Js.literal 32 100 |};
    {| price_symbol := "WSEI";
       price_address := "0xdc78b593dd44914c326d1ed37501ead48c4c5628";
       price := Js.literal 32 100 |};
    {| price_symbol := "USDC";
       price_address := "0x3894085ef7ff0f0aedf52e2a2704928d1ec074f1";
       price := Js.Number 1 |};
    {| price_symbol := "WETH";
       price_address := "0x160345fC359604fC6e70E3c5fAcbdE5F7A9342d8";
       price := Js.literal 477493 100 |};
    {| price_symbol := "ASTRO";
       price_address := "0x7fa7677c6708f0cd07724d61bfdc6be6bb15d2e7";
       price := Js.literal 85 1000 |} ].

(** [Math.pow(10, d)] is left to the engine, which need not round it
    correctly; the functions that call it take it as [pow10] *)
Definition calculatePortfolioValue (pow10 : Z -> Js.number)
  (nativeBalance : Js.number) (tokens : list Erc20Token) : PortfolioValue :=
  let nativeBalanceNum := Js.div nativeBalance (pow10 18) in
  let seiPrice :=
    match find (fun p => String.eqb (price_symbol p) "SEI") priceData with
    | Some p => Js.orElse (price p) (Js.literal 45 100)
    | None => Js.literal 45 100
    end in
  let nativeValue_ := Js.mul nativeBalanceNum seiPrice in
  let tokenValue_ :=
    fold_left
      (fun (tokenValue : Js.number) (token : Erc20Token) =>
         match find (fun p => String.eqb (Js.toLowerCase (price_address p))
                                         (Js.toLowerCase (contractAddress token)))
                    priceData with
         | Some p =>
             let decimals_ := if decimals token =? 0 then 18 else decimals token in
             let tokenBalance :=
               Js.div (Js.Number (balance token)) (pow10 decimals_) in
             Js.add tokenValue (Js.mul tokenBalance (price p))
         | None => tokenValue
         end)
      tokens (Js.Number 0) in
  {| totalValue := Js.add nativeValue_ tokenValue_;
     nativeValue := nativeValue_;
     tokenValue := tokenValue_ |}.

Definition calculateRiskScore (pow10 : Z -> Js.number)
  (transactions : list Transaction) (metrics : TransactionMetrics) : Z :=
  let n := Z.of_nat (length transactions) in
  let riskScore := 1 in
  let riskScore := if 50 <? n then riskScore + 1 else riskScore in
  let largeTransactions :=
    filter (fun tx => Js.gtb (Js.Number (value tx)) (pow10 20)) transactions in
  let riskScore :=
    if Nat.ltb 5 (length largeTransactions) then riskScore + 1 else riskScore in
  let riskScore :=
    if Nat.ltb 20 (length (uniqueContracts metrics)) then riskScore + 1
    else riskScore in
  let avgGasUsed :=
    Js.div (Js.Number (totalGasUsed metrics)) (Js.Number (Z.max n 1)) in
  let riskScore :=
    if Js.gtb avgGasUsed (Js.Number 200000) then riskScore + 1 else riskScore in
  let failedTxs := filter (fun tx => negb (status tx)) transactions in
  let riskScore :=
    if Js.gtb (Js.Number (Z.of_nat (length failedTxs)))
              (Js.mul (Js.Number n) (Js.literal 1 10))
    then riskScore + 1 else riskScore in
  let zeroValueContractCalls :=
    filter (fun tx => (type tx =? 2) && Js.eqb (Js.Number (value tx)) (Js.Number 0))
           transactions in
  let riskScore :=
    if Js.gtb (Js.Number (Z.of_nat (length zeroValueContractCalls)))
              (Js.mul (Js.Number n) (Js.literal 1 2))
    then riskScore + 1 else riskScore in
  Z.min riskScore 10.

Definition mkAlert (t : AlertType) (s : Severity) (now : Z) : Alert :=
  {| alert_type := t; severity := s; alert_timestamp := now |}.

Definition alert_if (cond : bool) (a : Alert) : list Alert :=
  if cond then [a] else [].

Definition detectAlerts (pow10 : Z -> Js.number) (transactions : list Transaction)
  (metrics : TransactionMetrics) (portfolioValue_ : Js.number)
  (previousSnapshot : option WalletSnapshot) (now : Z) : list Alert :=
  let largeTransactions :=
    filter (fun tx => Js.gtb (Js.Number (value tx)) (pow10 21)) transactions in
  let portfolioChange :=
    match previousSnapshot with
    | None => []
    | Some prev =>
        let previousValue :=
          Js.orElse (totalValue (portfolioValue prev)) (Js.Number 0) in
        let changePercent :=
          Js.mul (Js.div (Js.sub portfolioValue_ previousValue)
                         (Js.max previousValue (Js.Number 1)))
                 (Js.Number 100) in
        alert_if (Js.gtb (Js.abs changePercent) (Js.Number 20))
                 (mkAlert PORTFOLIO_VALUE_CHANGE
                    (if Js.ltb changePercent (Js.Number 0) then HIGH else MEDIUM)
                    now)
    end in
  let suspiciousPatterns :=
    filter
      (fun tx =>
         String.eqb (actionType tx) "Execute"
         && Js.eqb (Js.Number (value tx)) (Js.Number 0)
         && truthy (data tx)
         && Nat.ltb 200 (String.length (data tx)))
      transactions in
  alert_if (Nat.ltb 0 (length largeTransactions))
           (mkAlert LARGE_TRANSACTION HIGH now)
  ++ alert_if (Js.gtb (Js.Number (totalGasUsed metrics)) (pow10 18))
              (mkAlert HIGH_GAS_USAGE MEDIUM now)
  ++ alert_if (Nat.ltb 10 (length (uniqueContracts metrics)))
              (mkAlert MULTIPLE_CONTRACT_INTERACTIONS MEDIUM now)
  ++ portfolioChange
  ++ alert_if (Nat.ltb 10 (length suspiciousPatterns))
              (mkAlert SUSPICIOUS_ACTIVITY HIGH now).

(** the answer of [GET /accounts/evm/{wallet}] *)
Inductive WalletInfoResponse : Type :=
| InfoOk (address : string) (balance_ : Js.number)
| InfoNotFound
| InfoFailed.

(** everything the explorer answers during one cycle; [None] is a request
    that failed *)
Record Feed : Type := {
  walletInfo : WalletInfoResponse;
  tokens : option (list Erc20Token * list Erc721Token);
  account_transactions : option (list Transaction);
  evm_account_transactions : option (list Transaction);
  contract_transactions : option (list Transaction)
}.

(** the nested try/catch over the three transaction endpoints; [None] is
    the ["N/A"] that is left when all of them fail *)
Definition fetchTransactions (feed : Feed) : option (list Transaction) :=
  match account_transactions feed with
  | Some items => Some items
  | None =>
      match evm_account_transactions feed with
      | Some items => Some items
      | None => contract_transactions feed
      end
  end.

Definition initialMetrics : TransactionMetrics :=
  {| totalIncoming := 0;
     totalOutgoing := 0;
     totalGasUsed := 0;
     totalFeesPaid := 0;
     contractInteractions := 0;
     nativeTransfers := 0;
     executionTransactions := 0;
     uniqueContracts := [];
     transactionCategories := [];
     avgGasPrice := 0;
     avgTransactionValue := 0;
     failedTransactions := 0;
     lastActivityTime := None |}.

Definition count_category (category : string) (cats : list (string * Z))
  : list (string * Z) :=
  Js.obj_set category
    (match Js.map_get category cats with Some c => c + 1 | None => 1 end) cats.

(** the body of [transactions.forEach]; the second component is
    [totalTransactionValue] *)
Definition metrics_step (wallet : string) (acc : TransactionMetrics * Z)
  (tx : Transaction) : TransactionMetrics * Z :=
  let '(m, totalTransactionValue) := acc in
  let txValue := value tx in
  let txFee := fee tx in
  let gasUsed := gasUsedByTransaction tx in
  let categories := count_category (categorizeTransaction tx) (transactionCategories m) in
  let lastActivity :=
    match lastActivityTime m with
    | None => Some (timestamp tx)
    | Some t => if t <? timestamp tx then Some (timestamp tx) else Some t
    end in
  if negb (status tx) then
    ({| totalIncoming := totalIncoming m;
        totalOutgoing := totalOutgoing m;
        totalGasUsed := totalGasUsed m;
        totalFeesPaid := totalFeesPaid m;
        contractInteractions := contractInteractions m;
        nativeTransfers := nativeTransfers m;
        executionTransactions := executionTransactions m;
        uniqueContracts := uniqueContracts m;
        transactionCategories := categories;
        avgGasPrice := avgGasPrice m;
        avgTransactionValue := avgTransactionValue m;
        failedTransactions := failedTransactions m + 1;
        lastActivityTime := lastActivity |},
     totalTransactionValue)
  else
    let incoming :=
      truthy (to tx)
      && String.eqb (Js.toLowerCase (to tx)) (Js.toLowerCase wallet)
      && (0 <? txValue) in
    let outgoing :=
      truthy (from tx)
      && String.eqb (Js.toLowerCase (from tx)) (Js.toLowerCase wallet) in
    ({| totalIncoming := if incoming then totalIncoming m + txValue else totalIncoming m;
        totalOutgoing :=
          if outgoing && (0 <? txValue) then totalOutgoing m + txValue
          else totalOutgoing m;
        totalGasUsed := if outgoing then totalGasUsed m + gasUsed else totalGasUsed m;
        totalFeesPaid := if outgoing then totalFeesPaid m + txFee else totalFeesPaid m;
        contractInteractions :=
          if type tx =? 2 then contractInteractions m + 1 else contractInteractions m;
        nativeTransfers :=
          if type tx =? 0 then nativeTransfers m + 1 else nativeTransfers m;
        executionTransactions :=
          if String.eqb (actionType tx) "Execute" then executionTransactions m + 1
          else executionTransactions m;
        uniqueContracts :=
          if (type tx =? 2) && truthy (to tx)
          then Js.set_add (Js.toLowerCase (to tx)) (uniqueContracts m)
          else uniqueContracts m;
        transactionCategories := categories;
        avgGasPrice := avgGasPrice m;
        avgTransactionValue := avgTransactionValue m;
        failedTransactions := failedTransactions m;
        lastActivityTime := lastActivity |},
     if outgoing && (0 <? txValue) then totalTransactionValue + txValue
     else totalTransactionValue).

(** step 3 of the cycle: metrics of the fetched page, untouched when the
    page is ["N/A"] *)
Definition computeMetrics (wallet : string) (transactions : option (list Transaction))
  : TransactionMetrics :=
  match transactions with
  | None => initialMetrics
  | Some txs =>
      let '(m, totalTransactionValue) :=
        fold_left (metrics_step wallet) txs (initialMetrics, 0) in
      let successful := filter status txs in
      let successfulTxs := Z.of_nat (length successful) in
      if 0 <? successfulTxs then
        let totalGasPrice := fold_left (fun sum tx => sum + gasPrice tx) successful 0 in
        {| totalIncoming := totalIncoming m;
           totalOutgoing := totalOutgoing m;
           totalGasUsed := totalGasUsed m;
           totalFeesPaid := totalFeesPaid m;
           contractInteractions := contractInteractions m;
           nativeTransfers := nativeTransfers m;
           executionTransactions := executionTransactions m;
           uniqueContracts := uniqueContracts m;
           transactionCategories := transactionCategories m;
           avgGasPrice := Z.quot totalGasPrice successfulTxs;
           avgTransactionValue := Z.quot totalTransactionValue successfulTxs;
           failedTransactions := failedTransactions m;
           lastActivityTime := lastActivityTime m |}
      else m
  end.

(** step 6 of the cycle *)
Definition mergeWithPrevious (finalMetrics : TransactionMetrics)
  (previousSnapshot : option WalletSnapshot) : TransactionMetrics :=
  match previousSnapshot with
  | None => finalMetrics
  | Some previous =>
      let prev := transactionMetrics previous in
      {| totalIncoming := totalIncoming finalMetrics + totalIncoming prev;
         totalOutgoing := totalOutgoing finalMetrics + totalOutgoing prev;
         totalGasUsed := totalGasUsed finalMetrics + totalGasUsed prev;
         totalFeesPaid := totalFeesPaid finalMetrics + totalFeesPaid prev;
         contractInteractions :=
           contractInteractions finalMetrics + contractInteractions prev;
         nativeTransfers := nativeTransfers finalMetrics + nativeTransfers prev;
         executionTransactions :=
           executionTransactions finalMetrics + executionTransactions prev;
         uniqueContracts :=
           fold_left (fun s c => Js.set_add c s) (uniqueContracts finalMetrics)
                     (Js.set_of_list (uniqueContracts prev));
         transactionCategories :=
           fold_left
             (fun cats (entry : string * Z) =>
                Js.obj_set (fst entry)
                  (match Js.map_get (fst entry) cats with
                   | Some c => c + snd entry
                   | None => snd entry
                   end) cats)
             (transactionCategories prev) (transactionCategories finalMetrics);
         avgGasPrice := avgGasPrice finalMetrics;
         avgTransactionValue := avgTransactionValue finalMetrics;
         failedTransactions := failedTransactions finalMetrics + failedTransactions prev;
         lastActivityTime := lastActivityTime finalMetrics |}
  end.

(** [walletSnapshotSchema] with its sub-schemas: casts, required paths,
    enums and ranges *)
Definition dataQuality_enum : list string :=
  ["COMPLETE"; "LIMITED"; "PARTIAL"; "UNAVAILABLE"].

Definition validate (doc : WalletSnapshot) : option string :=
  if negb (Js.isValidEthereumAddress (walletAddress doc)) then Some "walletAddress"
  else if negb (Mongoose.enum Networks.schema_network_enum (network doc))
  then Some "network"
  else
    match erc20Tokens doc, erc721Tokens doc with
    | None, _ => Some "erc20Tokens"
    | _, None => Some "erc721Tokens"
    | Some erc20, Some erc721 =>
        if negb (forallb (fun t => Mongoose.required (contractAddress t)) erc20)
        then Some "erc20Tokens"
        else if negb (forallb (fun t => Mongoose.required (tokenId t)
                                        && Mongoose.required (nft_contractAddress t))
                              erc721)
        then Some "erc721Tokens"
        else if negb (Mongoose.within 1 10 (riskScore doc)) then Some "riskScore"
        else if negb (Mongoose.enum dataQuality_enum
                                    (dataQuality (analysisMetadata doc)))
        then Some "analysisMetadata.dataQuality"
        else None
    end.

(** [WalletSnapshot.findOne({ walletAddress, network }).sort({ timestamp: -1 })];
    the schema's [lowercase] setter applies to the stored address and to
    the address in the filter alike *)
Definition findPrevious (wallet network_ : string) (db : list WalletSnapshot)
  : option WalletSnapshot :=
  findLatest
    (fun s => String.eqb (walletAddress s) (Js.toLowerCase wallet)
              && String.eqb (network s) network_)
    snapshot_timestamp db.

(** what the engine answers during one cycle: the wall clock at its two
    reads, and [Math.pow(10, d)] *)
Record Clock : Type := {
  now_alerts : Z;
  now_snapshot : Z;
  math_pow10 : Z -> Js.number
}.

(** one analyser cycle: the snapshot the promise resolves with and the
    collection afterwards; the function has no [null] return *)
Definition createWalletSnapshot (wallet network_ : string)
  (feed : Feed) (clock : Clock) (db : list WalletSnapshot)
  : outcome WalletSnapshot * list WalletSnapshot :=
  match Networks.getNetworkConfig network_ with
  | Thrown e => (Thrown e, db)
  | Returned _ =>
      if negb (Js.isValidEthereumAddress wallet)
      then (Thrown (InvalidAddressFormat wallet), db)
      else
        match walletInfo feed with
        | InfoNotFound => (Thrown (WalletNotFound wallet), db)
        | InfoFailed => (Thrown UpstreamError, db)
        | InfoOk address balance_ =>
            if negb (truthy address)
               || negb (String.eqb (Js.toLowerCase address) (Js.toLowerCase wallet))
            then (Thrown (InvalidWalletAddress wallet), db)
            else
              let ethBalance_ := Js.orElse balance_ (Js.Number 0) in
              let erc20Tokens_ := option_map fst (tokens feed) in
              let erc721Tokens_ := option_map snd (tokens feed) in
              let transactions := fetchTransactions feed in
              let analysed :=
                match transactions with Some txs => txs | None => [] end in
              let transactionMetrics_ := computeMetrics wallet transactions in
              let portfolioData :=
                calculatePortfolioValue (math_pow10 clock) ethBalance_
                  (match erc20Tokens_ with Some l => l | None => [] end) in
              let previousSnapshot := findPrevious wallet network_ db in
              let finalMetrics := mergeWithPrevious transactionMetrics_ previousSnapshot in
              let riskScore_ :=
                calculateRiskScore (math_pow10 clock) analysed finalMetrics in
              let alerts_ :=
                detectAlerts (math_pow10 clock) analysed finalMetrics
                             (totalValue portfolioData)
                             previousSnapshot (now_alerts clock) in
              let snapshot :=
                {| walletAddress := Js.toLowerCase wallet;
                   network := network_;
                   snapshot_timestamp := now_snapshot clock;
                   ethBalance := ethBalance_;
                   erc20Tokens := erc20Tokens_;
                   erc721Tokens := erc721Tokens_;
                   transactionsAnalyzed :=
                     match transactions with
                     | None => -1
                     | Some txs => Z.of_nat (length txs)
                     end;
                   transactionMetrics := finalMetrics;
                   portfolioValue := portfolioData;
                   riskScore := riskScore_;
                   alerts := alerts_;
                   analysisMetadata :=
                     {| apiEndpointsUsed :=
                          match transactions with
                          | None => ["contract-balance-only"]
                          | Some _ => ["contract-balance"; "transactions"]
                          end;
                        dataQuality :=
                          match transactions with
                          | None => "SERVICE_UNAVAILABLE"
                          | Some txs =>
                              if Nat.ltb 0 (length txs) then "COMPLETE" else "LIMITED"
                          end;
                        lastUpdated := now_snapshot clock |} |} in
              match Mongoose.save validate snapshot db with
              | (Thrown e, db') => (Thrown e, db')
              | (Returned _, db') => (Returned snapshot, db')
              end
        end
  end.

End Wallet.

(** ** Job control plane ([models/Job.ts], [routes/job.ts], [queue/workers.ts]) *)

Module Jobs.

(** [payload.options]; an absent or falsy threshold falls back to the
    default of [runTask] *)
Record Options : Type := {
  opt_largeTransfer : option Js.number;
  opt_whalePercentage : option Js.number;
  opt_volumeSpike : option Js.number;
  opt_massTransfer : option Js.number;
  opt_whaleAccumulation : option Js.number;
  opt_suspiciousMintRate : option Js.number;
  opt_highActivitySpike : option Js.number;
  opt_watchedAddresses : option (list string)
}.

(** the action-specific payload; [None] is an absent field *)
Record Payload : Type := {
  wallet : option string;
  tokenAddress : option string;
  tokenName : option string;
  tokenSymbol : option string;
  collectionName : option string;
  collectionSymbol : option string;
  options : option Options
}.

Inductive Status : Type := pending | running | completed | failed.

Inductive Level : Type := INFO | WARN | ERROR.

Record LogEntry : Type := {
  log_timestamp : Z;
  level : Level;
  message : string
}.

Record Job : Type := {
  _id : nat;
  action : string;
  payload : Payload;
  network : string;
  type : string;
  scheduledAt : option Z;
  intervalMinutes : option Z;
  status : Status;
  lastRunAt : option Z;
  nextRunAt : option Z;
  logs : list LogEntry;
  errorDetails : option JsError
}.

(** the data a queue item carries *)
Record JobData : Type := {
  jobId : nat;
  d_action : string;
  d_payload : Payload;
  d_network : option string;
  d_type : string;
  d_scheduledAt : option Z;
  d_intervalMinutes : option Z
}.

Record Repeat : Type := {
  every : option Z;
  immediately : bool
}.

(** the options of [jobQueue.add]; an absent [delay] is [None] when
    [has_delay] is false, and a [delay] computed from an absent interval
    is [None] with [has_delay] true *)
Record AddOptions : Type := {
  has_delay : bool;
  delay : option Z;
  repeat : option Repeat
}.

Record QueueEntry : Type := {
  q_data : JobData;
  q_opts : AddOptions
}.

Definition no_options : AddOptions :=
  {| has_delay := false; delay := None; repeat := None |}.

Definition delayed (ms : option Z) : AddOptions :=
  {| has_delay := true; delay := ms; repeat := None |}.

Record Stores : Type := {
  walletSnapshots : list Wallet.WalletSnapshot;
  memeCoinSnapshots : list Token.MemeCoinSnapshot;
  nftSnapshots : list Nft.NFTSnapshot
}.

(** the state the route and the worker act on: the Job collection, the
    entries registered with the queue, the three snapshot collections,
    and whether the broker accepts each of the coming [add] calls (an
    exhausted list means it does) *)
Record World : Type := {
  jobs : list Job;
  next_id : nat;
  queue : list QueueEntry;
  broker : list bool;
  stores : Stores
}.

(** what the explorer answers and what the clock reads while one task
    runs *)
Record Env : Type := {
  wallet_feed : Wallet.Feed;
  wallet_clock : Wallet.Clock;
  token_feed : Token.Feed;
  token_clock : Token.Clock;
  nft_feed : Nft.Feed;
  nft_clock : Nft.Clock
}.

Definition set_jobs (w : World) (js : list Job) : World :=
  {| jobs := js; next_id := next_id w; queue := queue w;
     broker := broker w; stores := stores w |}.

Definition set_stores (w : World) (s : Stores) : World :=
  {| jobs := jobs w; next_id := next_id w; queue := queue w;
     broker := broker w; stores := s |}.

(** [jobQueue.add("jobs", data, opts)] *)
Definition queue_add (data : JobData) (opts : AddOptions) (w : World)
  : outcome unit * World :=
  let '(up, rest) :=
    match broker w with
    | [] => (true, [])
    | b :: bs => (b, bs)
    end in
  if up then
    (Returned tt,
     {| jobs := jobs w; next_id := next_id w;
        queue := queue w ++ [{| q_data := data; q_opts := opts |}];
        broker := rest; stores := stores w |})
  else
    (Thrown BrokerUnreachable,
     {| jobs := jobs w; next_id := next_id w; queue := queue w;
        broker := rest; stores := stores w |}).

(** whether the broker accepts the next [add] *)
Definition broker_accepts (w : World) : bool :=
  match broker w with
  | [] => true
  | b :: _ => b
  end.

(** the actions [runTask] knows *)
Definition known_actions : list string :=
  ["wallet_snapshot"; "analyze_coin_flows"; "analyze_nft_movements"].

(** [jobSchema]: required paths and enums *)
Definition type_enum : list string := ["scheduled"; "retry"].

Definition validate (action_ : string) (payload_ : option Payload)
  (network_ type_ : string) : option string :=
  if negb (Mongoose.required action_) then Some "action"
  else if match payload_ with None => true | Some _ => false end then Some "payload"
  else if negb (Mongoose.enum Networks.schema_network_enum network_) then Some "network"
  else if negb (Mongoose.enum type_enum type_) then Some "type"
  else None.

(** [JobModel.create(...)] as the route calls it *)
Definition create (action_ : string) (payload_ : option Payload)
  (network_ type_ : string) (scheduledAt_ intervalMinutes_ : option Z) (w : World)
  : outcome Job * World :=
  match validate action_ payload_ network_ type_, payload_ with
  | Some path, _ => (Thrown (ValidationError path), w)
  | None, None => (Thrown (ValidationError "payload"), w)
  | None, Some p =>
      let job :=
        {| _id := next_id w; action := action_; payload := p;
           network := network_; type := type_;
           scheduledAt := scheduledAt_; intervalMinutes := intervalMinutes_;
           status := pending; lastRunAt := None; nextRunAt := None;
           logs := []; errorDetails := None |} in
      (Returned job,
       {| jobs := jobs w ++ [job]; next_id := S (next_id w); queue := queue w;
          broker := broker w; stores := stores w |})
  end.

(** [JobModel.findByIdAndUpdate(id, update)]; nothing happens when the
    job is gone *)
Definition findByIdAndUpdate (id : nat) (update : Job -> Job) (w : World) : World :=
  set_jobs w (map (fun j => if Nat.eqb (_id j) id then update j else j) (jobs w)).

Definition findById (id : nat) (w : World) : option Job :=
  find (fun j => Nat.eqb (_id j) id) (jobs w).

(** the body of [POST /jobs] *)
Record Request : Type := {
  req_action : string;
  req_payload : option Payload;
  req_network : option string;
  req_type : string;
  req_scheduledAt : option Z;
  req_intervalMinutes : option Z
}.

Inductive Reply : Type :=
| BadRequest (error : string)
| JobScheduled (job : Job).

(** a falsy [intervalMinutes] is an absent one or [0] *)
Definition falsy_interval (i : option Z) : bool :=
  match i with
  | None => true
  | Some n => n =? 0
  end.

Definition interval_ms (i : option Z) : option Z :=
  option_map (fun n => n * 60 * 1000) i.

Definition post_jobs (req : Request) (now : Z) (w : World) : outcome Reply * World :=
  let network_ :=
    match req_network req with Some n => n | None => Networks.DEFAULT_NETWORK end in
  if negb (Networks.isValidNetwork network_)
  then (Returned (BadRequest "Invalid network"), w)
  else if String.eqb (req_type req) "scheduled"
          && match req_scheduledAt req with None => true | Some _ => false end
  then (Returned (BadRequest "scheduledAt is required for scheduled jobs"), w)
  else if String.eqb (req_type req) "retry" && falsy_interval (req_intervalMinutes req)
  then (Returned (BadRequest "intervalMinutes is required for retry jobs"), w)
  else
    let intervalMinutes_ :=
      if falsy_interval (req_intervalMinutes req) then None
      else req_intervalMinutes req in
    match create (req_action req) (req_payload req) network_ (req_type req)
                 (req_scheduledAt req) intervalMinutes_ w with
    | (Thrown e, w1) => (Thrown e, w1)
    | (Returned job, w1) =>
        let jobData :=
          {| jobId := _id job; d_action := req_action req;
             d_payload := payload job; d_network := Some network_;
             d_type := req_type req; d_scheduledAt := req_scheduledAt req;
             d_intervalMinutes := intervalMinutes_ |} in
        if String.eqb (req_type req) "scheduled" then
          let delay_ :=
            match req_scheduledAt req with
            | Some t => Some (Z.max (t - now) 0)
            | None => None
            end in
          match queue_add jobData (delayed delay_) w1 with
          | (Thrown e, w2) => (Thrown e, w2)
          | (Returned _, w2) => (Returned (JobScheduled job), w2)
          end
        else if String.eqb (req_type req) "retry" then
          match queue_add jobData no_options w1 with
          | (Thrown e, w2) => (Thrown e, w2)
          | (Returned _, w2) =>
              let intervalMs := interval_ms (req_intervalMinutes req) in
              match queue_add jobData
                      {| has_delay := true; delay := intervalMs;
                         repeat := Some {| every := intervalMs;
                                           immediately := false |} |} w2 with
              | (Thrown e, w3) => (Thrown e, w3)
              | (Returned _, w3) => (Returned (JobScheduled job), w3)
              end
          end
        else (Returned (JobScheduled job), w1)
    end.

(** the status line Fastify answers with: the handler's own 400, 200 for
    a returned body, and 500 from the default error handler for an error
    that escapes the handler *)
Definition http_status (r : outcome Reply) : Z :=
  match r with
  | Returned (BadRequest _) => 400
  | Returned (JobScheduled _) => 200
  | Thrown _ => 500
  end.

(** [x || d] for an optional numeric option of the payload *)
Definition number_or (x : option Js.number) (d : Z) : Js.number :=
  match x with
  | Some v => Js.orElse v (Js.Number d)
  | None => Js.Number d
  end.

(** [s || d] for an optional string of the payload *)
Definition string_or (s : option string) (d : string) : string :=
  match s with
  | Some v => if String.eqb v "" then d else v
  | None => d
  end.

(** an absent address reaches the address check as [undefined], which the
    regular expression tests as the text ["undefined"] *)
Definition address_of (a : option string) : string :=
  match a with Some v => v | None => "undefined" end.

Definition option_of {A : Type} (p : Payload) (f : Options -> option A) : option A :=
  match options p with Some o => f o | None => None end.

Definition watched_of (p : Payload) : list string :=
  match option_of p opt_watchedAddresses with Some l => l | None => [] end.

(** [runTask]: dispatch on the action; the wallet analyser is called
    without a network and so runs on the default one *)
Definition runTask (action_ : string) (p : Payload) (network_ : option string)
  (env : Env) (s : Stores) : outcome unit * Stores :=
  let net :=
    match network_ with
    | Some n => if String.eqb n "" then "testnet" else n
    | None => "testnet"
    end in
  if String.eqb action_ "wallet_snapshot" then
    match Wallet.createWalletSnapshot (address_of (wallet p)) Networks.DEFAULT_NETWORK
            (wallet_feed env) (wallet_clock env) (walletSnapshots s) with
    | (r, db) =>
        (match r with Returned _ => Returned tt | Thrown e => Thrown e end,
         {| walletSnapshots := db; memeCoinSnapshots := memeCoinSnapshots s;
            nftSnapshots := nftSnapshots s |})
    end
  else if String.eqb action_ "analyze_coin_flows" then
    let config :=
      {| Token.address := address_of (tokenAddress p);
         Token.cfg_name := string_or (tokenName p) "Unknown Token";
         Token.cfg_symbol := string_or (tokenSymbol p) "UNK";
         Token.thresholds :=
           {| Token.largeTransfer := number_or (option_of p opt_largeTransfer) 1000000;
              Token.whalePercentage := number_or (option_of p opt_whalePercentage) 10;
              Token.volumeSpike := number_or (option_of p opt_volumeSpike) 200 |};
         Token.watchedAddresses := watched_of p |} in
    match Token.analyzeCoinFlows config net (token_feed env) (token_clock env)
            (memeCoinSnapshots s) with
    | (r, db) =>
        (match r with Returned _ => Returned tt | Thrown e => Thrown e end,
         {| walletSnapshots := walletSnapshots s; memeCoinSnapshots := db;
            nftSnapshots := nftSnapshots s |})
    end
  else if String.eqb action_ "analyze_nft_movements" then
    let config :=
      {| Nft.address := address_of (tokenAddress p);
         Nft.cfg_name := string_or (collectionName p) "Unknown Collection";
         Nft.cfg_symbol := string_or (collectionSymbol p) "UNK";
         Nft.thresholds :=
           {| Nft.massTransferCount := number_or (option_of p opt_massTransfer) 50;
              Nft.whaleTokenCount := number_or (option_of p opt_whaleAccumulation) 100;
              Nft.suspiciousMintRate :=
                number_or (option_of p opt_suspiciousMintRate) 10;
              Nft.highActivitySpike :=
                number_or (option_of p opt_highActivitySpike) 200 |};
         Nft.watchedAddresses := watched_of p |} in
    match Nft.analyzeNFTMovements config net (nft_feed env) (nft_clock env)
            (nftSnapshots s) with
    | (r, db) =>
        (match r with Returned _ => Returned tt | Thrown e => Thrown e end,
         {| walletSnapshots := walletSnapshots s;
            memeCoinSnapshots := memeCoinSnapshots s; nftSnapshots := db |})
    end
  else (Thrown (UnknownActionType action_), s).

Definition push_log (entry : LogEntry) (j : Job) : Job :=
  {| _id := _id j; action := action j; payload := payload j; network := network j;
     type := type j; scheduledAt := scheduledAt j;
     intervalMinutes := intervalMinutes j; status := status j;
     lastRunAt := lastRunAt j; nextRunAt := nextRunAt j;
     logs := logs j ++ [entry]; errorDetails := errorDetails j |}.

Definition set_status (s : Status) (j : Job) : Job :=
  {| _id := _id j; action := action j; payload := payload j; network := network j;
     type := type j; scheduledAt := scheduledAt j;
     intervalMinutes := intervalMinutes j; status := s;
     lastRunAt := lastRunAt j; nextRunAt := nextRunAt j;
     logs := logs j; errorDetails := errorDetails j |}.

Definition set_lastRunAt (t : Z) (j : Job) : Job :=
  {| _id := _id j; action := action j; payload := payload j; network := network j;
     type := type j; scheduledAt := scheduledAt j;
     intervalMinutes := intervalMinutes j; status := status j;
     lastRunAt := Some t; nextRunAt := nextRunAt j;
     logs := logs j; errorDetails := errorDetails j |}.

Definition set_nextRunAt (t : option Z) (j : Job) : Job :=
  {| _id := _id j; action := action j; payload := payload j; network := network j;
     type := type j; scheduledAt := scheduledAt j;
     intervalMinutes := intervalMinutes j; status := status j;
     lastRunAt := lastRunAt j; nextRunAt := t;
     logs := logs j; errorDetails := errorDetails j |}.

Definition set_errorDetails (e : JsError) (j : Job) : Job :=
  {| _id := _id j; action := action j; payload := payload j; network := network j;
     type := type j; scheduledAt := scheduledAt j;
     intervalMinutes := intervalMinutes j; status := status j;
     lastRunAt := lastRunAt j; nextRunAt := nextRunAt j;
     logs := logs j; errorDetails := Some e |}.

Definition log (t : Z) (l : Level) (m : string) : LogEntry :=
  {| log_timestamp := t; level := l; message := m |}.

(** the [catch] block of the handler *)
Definition on_failure (id : nat) (err : JsError) (now : Z) (w : World) : World :=
  findByIdAndUpdate id
    (fun j => push_log (log now ERROR "Job execution failed")
                (set_errorDetails err (set_status failed j)))
    w.

(** the clock while the handler runs: at its start and after the task *)
Record WorkerClock : Type := {
  started : Z;
  finished : Z
}.

(** the first update of the handler: status [running] and the start log *)
Definition started_update (clock : WorkerClock) (j : Job) : Job :=
  push_log (log (started clock) INFO "Job execution started") (set_status running j).

(** the update after a successful cycle of a recurring job; it carries
    no [status] *)
Definition recurred_update (clock : WorkerClock) (intervalMs : option Z) (j : Job)
  : Job :=
  push_log (log (finished clock) INFO "Recurring job completed, scheduling next run")
    (set_nextRunAt (option_map (fun ms => finished clock + ms) intervalMs)
       (set_lastRunAt (finished clock) j)).

(** the handler the worker runs for one queue item; every error raised
    inside is caught, so the handler itself always completes *)
Definition jobWorker (data : JobData) (clock : WorkerClock) (env : Env) (w : World)
  : World :=
  let id := jobId data in
  let w1 := findByIdAndUpdate id (started_update clock) w in
  if String.eqb (d_type data) "scheduled" then
    if match d_scheduledAt data with
       | Some t => started clock <? t
       | None => false
       end
    then
      findByIdAndUpdate id
        (push_log (log (started clock) WARN
                       "Scheduled time not reached yet, skipping job"))
        w1
    else
      match runTask (d_action data) (d_payload data) (d_network data) env (stores w1) with
      | (Thrown e, s) => on_failure id e (finished clock) (set_stores w1 s)
      | (Returned _, s) =>
          findByIdAndUpdate id
            (fun j => push_log (log (finished clock) INFO "Job completed successfully")
                        (set_lastRunAt (finished clock) (set_status completed j)))
            (set_stores w1 s)
      end
  else if String.eqb (d_type data) "retry" then
    match runTask (d_action data) (d_payload data) (d_network data) env (stores w1) with
    | (Thrown e, s) => on_failure id e (finished clock) (set_stores w1 s)
    | (Returned _, s) =>
        let intervalMs := interval_ms (d_intervalMinutes data) in
        let w2 :=
          findByIdAndUpdate id (recurred_update clock intervalMs) (set_stores w1 s) in
        match queue_add
                {| jobId := id; d_action := d_action data;
                   d_payload := d_payload data; d_network := None;
                   d_type := d_type data; d_scheduledAt := None;
                   d_intervalMinutes := d_intervalMinutes data |}
                (delayed intervalMs) w2 with
        | (Thrown e, w3) => on_failure id e (finished clock) w3
        | (Returned _, w3) => w3
        end
    end
  else
    findByIdAndUpdate id
      (push_log (log (started clock) WARN "Unknown job type encountered")) w1.

(** the broker hands a waiting or delayed one-shot entry to the worker
    and forgets it; a repeat registration stays and fires copies *)
Definition is_one_shot (e : QueueEntry) : bool :=
  match repeat (q_opts e) with None => true | Some _ => false end.

Fixpoint take_one_shot (id : nat) (q : list QueueEntry)
  : option (QueueEntry * list QueueEntry) :=
  match q with
  | [] => None
  | e :: q' =>
      if is_one_shot e && Nat.eqb (jobId (q_data e)) id then Some (e, q')
      else
        match take_one_shot id q' with
        | Some (x, rest) => Some (x, e :: rest)
        | None => None
        end
  end.

Definition fire_one_shot (id : nat) (clock : WorkerClock) (env : Env) (w : World)
  : option World :=
  match take_one_shot id (queue w) with
  | None => None
  | Some (e, rest) =>
      Some (jobWorker (q_data e) clock env
              {| jobs := jobs w; next_id := next_id w; queue := rest;
                 broker := broker w; stores := stores w |})
  end.

Definition fire_repeat (id : nat) (clock : WorkerClock) (env : Env) (w : World)
  : option World :=
  match find (fun e => negb (is_one_shot e) && Nat.eqb (jobId (q_data e)) id)
             (queue w) with
  | None => None
  | Some e => Some (jobWorker (q_data e) clock env w)
  end.

(** [recoverOrphanedJobs]: the query it runs at start-up *)
Definition DAY : Z := 24 * 60 * 60 * 1000.

Definition is_orphan (now : Z) (j : Job) : bool :=
  String.eqb (type j) "retry"
  && match status j with pending => true | _ => false end
  && match lastRunAt j with
     | None => true
     | Some t => t <? now - DAY
     end.

Definition findOrphans (now : Z) (w : World) : list Job :=
  filter (is_orphan now) (jobs w).

End Jobs.

(** ** The bounded windows of a snapshot *)

Module Windows.

Definition token_bounded (m : Token.FlowMetrics) : Prop :=
  (length (Token.largeTransfers m) <= 100)%nat
  /\ (length (Token.burnTransactions m) <= 100)%nat
  /\ (length (Token.processedTransactionHashes m) <= 1000)%nat.

Definition nft_bounded (m : Nft.NFTMovementMetrics) : Prop :=
  (length (Nft.transferHistory m) <= 1000)%nat
  /\ (length (Nft.mintTransactions m) <= 500)%nat
  /\ (length (Nft.burnTransactions m) <= 500)%nat
  /\ (length (Nft.processedTransactionHashes m) <= 2000)%nat.

End Windows.

(** ** Concrete scenarios *)

Module Scenario.

Definition alice : string := "0x1111111111111111111111111111111111111111".
Definition bob : string := "0x2222222222222222222222222222222222222222".
Definition carol : string := "0x3333333333333333333333333333333333333333".
Definition astro : string := "0x7fa7677c6708f0cd07724d61bfdc6be6bb15d2e7".
Definition dongle : string := "0x7b5760da5e05ec0f3da2284fb22e62f6bd5dae5f".

(** token flows: a first page of two transfers, then a page with one
    more transfer in front of them *)
Definition astro_info : Token.TokenInfo :=
  {| Token.hash := astro; Token.name := "Astro"; Token.symbol := "ASTRO";
     Token.decimals := "18"; Token.totalSupply := "1000000" |}.

Definition transfer (h from_ to_ : string) (v t : Z) : Token.Transaction :=
  {| Token.timestamp := t; Token.from := from_; Token.to := to_; Token.value := v;
     Token.txHash := h; Token.status := true; Token.token := Some astro_info |}.

Definition astro_config : Token.TokenConfig :=
  {| Token.address := astro; Token.cfg_name := "Astro"; Token.cfg_symbol := "ASTRO";
     Token.thresholds :=
       {| Token.largeTransfer := Js.Number 1000000;
          Token.whalePercentage := Js.Number 10;
          Token.volumeSpike := Js.Number 200 |};
     Token.watchedAddresses := [] |}.

Definition token_page1 : list Token.Transaction :=
  [ transfer "0xh2" bob carol 70 2000; transfer "0xh1" alice bob 50 1000 ].

Definition token_page2 : list Token.Transaction :=
  transfer "0xh3" carol alice 20 3000 :: token_page1.

Definition token_feed (page : list Token.Transaction) : Token.Feed :=
  {| Token.erc20_transfers := Some page;
     Token.token_transactions := None;
     Token.contract_transactions := None |}.

Definition token_feed_down : Token.Feed :=
  {| Token.erc20_transfers := None;
     Token.token_transactions := None;
     Token.contract_transactions := None |}.

Definition token_clock (t : Z) : Token.Clock :=
  {| Token.now_flows := t; Token.now_alerts := t; Token.now_risk := t;
     Token.now_snapshot := t |}.

(** the collection after the first token cycle *)
Definition token_db1 : list Token.MemeCoinSnapshot :=
  snd (Token.analyzeCoinFlows astro_config "testnet" (token_feed token_page1)
         (token_clock 5000) []).

(** NFT movements: a mint and a transfer, then one more transfer *)
Definition dongle_info : Nft.NFTTokenInfo :=
  {| Nft.hash := dongle; Nft.name := "Dongle"; Nft.symbol := "DONGLE";
     Nft.totalSupply := "100" |}.

Definition movement (h from_ to_ id : string) (t : Z) : Nft.NFTTransaction :=
  {| Nft.timestamp := t; Nft.from := from_; Nft.to := to_; Nft.tokenItemId := id;
     Nft.txHash := h; Nft.status := true; Nft.fee := 21000;
     Nft.token := Some dongle_info |}.

Definition dongle_config : Nft.NFTConfig :=
  {| Nft.address := dongle; Nft.cfg_name := "Dongle"; Nft.cfg_symbol := "DONGLE";
     Nft.thresholds :=
       {| Nft.massTransferCount := Js.Number 50;
          Nft.whaleTokenCount := Js.Number 100;
          Nft.suspiciousMintRate := Js.Number 10;
          Nft.highActivitySpike := Js.Number 200 |};
     Nft.watchedAddresses := [] |}.

Definition nft_page1 : list Nft.NFTTransaction :=
  [ movement "0xn2" alice bob "7" 2000;
    movement "0xn1" Nft.ZERO_ADDRESS alice "7" 1000 ].

Definition nft_page2 : list Nft.NFTTransaction :=
  movement "0xn3" bob carol "7" 3000 :: nft_page1.

Definition nft_clock (t : Z) : Nft.Clock :=
  {| Nft.now_movements := t; Nft.now_alerts := t; Nft.now_risk := t;
     Nft.now_snapshot := t |}.

Definition nft_db1 : list Nft.NFTSnapshot :=
  snd (Nft.analyzeNFTMovements dongle_config "testnet" (Some nft_page1)
         (nft_clock 5000) []).

(** a wallet: one outgoing native transfer of 2 * 10^21 *)
Definition payment : Wallet.Transaction :=
  {| Wallet.hash := "0xw1"; Wallet.timestamp := 1000;
     Wallet.value := 2 * 10 ^ 21; Wallet.fee := 21000; Wallet.type := 0;
     Wallet.actionType := "Transfer"; Wallet.from := alice; Wallet.to := bob;
     Wallet.data := ""; Wallet.method := ""; Wallet.gasPrice := 1;
     Wallet.gasUsedByTransaction := 21000; Wallet.status := true |}.

Definition wallet_feed (page : option (list Wallet.Transaction)) : Wallet.Feed :=
  {| Wallet.walletInfo := Wallet.InfoOk alice (Js.Number (5 * 10 ^ 18));
     Wallet.tokens := Some ([], []);
     Wallet.account_transactions := page;
     Wallet.evm_account_transactions := None;
     Wallet.contract_transactions := None |}.

(** [Math.pow(10, d)] as the scenarios need it: they meet the exponents
    18, 20 and 21 only, and up to 22 the power is a binary64 number,
    which the engine returns *)
Definition math_pow10 (d : Z) : Js.number := Js.Number (10 ^ d).

Definition wallet_clock (t : Z) : Wallet.Clock :=
  {| Wallet.now_alerts := t; Wallet.now_snapshot := t;
     Wallet.math_pow10 := math_pow10 |}.

Definition wallet_db1 : list Wallet.WalletSnapshot :=
  snd (Wallet.createWalletSnapshot alice "testnet" (wallet_feed (Some [payment]))
         (wallet_clock 5000) []).

(** job submissions *)
Definition astro_payload : Jobs.Payload :=
  {| Jobs.wallet := None; Jobs.tokenAddress := Some astro;
     Jobs.tokenName := Some "Astro"; Jobs.tokenSymbol := Some "ASTRO";
     Jobs.collectionName := None; Jobs.collectionSymbol := None;
     Jobs.options := None |}.

Definition empty_stores : Jobs.Stores :=
  {| Jobs.walletSnapshots := []; Jobs.memeCoinSnapshots := [];
     Jobs.nftSnapshots := [] |}.

Definition world0 (broker_ : list bool) : Jobs.World :=
  {| Jobs.jobs := []; Jobs.next_id := 0%nat; Jobs.queue := [];
     Jobs.broker := broker_; Jobs.stores := empty_stores |}.

Definition submit (action_ type_ : string) (at_ every_ : option Z) : Jobs.Request :=
  {| Jobs.req_action := action_; Jobs.req_payload := Some astro_payload;
     Jobs.req_network := None; Jobs.req_type := type_;
     Jobs.req_scheduledAt := at_; Jobs.req_intervalMinutes := every_ |}.

Definition env (page : list Token.Transaction) (t : Z) : Jobs.Env :=
  {| Jobs.wallet_feed := wallet_feed None; Jobs.wallet_clock := wallet_clock t;
     Jobs.token_feed := token_feed page; Jobs.token_clock := token_clock t;
     Jobs.nft_feed := None; Jobs.nft_clock := nft_clock t |}.

Definition env_down (t : Z) : Jobs.Env :=
  {| Jobs.wallet_feed := wallet_feed None; Jobs.wallet_clock := wallet_clock t;
     Jobs.token_feed := token_feed_down; Jobs.token_clock := token_clock t;
     Jobs.nft_feed := None; Jobs.nft_clock := nft_clock t |}.

Definition worker_clock (t : Z) : Jobs.WorkerClock :=
  {| Jobs.started := t; Jobs.finished := t + 1 |}.

(** a recurring token job, submitted at time 0 *)
Definition world_retry : Jobs.World :=
  snd (Jobs.post_jobs (submit "analyze_coin_flows" "retry" None (Some 15)) 0
         (world0 [])).

(** a recurring job with an action no analyser knows, and the queue item
    of its first fire *)
Definition world_transfer : Jobs.World :=
  snd (Jobs.post_jobs (submit "transfer" "retry" None (Some 15)) 0 (world0 [])).

Definition transfer_item : Jobs.JobData :=
  {| Jobs.jobId := 0%nat; Jobs.d_action := "transfer";
     Jobs.d_payload := astro_payload; Jobs.d_network := Some "testnet";
     Jobs.d_type := "retry"; Jobs.d_scheduledAt := None;
     Jobs.d_intervalMinutes := Some 15 |}.

(** the queue item of the first fire of the recurring token job *)
Definition retry_item : Jobs.JobData :=
  {| Jobs.jobId := 0%nat; Jobs.d_action := "analyze_coin_flows";
     Jobs.d_payload := astro_payload; Jobs.d_network := Some "testnet";
     Jobs.d_type := "retry"; Jobs.d_scheduledAt := None;
     Jobs.d_intervalMinutes := Some 15 |}.

(** the second NFT and wallet cycles *)
Definition nft_cycle2 : outcome (option Nft.NFTSnapshot) * list Nft.NFTSnapshot :=
  Nft.analyzeNFTMovements dongle_config "testnet" (Some nft_page2)
    (nft_clock 9000) nft_db1.

Definition wallet_cycle2 : outcome Wallet.WalletSnapshot * list Wallet.WalletSnapshot :=
  Wallet.createWalletSnapshot alice "testnet" (wallet_feed (Some [payment]))
    (wallet_clock 9000) wallet_db1.

End Scenario.

(** ** Start-up recovery of recurring jobs ([queue/workers.ts]) *)

Module Recovery.

(** the data of a re-added item: no [network], no [scheduledAt] *)
Definition recovered_data (job : Jobs.Job) : Jobs.JobData :=
  {| Jobs.jobId := Jobs._id job; Jobs.d_action := Jobs.action job;
     Jobs.d_payload := Jobs.payload job; Jobs.d_network := None;
     Jobs.d_type := Jobs.type job; Jobs.d_scheduledAt := None;
     Jobs.d_intervalMinutes := Jobs.intervalMinutes job |}.

(** the [for] loop over the orphaned jobs; the first [add] that the
    broker refuses ends it *)
Fixpoint readd (orphanedJobs : list Jobs.Job) (w : Jobs.World)
  : outcome unit * Jobs.World :=
  match orphanedJobs with
  | [] => (Returned tt, w)
  | job :: rest =>
      match Jobs.queue_add (recovered_data job) Jobs.no_options w with
      | (Thrown e, w') => (Thrown e, w')
      | (Returned _, w') => readd rest w'
      end
  end.

(** [recoverOrphanedJobs]: its [catch] block only logs *)
Definition recoverOrphanedJobs (now : Z) (w : Jobs.World) : Jobs.World :=
  snd (readd (Jobs.findOrphans now w) w).

End Recovery.

(** ** Reading the latest snapshot ([routes/snapshots.ts]) *)

Module SnapshotRoutes.

(** [findOne(filter).sort({ createdAt: -1 })]: [createdAt] is set when a
    document is saved, so the newest match is the last one stored *)
Definition findNewest {S : Type} (matches : S -> bool) (db : list S) : option S :=
  find matches (rev db).

(** the replies of a read route; the [generated] flag of a found
    snapshot is left out *)
Inductive Reply (S : Type) : Type :=
| InvalidNetwork
| Found (data : S)
| NoNewData
| NotCreated
| GenerationFailed (e : JsError)
| NotFound.
Arguments InvalidNetwork {S}.
Arguments Found {S} data.
Arguments NoNewData {S}.
Arguments NotCreated {S}.
Arguments GenerationFailed {S} e.
Arguments NotFound {S}.

Definition http_status {S : Type} (r : Reply S) : Z :=
  match r with
  | InvalidNetwork => 400
  | Found _ => 200
  | NoNewData => 200
  | NotCreated => 500
  | GenerationFailed _ => 500
  | NotFound => 404
  end.

(** the last check of a route, on the snapshot that the lookups left *)
Definition respond {S : Type} (snapshot : option S) : Reply S :=
  match snapshot with
  | None => NotFound
  | Some s => Found s
  end.

Definition network_of (query : option string) : string :=
  match query with Some n => n | None => Networks.DEFAULT_NETWORK end.

(** [GET /snapshots/nft/:collectionAddress] *)
Definition nft_default_config (collectionAddress : string) : Nft.NFTConfig :=
  {| Nft.address := collectionAddress;
     Nft.cfg_name := "Unknown Collection";
     Nft.cfg_symbol := "UNKNOWN";
     Nft.thresholds :=
       {| Nft.massTransferCount := Js.Number 10;
          Nft.whaleTokenCount := Js.Number 100;
          Nft.suspiciousMintRate := Js.Number 50;
          Nft.highActivitySpike := Js.Number 300 |};
     Nft.watchedAddresses := [] |}.

Definition nft_lookup (collectionAddress network_ : string) (db : list Nft.NFTSnapshot)
  : option Nft.NFTSnapshot :=
  findNewest
    (fun s => String.eqb (Nft.tokenAddress s) (Js.toLowerCase collectionAddress)
              && String.eqb (Nft.network s) network_)
    db.

Definition get_nft_snapshot (collectionAddress : string) (query : option string)
  (feed : Nft.Feed) (clock : Nft.Clock) (db : list Nft.NFTSnapshot)
  : Reply Nft.NFTSnapshot * list Nft.NFTSnapshot :=
  let network_ := network_of query in
  if negb (Networks.isValidNetwork network_) then (InvalidNetwork, db)
  else
    match nft_lookup collectionAddress network_ db with
    | Some s => (respond (Some s), db)
    | None =>
        match Nft.analyzeNFTMovements (nft_default_config collectionAddress)
                network_ feed clock db with
        | (Thrown e, db') => (GenerationFailed e, db')
        | (Returned result, db') =>
            match nft_lookup collectionAddress network_ db' with
            | Some s => (respond (Some s), db')
            | None =>
                match result with
                | None => (NoNewData, db')
                | Some _ => (NotCreated, db')
                end
            end
        end
    end.

(** [GET /snapshots/wallet/:address] *)
Definition wallet_lookup (address network_ : string) (db : list Wallet.WalletSnapshot)
  : option Wallet.WalletSnapshot :=
  findNewest
    (fun s => String.eqb (Wallet.walletAddress s) (Js.toLowerCase address)
              && String.eqb (Wallet.network s) network_)
    db.

Definition get_wallet_snapshot (address : string) (query : option string)
  (feed : Wallet.Feed) (clock : Wallet.Clock) (db : list Wallet.WalletSnapshot)
  : Reply Wallet.WalletSnapshot * list Wallet.WalletSnapshot :=
  let network_ := network_of query in
  if negb (Networks.isValidNetwork network_) then (InvalidNetwork, db)
  else
    match wallet_lookup address network_ db with
    | Some s => (respond (Some s), db)
    | None =>
        match Wallet.createWalletSnapshot address network_ feed clock db with
        | (Thrown e, db') => (GenerationFailed e, db')
        | (Returned _, db') =>
            match wallet_lookup address network_ db' with
            | Some s => (respond (Some s), db')
            | None => (NotCreated, db')
            end
        end
    end.

End SnapshotRoutes.

(** ** How a job record may change while the worker handles an item *)

Module JobRules.

(** the record keeps its identity and its submitted fields, and its log
    only grows *)
Definition evolves (j j' : Jobs.Job) : Prop :=
  Jobs._id j' = Jobs._id j
  /\ Jobs.action j' = Jobs.action j
  /\ Jobs.payload j' = Jobs.payload j
  /\ Jobs.network j' = Jobs.network j
  /\ Jobs.type j' = Jobs.type j
  /\ Jobs.scheduledAt j' = Jobs.scheduledAt j
  /\ Jobs.intervalMinutes j' = Jobs.intervalMinutes j
  /\ exists more, Jobs.logs j' = Jobs.logs j ++ more.

End JobRules.

(** ** Vocabulary of the statements about sums and counts *)

Module Tally.

Definition sumZ (l : list Z) : Z := fold_right Z.add 0 l.

Definition count {A : Type} (p : A -> bool) (l : list A) : Z :=
  Z.of_nat (length (filter p l)).

(** no string occurs twice *)
Fixpoint distinct (l : list string) : bool :=
  match l with
  | [] => true
  | x :: l' => negb (Js.includes l' x) && distinct l'
  end.

End Tally.

(** ** Further concrete cases *)

Module Cases.


(** a token job whose large-transfer threshold is 0.05 *)
Definition fractional_config : Token.TokenConfig :=
  {| Token.address := Scenario.astro; Token.cfg_name := "Astro";
     Token.cfg_symbol := "ASTRO";
     Token.thresholds :=
       {| Token.largeTransfer := Js.literal 5 100;
          Token.whalePercentage := Js.Number 10;
          Token.volumeSpike := Js.Number 200 |};
     Token.watchedAddresses := [] |}.

(** a one-shot token job due at 60000, submitted at time 0, and the
    queue item of its fire *)
Definition world_scheduled : Jobs.World :=
  snd (Jobs.post_jobs
         (Scenario.submit "analyze_coin_flows" "scheduled" (Some 60000) None) 0
         (Scenario.world0 [])).

Definition scheduled_item : Jobs.JobData :=
  {| Jobs.jobId := 0%nat; Jobs.d_action := "analyze_coin_flows";
     Jobs.d_payload := Scenario.astro_payload; Jobs.d_network := Some "testnet";
     Jobs.d_type := "scheduled"; Jobs.d_scheduledAt := Some 60000;
     Jobs.d_intervalMinutes := None |}.

(** a recurring token job submitted for mainnet, and the queue item of
    its first fire *)
Definition world_mainnet : Jobs.World :=
  snd (Jobs.post_jobs
         {| Jobs.req_action := "analyze_coin_flows";
            Jobs.req_payload := Some Scenario.astro_payload;
            Jobs.req_network := Some "mainnet";
            Jobs.req_type := "retry";
            Jobs.req_scheduledAt := None;
            Jobs.req_intervalMinutes := Some 15 |} 0 (Scenario.world0 [])).

Definition mainnet_item : Jobs.JobData :=
  {| Jobs.jobId := 0%nat; Jobs.d_action := "analyze_coin_flows";
     Jobs.d_payload := Scenario.astro_payload; Jobs.d_network := Some "mainnet";
     Jobs.d_type := "retry"; Jobs.d_scheduledAt := None;
     Jobs.d_intervalMinutes := Some 15 |}.

End Cases.

(** * Properties *)

(** ** The JavaScript primitives at work *)

Section JsExamples.

Example toLowerCase_address :
  Js.toLowerCase "0x160345fC359604fC6e70E3c5fAcbdE5F7A9342d8"
  = "0x160345fc359604fc6e70e3c5facbde5f7a9342d8".
Proof. reflexivity. Qed.

Example address_syntax :
  Js.isValidEthereumAddress Scenario.alice = true
  /\ Js.isValidEthereumAddress "0x1234" = false
  /\ Js.isValidEthereumAddress "undefined" = false
  /\ Js.isValidEthereumAddress "1x1111111111111111111111111111111111111111" = false.
Proof. repeat split; reflexivity. Qed.

(** [parseFloat] rounds: an amount just above 10^20 is not greater than
    [Math.pow(10, 20)] as a number, one half-ulp further up it is *)
Example amount_rounding :
  Js.gtb (Js.Number (10 ^ 20 + 8192)) (Js.Number (10 ^ 20)) = false
  /\ Js.gtb (Js.Number (10 ^ 20 + 8193)) (Js.Number (10 ^ 20)) = true.
Proof. split; vm_compute; reflexivity. Qed.

(** [0.07 * 100] is not [7] *)
Example product_rounding :
  Js.gtb (Js.mul (Js.literal 7 100) (Js.Number 100)) (Js.Number 7) = true.
Proof. vm_compute. reflexivity. Qed.

Example bigint_of_number :
  Js.BigInt (Js.mul (Js.Number 1000000) (Js.Number 10)) = Some 10000000
  /\ Js.BigInt (Js.mul (Js.literal 5 100) (Js.Number 10)) = None.
Proof. split; vm_compute; reflexivity. Qed.

(** own keys: array indices in ascending order, then the rest in
    creation order *)
Example object_key_order :
  map fst (Js.obj_set "2" 1 (Js.obj_set "b" 2 (Js.obj_set "10" 3
            (Js.obj_set "007" 4 (Js.obj_set "10" 5 [])))))
  = ["2"; "10"; "007"; "b"].
Proof. reflexivity. Qed.

(** the sort is stable and descending for [(a, b) => b - a] *)
Example sort_descending_stable :
  Js.sort (fun a b : string * Z => snd b - snd a)
          [("a", 1); ("b", 3); ("c", 1); ("d", 3)]
  = [("b", 3); ("d", 3); ("a", 1); ("c", 1)].
Proof. reflexivity. Qed.

End JsExamples.

(** ** Sets, maps and objects *)

Section Containers.

Lemma includes_In (l : list string) (x : string) :
  Js.includes l x = true <-> In x l.
Proof.
  unfold Js.includes. rewrite existsb_exists. split.
  - intros (y & Hy & E). apply String.eqb_eq in E. subst. exact Hy.
  - intros H. exists x. split; [exact H | apply String.eqb_refl].
Qed.

Lemma includes_false (l : list string) (x : string) :
  Js.includes l x = false <-> ~ In x l.
Proof.
  rewrite <- includes_In. destruct (Js.includes l x); split; intros H;
    try reflexivity; try discriminate; try (intros E; discriminate).
  exfalso. apply H. reflexivity.
Qed.

Lemma set_add_In (x y : string) (s : list string) :
  In y (Js.set_add x s) <-> y = x \/ In y s.
Proof.
  unfold Js.set_add. destruct (Js.includes s x) eqn:E.
  - apply includes_In in E. split; [auto |]. intros [-> | H]; assumption.
  - rewrite in_app_iff. cbn. split.
    + intros [H | [H | []]]; auto.
    + intros [-> | H]; auto.
Qed.

Lemma set_add_NoDup (x : string) (s : list string) :
  NoDup s -> NoDup (Js.set_add x s).
Proof.
  intros H. unfold Js.set_add. destruct (Js.includes s x) eqn:E; [exact H |].
  apply includes_false in E.
  apply NoDup_app; [exact H | constructor; [intros [] | constructor] |].
  intros a Ha [<- | []]. contradiction.
Qed.

Lemma set_of_list_fold (l acc : list string) :
  NoDup acc ->
  NoDup (fold_left (fun s x => Js.set_add x s) l acc)
  /\ forall y, In y (fold_left (fun s x => Js.set_add x s) l acc)
               <-> In y l \/ In y acc.
Proof.
  revert acc. induction l as [| a l IH]; intros acc Hacc; cbn [fold_left].
  - split; [exact Hacc |]. intros y. cbn. tauto.
  - destruct (IH (Js.set_add a acc) (set_add_NoDup a acc Hacc)) as [Hn Hi].
    split; [exact Hn |]. intros y. rewrite Hi, set_add_In. cbn. intuition auto.
Qed.

Lemma set_of_list_spec (l : list string) :
  NoDup (Js.set_of_list l) /\ forall y, In y (Js.set_of_list l) <-> In y l.
Proof.
  unfold Js.set_of_list.
  destruct (set_of_list_fold l [] (NoDup_nil _)) as [Hn Hi].
  split; [exact Hn |]. intros y. rewrite Hi. cbn. tauto.
Qed.

Lemma map_get_set_eq {V : Type} (k : string) (v : V) (m : list (string * V)) :
  Js.map_get k (Js.map_set k v m) = Some v.
Proof.
  induction m as [| [k' v'] m IH]; cbn.
  - rewrite String.eqb_refl. reflexivity.
  - destruct (String.eqb k' k) eqn:E; cbn; rewrite E; [reflexivity | exact IH].
Qed.

Lemma map_get_set_ne {V : Type} (k k' : string) (v : V) (m : list (string * V)) :
  k <> k' -> Js.map_get k' (Js.map_set k v m) = Js.map_get k' m.
Proof.
  intros Hne. induction m as [| [k0 v0] m IH]; cbn.
  - destruct (String.eqb k k') eqn:E; [| reflexivity].
    apply String.eqb_eq in E. contradiction.
  - destruct (String.eqb k0 k) eqn:E; cbn.
    + apply String.eqb_eq in E. subst k0.
      destruct (String.eqb k k') eqn:E'; [| reflexivity].
      apply String.eqb_eq in E'. contradiction.
    + destruct (String.eqb k0 k'); [reflexivity | exact IH].
Qed.

Lemma map_set_In {V : Type} (k : string) (v : V) (m : list (string * V))
  (e : string * V) :
  In e (Js.map_set k v m) -> e = (k, v) \/ In e m.
Proof.
  induction m as [| [k' v'] m IH]; cbn.
  - intros [<- | []]. left. reflexivity.
  - destruct (String.eqb k' k) eqn:E; cbn.
    + apply String.eqb_eq in E. subst k'. intros [<- | H]; auto.
    + intros [<- | H]; auto. destruct (IH H); auto.
Qed.

Lemma obj_insert_index_get_eq {V : Type} (i : Z) (k : string) (v : V)
  (o : list (string * V)) :
  Js.map_get k o = None -> Js.map_get k (Js.obj_insert_index i k v o) = Some v.
Proof.
  induction o as [| [k' v'] o IH]; cbn.
  - rewrite String.eqb_refl. reflexivity.
  - destruct (String.eqb k' k) eqn:E; [discriminate |]. intros H.
    destruct (Js.array_index k') as [j |].
    + destruct (j <? i); cbn.
      * rewrite E. exact (IH H).
      * rewrite String.eqb_refl. reflexivity.
    + cbn. rewrite String.eqb_refl. reflexivity.
Qed.

Lemma obj_insert_index_get_ne {V : Type} (i : Z) (k k' : string) (v : V)
  (o : list (string * V)) :
  k <> k' -> Js.map_get k' (Js.obj_insert_index i k v o) = Js.map_get k' o.
Proof.
  intros Hne.
  assert (Hk : String.eqb k k' = false) by (apply String.eqb_neq; exact Hne).
  induction o as [| [k0 v0] o IH]; cbn.
  - rewrite Hk. reflexivity.
  - destruct (Js.array_index k0) as [j |].
    + destruct (j <? i); cbn.
      * destruct (String.eqb k0 k'); [reflexivity | exact IH].
      * rewrite Hk. reflexivity.
    + cbn. rewrite Hk. reflexivity.
Qed.

(** assignment then lookup on an object used as a dictionary *)
Lemma obj_get_set_eq {V : Type} (k : string) (v : V) (o : list (string * V)) :
  Js.map_get k (Js.obj_set k v o) = Some v.
Proof.
  unfold Js.obj_set. destruct (Js.map_get k o) eqn:E.
  - apply map_get_set_eq.
  - destruct (Js.array_index k).
    + apply obj_insert_index_get_eq. exact E.
    + induction o as [| [k' v'] o IH]; cbn.
      * rewrite String.eqb_refl. reflexivity.
      * cbn in E. destruct (String.eqb k' k); [discriminate | exact (IH E)].
Qed.

Lemma obj_get_set_ne {V : Type} (k k' : string) (v : V) (o : list (string * V)) :
  k <> k' -> Js.map_get k' (Js.obj_set k v o) = Js.map_get k' o.
Proof.
  intros Hne. unfold Js.obj_set. destruct (Js.map_get k o).
  - apply map_get_set_ne. exact Hne.
  - destruct (Js.array_index k).
    + apply obj_insert_index_get_ne. exact Hne.
    + induction o as [| [k0 v0] o IH]; cbn.
      * destruct (String.eqb k k') eqn:E; [| reflexivity].
        apply String.eqb_eq in E. contradiction.
      * destruct (String.eqb k0 k'); [reflexivity | exact IH].
Qed.

End Containers.

(** ** The latest stored snapshot *)

Section LatestSnapshot.

Context {S : Type} (matches : S -> bool) (ts : S -> Z).

Let pick (best : option S) (s : S) : option S :=
  if matches s then
    match best with
    | None => Some s
    | Some b => if ts b <? ts s then Some s else Some b
    end
  else best.

Lemma findLatest_fold (l : list S) (best : option S) :
  (forall b, best = Some b -> matches b = true) ->
  match fold_left pick l best with
  | None => best = None /\ forall s, In s l -> matches s = false
  | Some s =>
      (In s l \/ best = Some s) /\ matches s = true
      /\ (forall s', In s' l -> matches s' = true -> ts s' <= ts s)
      /\ (forall b, best = Some b -> ts b <= ts s)
  end.
Proof.
  revert best. induction l as [| a l IH]; intros best Hbest; cbn [fold_left].
  - destruct best as [b |].
    + repeat split; auto.
      * intros s' [].
      * intros b' E. inversion E. lia.
    + split; [reflexivity | intros s []].
  - assert (Hpick : forall b, pick best a = Some b -> matches b = true).
    { intros b. unfold pick. destruct (matches a) eqn:Ea.
      - destruct best as [b0 |].
        + destruct (ts b0 <? ts a); intros E; inversion E; subst; auto.
        + intros E; inversion E; subst; auto.
      - apply Hbest. }
    specialize (IH (pick best a) Hpick).
    destruct (fold_left pick l (pick best a)) as [s |].
    + destruct IH as (Hin & Hm & Hmax & Hb).
      split; [| split; [exact Hm | split]].
      * destruct Hin as [Hin | E]; [left; right; exact Hin |].
        unfold pick in E. destruct (matches a).
        -- destruct best as [b0 |].
           ++ destruct (ts b0 <? ts a); inversion E; subst; auto.
              left; left; reflexivity.
           ++ inversion E; subst. left; left; reflexivity.
        -- right. exact E.
      * intros s' [<- | Hs'] Hms'; [| apply Hmax; assumption].
        unfold pick in Hb. rewrite Hms' in Hb.
        destruct best as [b0 |].
        -- destruct (ts b0 <? ts a) eqn:Elt.
           ++ apply (Hb a). reflexivity.
           ++ apply Z.ltb_ge in Elt. specialize (Hb b0 eq_refl). lia.
        -- apply (Hb a). reflexivity.
      * intros b E. subst best. unfold pick in Hb.
        destruct (matches a).
        -- destruct (ts b <? ts a) eqn:Elt.
           ++ apply Z.ltb_lt in Elt. specialize (Hb a eq_refl). lia.
           ++ apply (Hb b). reflexivity.
        -- apply (Hb b). reflexivity.
    + destruct IH as (E & Hall). unfold pick in E.
      destruct (matches a) eqn:Ea.
      * destruct best as [b0 |]; [destruct (ts b0 <? ts a) |]; discriminate.
      * split; [exact E |]. intros s [<- | Hs]; auto.
Qed.

Lemma findLatest_Some (db : list S) (s : S) :
  findLatest matches ts db = Some s ->
  In s db /\ matches s = true
  /\ forall s', In s' db -> matches s' = true -> ts s' <= ts s.
Proof.
  intros E. pose proof (findLatest_fold db None) as H.
  change (fold_left pick db None) with (findLatest matches ts db) in H.
  rewrite E in H. destruct H as (Hin & Hm & Hmax & _); [discriminate |].
  destruct Hin as [Hin | D]; [| discriminate]. auto.
Qed.

Lemma findLatest_None (db : list S) :
  findLatest matches ts db = None <-> forall s, In s db -> matches s = false.
Proof.
  split.
  - intros E. pose proof (findLatest_fold db None) as H.
    change (fold_left pick db None) with (findLatest matches ts db) in H.
    rewrite E in H. destruct H as (_ & H); [discriminate | exact H].
  - intros Hall. destruct (findLatest matches ts db) as [s |] eqn:E; [| reflexivity].
    apply findLatest_Some in E. destruct E as (Hin & Hm & _).
    rewrite (Hall s Hin) in Hm. discriminate.
Qed.

(** a document stored last with a timestamp above every matching one is
    the one the next query finds *)
Lemma findLatest_snoc (db : list S) (s : S) :
  matches s = true ->
  (forall s', In s' db -> matches s' = true -> ts s' < ts s) ->
  findLatest matches ts (db ++ [s]) = Some s.
Proof.
  intros Hm Hlt. unfold findLatest. rewrite fold_left_app. cbn [fold_left].
  fold pick. change (fold_left pick db None) with (findLatest matches ts db).
  rewrite Hm. destruct (findLatest matches ts db) as [b |] eqn:E; [| reflexivity].
  apply findLatest_Some in E. destruct E as (Hin & Hb & _).
  specialize (Hlt b Hin Hb). apply Z.ltb_lt in Hlt. rewrite Hlt. reflexivity.
Qed.


End LatestSnapshot.

(** ** Network names *)

Section NetworkFacts.

Lemma valid_network_config (network : string) :
  Networks.isValidNetwork network = true ->
  Networks.getNetworkConfig network = Returned tt.
Proof.
  unfold Networks.isValidNetwork, Networks.getNetworkConfig. cbv zeta.
  intros H. rewrite H. reflexivity.
Qed.

Lemma network_config_cases (network : string) :
  Networks.getNetworkConfig network = Returned tt
  \/ Networks.getNetworkConfig network = Thrown (UnsupportedNetwork network).
Proof.
  unfold Networks.getNetworkConfig. cbv zeta.
  destruct (Js.includes Networks.NETWORKS (Js.toLowerCase network)
            || Js.includes Networks.inherited_names (Js.toLowerCase network)); auto.
Qed.

End NetworkFacts.

(** ** Bounded windows and cumulative counters of the merge *)

Section MergeFacts.

Lemma length_slice0 {A : Type} (n : nat) (l : list A) :
  (length (Js.slice0 n l) <= n)%nat.
Proof. unfold Js.slice0. apply firstn_le_length. Qed.

Lemma token_totalTransfers (new : list Token.Transaction) (config : Token.TokenConfig)
  (prev : option Token.MemeCoinSnapshot) (now : Z) :
  Token.totalTransfers (Token.analyzeCumulativeFlows new config prev now)
  = match prev with
    | Some p => Token.totalTransfers (Token.flowMetrics p)
    | None => 0
    end + Z.of_nat (length new).
Proof.
  unfold Token.analyzeCumulativeFlows.
  destruct (Token.mergeSenderReceiverMetrics new (option_map Token.flowMetrics prev)).
  destruct prev; reflexivity.
Qed.

Lemma token_windows (new : list Token.Transaction) (config : Token.TokenConfig)
  (prev : option Token.MemeCoinSnapshot) (now : Z) :
  Windows.token_bounded (Token.analyzeCumulativeFlows new config prev now).
Proof.
  unfold Windows.token_bounded, Token.analyzeCumulativeFlows.
  destruct (Token.mergeSenderReceiverMetrics new (option_map Token.flowMetrics prev)).
  cbn beta iota zeta delta [Token.largeTransfers Token.burnTransactions
                            Token.processedTransactionHashes].
  repeat split; apply length_slice0.
Qed.

Lemma nft_totalTransfers (new : list Nft.NFTTransaction) (config : Nft.NFTConfig)
  (prev : option Nft.NFTSnapshot) (now : Z) :
  Nft.totalTransfers (Nft.analyzeCumulativeNFTMovements new config prev now)
  = match prev with
    | Some p => Nft.totalTransfers (Nft.movementMetrics p)
    | None => 0
    end + Z.of_nat (length new).
Proof.
  unfold Nft.analyzeCumulativeNFTMovements.
  destruct (Nft.updateHolderMetrics new (option_map Nft.movementMetrics prev))
    as [[holders stats] traders].
  destruct prev; reflexivity.
Qed.

Lemma nft_windows (new : list Nft.NFTTransaction) (config : Nft.NFTConfig)
  (prev : option Nft.NFTSnapshot) (now : Z) :
  Windows.nft_bounded (Nft.analyzeCumulativeNFTMovements new config prev now).
Proof.
  unfold Windows.nft_bounded, Nft.analyzeCumulativeNFTMovements.
  destruct (Nft.updateHolderMetrics new (option_map Nft.movementMetrics prev))
    as [[holders stats] traders].
  cbn beta iota zeta delta [Nft.transferHistory Nft.mintTransactions
                            Nft.burnTransactions Nft.processedTransactionHashes].
  repeat split; apply length_slice0.
Qed.

End MergeFacts.

(** ** What a completed cycle did *)

Section CycleInversion.

(** a token cycle that resolves with a snapshot fetched a page with token
    info, found new transactions on it, merged them into the latest
    stored snapshot and appended the result *)
Lemma token_cycle_persisted (config : Token.TokenConfig) (network : string)
  (feed : Token.Feed) (clock : Token.Clock) (db db' : list Token.MemeCoinSnapshot)
  (S : Token.MemeCoinSnapshot) :
  Token.analyzeCoinFlows config network feed clock db = (Returned (Some S), db') ->
  let page := fst (Token.fetchLatestTransactions feed) in
  let prev := Token.findPrevious (Token.address config) network db in
  let new := Token.getNewTransactions page prev in
  new <> []
  /\ Token.flowMetrics S
     = Token.analyzeCumulativeFlows new config prev (Token.now_flows clock)
  /\ db' = db ++ [S].
Proof.
  unfold Token.analyzeCoinFlows.
  destruct (Networks.getNetworkConfig network); [| discriminate].
  destruct (negb (Js.isValidEthereumAddress (Token.address config))); [discriminate |].
  destruct (Token.fetchLatestTransactions feed) as [page info]; cbn [fst].
  destruct info as [info |]; [| discriminate].
  destruct (Token.getNewTransactions page
              (Token.findPrevious (Token.address config) network db))
    as [| tx new] eqn:Hnew; [discriminate |].
  destruct (Token.detectAlerts _ _ _ _ _); [| discriminate].
  unfold Mongoose.save.
  destruct (Token.validate _); [discriminate |].
  intros H; inversion H; subst; clear H.
  cbv zeta.
  split; [discriminate | split; reflexivity].
Qed.

Lemma nft_cycle_persisted (config : Nft.NFTConfig) (network : string)
  (feed : Nft.Feed) (clock : Nft.Clock) (db db' : list Nft.NFTSnapshot)
  (S : Nft.NFTSnapshot) :
  Nft.analyzeNFTMovements config network feed clock db = (Returned (Some S), db') ->
  let page := fst (Nft.fetchLatestNFTTransactions feed) in
  let prev := Nft.findPrevious (Nft.address config) network db in
  let new := Nft.getNewNFTTransactions page prev in
  new <> []
  /\ Nft.movementMetrics S
     = Nft.analyzeCumulativeNFTMovements new config prev (Nft.now_movements clock)
  /\ db' = db ++ [S].
Proof.
  unfold Nft.analyzeNFTMovements.
  destruct (Networks.getNetworkConfig network); [| discriminate].
  destruct (negb (Js.isValidEthereumAddress (Nft.address config))); [discriminate |].
  destruct (Nft.fetchLatestNFTTransactions feed) as [page info]; cbn [fst].
  destruct info as [info |]; [| discriminate].
  destruct (Nft.getNewNFTTransactions page
              (Nft.findPrevious (Nft.address config) network db))
    as [| tx new] eqn:Hnew; [discriminate |].
  unfold Mongoose.save.
  destruct (Nft.validate _); [discriminate |].
  intros H; inversion H; subst; clear H.
  cbv zeta.
  split; [discriminate | split; reflexivity].
Qed.

End CycleInversion.

Section CycleStore.

(** a cycle either leaves the collection alone or appends the snapshot it
    resolves with *)
Lemma token_cycle_store (config : Token.TokenConfig) (network : string)
  (feed : Token.Feed) (clock : Token.Clock) (db : list Token.MemeCoinSnapshot) :
  snd (Token.analyzeCoinFlows config network feed clock db) = db
  \/ exists S, Token.analyzeCoinFlows config network feed clock db
               = (Returned (Some S), db ++ [S]).
Proof.
  unfold Token.analyzeCoinFlows.
  destruct (Networks.getNetworkConfig network); [| now left].
  destruct (negb (Js.isValidEthereumAddress (Token.address config))); [now left |].
  destruct (Token.fetchLatestTransactions feed) as [page info].
  destruct info as [info |]; [| now left].
  destruct (Token.getNewTransactions page _) as [| tx new]; [now left |].
  destruct (Token.detectAlerts _ _ _ _ _); [| now left].
  unfold Mongoose.save.
  destruct (Token.validate _); [now left |].
  right. eexists. reflexivity.
Qed.

Lemma nft_cycle_store (config : Nft.NFTConfig) (network : string)
  (feed : Nft.Feed) (clock : Nft.Clock) (db : list Nft.NFTSnapshot) :
  snd (Nft.analyzeNFTMovements config network feed clock db) = db
  \/ exists S, Nft.analyzeNFTMovements config network feed clock db
               = (Returned (Some S), db ++ [S]).
Proof.
  unfold Nft.analyzeNFTMovements.
  destruct (Networks.getNetworkConfig network); [| now left].
  destruct (negb (Js.isValidEthereumAddress (Nft.address config))); [now left |].
  destruct (Nft.fetchLatestNFTTransactions feed) as [page info].
  destruct info as [info |]; [| now left].
  destruct (Nft.getNewNFTTransactions page _) as [| tx new]; [now left |].
  unfold Mongoose.save.
  destruct (Nft.validate _); [now left |].
  right. eexists. reflexivity.
Qed.

End CycleStore.

(** ** Bounded windows *)

(** C5. Whatever the new transactions and the prior snapshot, the merge
    truncates: a token snapshot keeps at most 100 large transfers, 100
    burns and 1000 processed hashes, an NFT snapshot at most 1000
    transfers, 500 mints, 500 burns and 2000 processed hashes; every
    snapshot a cycle persists carries such metrics, so a collection whose
    snapshots are within the bounds stays within them. *)
Theorem C5_bounded_windows :
  (forall new config prev now,
      Windows.token_bounded (Token.analyzeCumulativeFlows new config prev now))
  /\ (forall new config prev now,
         Windows.nft_bounded (Nft.analyzeCumulativeNFTMovements new config prev now))
  /\ (forall config network feed clock db db' S,
         Token.analyzeCoinFlows config network feed clock db = (Returned (Some S), db') ->
         Windows.token_bounded (Token.flowMetrics S) /\ db' = db ++ [S])
  /\ (forall config network feed clock db db' S,
         Nft.analyzeNFTMovements config network feed clock db = (Returned (Some S), db') ->
         Windows.nft_bounded (Nft.movementMetrics S) /\ db' = db ++ [S])
  /\ (forall config network feed clock db,
         Forall (fun S => Windows.token_bounded (Token.flowMetrics S)) db ->
         Forall (fun S => Windows.token_bounded (Token.flowMetrics S))
                (snd (Token.analyzeCoinFlows config network feed clock db)))
  /\ (forall config network feed clock db,
         Forall (fun S => Windows.nft_bounded (Nft.movementMetrics S)) db ->
         Forall (fun S => Windows.nft_bounded (Nft.movementMetrics S))
                (snd (Nft.analyzeNFTMovements config network feed clock db))).
Proof.
  assert (Ht : forall config network feed clock db db' S,
             Token.analyzeCoinFlows config network feed clock db
             = (Returned (Some S), db') ->
             Windows.token_bounded (Token.flowMetrics S) /\ db' = db ++ [S]).
  { intros config network feed clock db db' S H.
    apply token_cycle_persisted in H. destruct H as (_ & Hm & Hdb).
    split; [rewrite Hm; apply token_windows | exact Hdb]. }
  assert (Hn : forall config network feed clock db db' S,
             Nft.analyzeNFTMovements config network feed clock db
             = (Returned (Some S), db') ->
             Windows.nft_bounded (Nft.movementMetrics S) /\ db' = db ++ [S]).
  { intros config network feed clock db db' S H.
    apply nft_cycle_persisted in H. destruct H as (_ & Hm & Hdb).
    split; [rewrite Hm; apply nft_windows | exact Hdb]. }
  split; [exact token_windows |].
  split; [exact nft_windows |].
  split; [exact Ht |].
  split; [exact Hn |].
  split.
  - intros config network feed clock db Hdb.
    destruct (token_cycle_store config network feed clock db) as [E | [S E]].
    + rewrite E. exact Hdb.
    + rewrite E. cbn [snd]. apply Forall_app. split; [exact Hdb |].
      constructor; [| constructor]. exact (proj1 (Ht _ _ _ _ _ _ _ E)).
  - intros config network feed clock db Hdb.
    destruct (nft_cycle_store config network feed clock db) as [E | [S E]].
    + rewrite E. exact Hdb.
    + rewrite E. cbn [snd]. apply Forall_app. split; [exact Hdb |].
      constructor; [| constructor]. exact (proj1 (Hn _ _ _ _ _ _ _ E)).
Qed.

(** the snapshot persisted by the second token cycle of the scenario,
    and the one persisted by the first NFT cycle *)
Lemma C5_bounded_windows_witness :
  (exists S db',
      Token.analyzeCoinFlows Scenario.astro_config "testnet"
        (Scenario.token_feed Scenario.token_page2) (Scenario.token_clock 9000)
        Scenario.token_db1 = (Returned (Some S), db')
      /\ Windows.token_bounded (Token.flowMetrics S))
  /\ (exists S db',
         Nft.analyzeNFTMovements Scenario.dongle_config "testnet"
           (Some Scenario.nft_page1) (Scenario.nft_clock 5000) []
         = (Returned (Some S), db')
         /\ Windows.nft_bounded (Nft.movementMetrics S)).
Proof.
  destruct C5_bounded_windows as (_ & _ & Ht & Hn & _).
  split.
  - assert (E : exists S db',
               Token.analyzeCoinFlows Scenario.astro_config "testnet"
                 (Scenario.token_feed Scenario.token_page2) (Scenario.token_clock 9000)
                 Scenario.token_db1 = (Returned (Some S), db'))
      by (eexists; eexists; vm_compute; reflexivity).
    destruct E as (S & db' & E). exists S, db'. split; [exact E |].
    exact (proj1 (Ht _ _ _ _ _ _ _ E)).
  - assert (E : exists S db',
               Nft.analyzeNFTMovements Scenario.dongle_config "testnet"
                 (Some Scenario.nft_page1) (Scenario.nft_clock 5000) []
               = (Returned (Some S), db'))
      by (eexists; eexists; vm_compute; reflexivity).
    destruct E as (S & db' & E). exists S, db'. split; [exact E |].
    exact (proj1 (Hn _ _ _ _ _ _ _ E)).
Defined.

(** ** Short-circuit on a page without new items *)

Section ShortCircuit.

Lemma filter_none {A : Type} (f : A -> bool) (l : list A) :
  (forall x, In x l -> f x = false) -> filter f l = [].
Proof.
  induction l as [| a l IH]; intros H; [reflexivity |].
  cbn [filter]. rewrite (H a (or_introl eq_refl)).
  apply IH. intros x Hx. apply H. right. exact Hx.
Qed.

Lemma token_nothing_new (page : list Token.Transaction) (prev : Token.MemeCoinSnapshot) :
  (forall tx, In tx page ->
     Js.includes (Token.processedTransactionHashes (Token.flowMetrics prev))
                 (Token.txHash tx) = true) ->
  Token.getNewTransactions page (Some prev) = [].
Proof.
  intros H. unfold Token.getNewTransactions. apply filter_none.
  intros tx Htx. rewrite (H tx Htx). reflexivity.
Qed.

Lemma nft_nothing_new (page : list Nft.NFTTransaction) (prev : Nft.NFTSnapshot) :
  (forall tx, In tx page ->
     Js.includes (Nft.processedTransactionHashes (Nft.movementMetrics prev))
                 (Nft.txHash tx) = true) ->
  Nft.getNewNFTTransactions page (Some prev) = [].
Proof.
  intros H. unfold Nft.getNewNFTTransactions. apply filter_none.
  intros tx Htx. rewrite (H tx Htx). reflexivity.
Qed.

(** without new transactions a token cycle never reaches the save *)
Lemma token_cycle_nothing_new (config : Token.TokenConfig) (network : string)
  (feed : Token.Feed) (clock : Token.Clock) (db : list Token.MemeCoinSnapshot) :
  Token.getNewTransactions (fst (Token.fetchLatestTransactions feed))
    (Token.findPrevious (Token.address config) network db) = [] ->
  snd (Token.analyzeCoinFlows config network feed clock db) = db
  /\ (Networks.isValidNetwork network = true ->
      Js.isValidEthereumAddress (Token.address config) = true ->
      fst (Token.analyzeCoinFlows config network feed clock db)
      = match snd (Token.fetchLatestTransactions feed) with
        | Some _ => Returned None
        | None => Thrown (TokenInfoUnavailable (Token.address config))
        end).
Proof.
  intros Hnew. unfold Token.analyzeCoinFlows.
  destruct (Networks.getNetworkConfig network) as [[] | e] eqn:Hcfg.
  2:{ split; [reflexivity |]. intros Hv.
      rewrite (valid_network_config _ Hv) in Hcfg. discriminate. }
  destruct (Js.isValidEthereumAddress (Token.address config)); cbn [negb];
    [| split; [reflexivity | discriminate]].
  destruct (Token.fetchLatestTransactions feed) as [page info].
  cbn [fst snd] in *. rewrite Hnew.
  destruct info; split; reflexivity.
Qed.

Lemma nft_cycle_nothing_new (config : Nft.NFTConfig) (network : string)
  (feed : Nft.Feed) (clock : Nft.Clock) (db : list Nft.NFTSnapshot) :
  Nft.getNewNFTTransactions (fst (Nft.fetchLatestNFTTransactions feed))
    (Nft.findPrevious (Nft.address config) network db) = [] ->
  snd (Nft.analyzeNFTMovements config network feed clock db) = db
  /\ (Networks.isValidNetwork network = true ->
      Js.isValidEthereumAddress (Nft.address config) = true ->
      fst (Nft.analyzeNFTMovements config network feed clock db)
      = match snd (Nft.fetchLatestNFTTransactions feed) with
        | Some _ => Returned None
        | None => Thrown (TokenInfoUnavailable (Nft.address config))
        end).
Proof.
  intros Hnew. unfold Nft.analyzeNFTMovements.
  destruct (Networks.getNetworkConfig network) as [[] | e] eqn:Hcfg.
  2:{ split; [reflexivity |]. intros Hv.
      rewrite (valid_network_config _ Hv) in Hcfg. discriminate. }
  destruct (Js.isValidEthereumAddress (Nft.address config)); cbn [negb];
    [| split; [reflexivity | discriminate]].
  destruct (Nft.fetchLatestNFTTransactions feed) as [page info].
  cbn [fst snd] in *. rewrite Hnew.
  destruct info; split; reflexivity.
Qed.

End ShortCircuit.

(** C1, as stated, fails. A wallet cycle keeps no processed-hash list
    and has no short-circuit: with a prior snapshot in place, fetching
    the very same page again, or an empty page, persists one more
    snapshot. A token cycle whose page is empty throws instead of
    resolving with [null], prior snapshot or not. *)
Lemma C1_wallet_persists_without_new_items :
  exists S1 S2 S3,
    Scenario.wallet_db1 = [S1]
    /\ Wallet.findPrevious Scenario.alice "testnet" Scenario.wallet_db1 = Some S1
    /\ Scenario.wallet_cycle2 = (Returned S2, [S1; S2])
    /\ Wallet.createWalletSnapshot Scenario.alice "testnet"
         (Scenario.wallet_feed (Some [])) (Scenario.wallet_clock 9000)
         Scenario.wallet_db1
       = (Returned S3, [S1; S3])
    /\ Token.findPrevious Scenario.astro "testnet" Scenario.token_db1 <> None
    /\ Token.analyzeCoinFlows Scenario.astro_config "testnet"
         (Scenario.token_feed []) (Scenario.token_clock 9000) Scenario.token_db1
       = (Thrown (TokenInfoUnavailable Scenario.astro), Scenario.token_db1).
Proof.
  do 3 eexists.
  split; [vm_compute; reflexivity |].
  split; [vm_compute; reflexivity |].
  split; [vm_compute; reflexivity |].
  split; [vm_compute; reflexivity |].
  split; [vm_compute; discriminate | vm_compute; reflexivity].
Qed.

(** C1, amended. For the token and the NFT analyser: when a prior
    snapshot exists and every transaction of the fetched page has its
    hash in the prior snapshot's processed-hash list, the cycle persists
    nothing and leaves the collection as it was; for a supported network
    and a well-formed address it resolves with [null] when the page
    carries token info on its first item, and throws the token-info error
    when the page is empty or the feed failed. *)
Theorem C1_short_circuit_token_nft :
  (forall config network feed clock db prev,
      Token.findPrevious (Token.address config) network db = Some prev ->
      (forall tx, In tx (fst (Token.fetchLatestTransactions feed)) ->
         Js.includes (Token.processedTransactionHashes (Token.flowMetrics prev))
                     (Token.txHash tx) = true) ->
      snd (Token.analyzeCoinFlows config network feed clock db) = db
      /\ (Networks.isValidNetwork network = true ->
          Js.isValidEthereumAddress (Token.address config) = true ->
          fst (Token.analyzeCoinFlows config network feed clock db)
          = match snd (Token.fetchLatestTransactions feed) with
            | Some _ => Returned None
            | None => Thrown (TokenInfoUnavailable (Token.address config))
            end))
  /\ (forall config network feed clock db prev,
         Nft.findPrevious (Nft.address config) network db = Some prev ->
         (forall tx, In tx (fst (Nft.fetchLatestNFTTransactions feed)) ->
            Js.includes (Nft.processedTransactionHashes (Nft.movementMetrics prev))
                        (Nft.txHash tx) = true) ->
         snd (Nft.analyzeNFTMovements config network feed clock db) = db
         /\ (Networks.isValidNetwork network = true ->
             Js.isValidEthereumAddress (Nft.address config) = true ->
             fst (Nft.analyzeNFTMovements config network feed clock db)
             = match snd (Nft.fetchLatestNFTTransactions feed) with
               | Some _ => Returned None
               | None => Thrown (TokenInfoUnavailable (Nft.address config))
               end)).
Proof.
  split; intros config network feed clock db prev Hprev Hall.
  - apply token_cycle_nothing_new. rewrite Hprev.
    apply token_nothing_new. exact Hall.
  - apply nft_cycle_nothing_new. rewrite Hprev.
    apply nft_nothing_new. exact Hall.
Qed.

(** the first page fetched again after the first cycle: [null], and the
    collection as it was *)
Lemma C1_short_circuit_witness :
  (snd (Token.analyzeCoinFlows Scenario.astro_config "testnet"
          (Scenario.token_feed Scenario.token_page1) (Scenario.token_clock 9000)
          Scenario.token_db1)
   = Scenario.token_db1
   /\ fst (Token.analyzeCoinFlows Scenario.astro_config "testnet"
             (Scenario.token_feed Scenario.token_page1) (Scenario.token_clock 9000)
             Scenario.token_db1)
      = Returned None)
  /\ (snd (Nft.analyzeNFTMovements Scenario.dongle_config "testnet"
             (Some Scenario.nft_page1) (Scenario.nft_clock 9000) Scenario.nft_db1)
      = Scenario.nft_db1
      /\ fst (Nft.analyzeNFTMovements Scenario.dongle_config "testnet"
                (Some Scenario.nft_page1) (Scenario.nft_clock 9000) Scenario.nft_db1)
         = Returned None).
Proof.
  split.
  - assert (P : exists prev,
               Token.findPrevious (Token.address Scenario.astro_config) "testnet"
                 Scenario.token_db1 = Some prev
               /\ forall tx,
                   In tx (fst (Token.fetchLatestTransactions
                                 (Scenario.token_feed Scenario.token_page1))) ->
                   Js.includes
                     (Token.processedTransactionHashes (Token.flowMetrics prev))
                     (Token.txHash tx) = true).
    { eexists. split; [vm_compute; reflexivity |].
      intros tx [<- | [<- | []]]; vm_compute; reflexivity. }
    destruct P as (prev & Hprev & Hall).
    destruct (proj1 C1_short_circuit_token_nft _ "testnet" _
                (Scenario.token_clock 9000) _ _ Hprev Hall) as [Hdb Hres].
    split; [exact Hdb |].
    rewrite Hres; [reflexivity | vm_compute; reflexivity | vm_compute; reflexivity].
  - assert (P : exists prev,
               Nft.findPrevious (Nft.address Scenario.dongle_config) "testnet"
                 Scenario.nft_db1 = Some prev
               /\ forall tx,
                   In tx (fst (Nft.fetchLatestNFTTransactions
                                 (Some Scenario.nft_page1))) ->
                   Js.includes
                     (Nft.processedTransactionHashes (Nft.movementMetrics prev))
                     (Nft.txHash tx) = true).
    { eexists. split; [vm_compute; reflexivity |].
      intros tx [<- | [<- | []]]; vm_compute; reflexivity. }
    destruct P as (prev & Hprev & Hall).
    destruct (proj2 C1_short_circuit_token_nft _ "testnet" _
                (Scenario.nft_clock 9000) _ _ Hprev Hall) as [Hdb Hres].
    split; [exact Hdb |].
    rewrite Hres; [reflexivity | vm_compute; reflexivity | vm_compute; reflexivity].
Defined.

(** ** The first cycle of a token or a collection *)

Section FirstCycle.

(** token info is read off the first item of the page *)
Lemma token_info_needs_item (feed : Token.Feed) :
  fst (Token.fetchLatestTransactions feed) = [] ->
  snd (Token.fetchLatestTransactions feed) = None.
Proof.
  unfold Token.fetchLatestTransactions.
  destruct (Token.first_response _) as [[| tx page] |]; cbn; try reflexivity.
  discriminate.
Qed.

Lemma nft_info_needs_item (feed : Nft.Feed) :
  fst (Nft.fetchLatestNFTTransactions feed) = [] ->
  snd (Nft.fetchLatestNFTTransactions feed) = None.
Proof.
  unfold Nft.fetchLatestNFTTransactions.
  destruct feed as [[| tx page] |]; cbn; try reflexivity.
  discriminate.
Qed.

Lemma token_null_needs_prior (config : Token.TokenConfig) (network : string)
  (feed : Token.Feed) (clock : Token.Clock) (db db' : list Token.MemeCoinSnapshot) :
  Token.analyzeCoinFlows config network feed clock db = (Returned None, db') ->
  Token.findPrevious (Token.address config) network db <> None.
Proof.
  unfold Token.analyzeCoinFlows.
  destruct (Networks.getNetworkConfig network); [| discriminate].
  destruct (negb (Js.isValidEthereumAddress (Token.address config))); [discriminate |].
  pose proof (token_info_needs_item feed) as Hinfo.
  destruct (Token.fetchLatestTransactions feed) as [page info]; cbn [fst snd] in Hinfo.
  destruct info as [info |]; [| discriminate].
  destruct (Token.findPrevious (Token.address config) network db) as [prev |];
    [discriminate |].
  cbn [Token.getNewTransactions].
  destruct page as [| tx page]; [specialize (Hinfo eq_refl); discriminate |].
  destruct (Token.detectAlerts _ _ _ _ _); [| discriminate].
  unfold Mongoose.save. destruct (Token.validate _); discriminate.
Qed.

Lemma nft_null_needs_prior (config : Nft.NFTConfig) (network : string)
  (feed : Nft.Feed) (clock : Nft.Clock) (db db' : list Nft.NFTSnapshot) :
  Nft.analyzeNFTMovements config network feed clock db = (Returned None, db') ->
  Nft.findPrevious (Nft.address config) network db <> None.
Proof.
  unfold Nft.analyzeNFTMovements.
  destruct (Networks.getNetworkConfig network); [| discriminate].
  destruct (negb (Js.isValidEthereumAddress (Nft.address config))); [discriminate |].
  pose proof (nft_info_needs_item feed) as Hinfo.
  destruct (Nft.fetchLatestNFTTransactions feed) as [page info]; cbn [fst snd] in Hinfo.
  destruct info as [info |]; [| discriminate].
  destruct (Nft.findPrevious (Nft.address config) network db) as [prev |];
    [discriminate |].
  cbn [Nft.getNewNFTTransactions].
  destruct page as [| tx page]; [specialize (Hinfo eq_refl); discriminate |].
  unfold Mongoose.save. destruct (Nft.validate _); discriminate.
Qed.

End FirstCycle.

(** C7, as stated, fails. With no prior snapshot and an empty page, or a
    feed that is down, the first cycle of a token or of a collection
    throws the token-info error: it resolves neither with [null] nor with
    a snapshot of zero transfers. *)
Lemma C7_first_cycle_without_items_throws :
  Token.findPrevious Scenario.astro "testnet" [] = None
  /\ Token.analyzeCoinFlows Scenario.astro_config "testnet" Scenario.token_feed_down
       (Scenario.token_clock 5000) []
     = (Thrown (TokenInfoUnavailable Scenario.astro), [])
  /\ Token.analyzeCoinFlows Scenario.astro_config "testnet" (Scenario.token_feed [])
       (Scenario.token_clock 5000) []
     = (Thrown (TokenInfoUnavailable Scenario.astro), [])
  /\ Nft.analyzeNFTMovements Scenario.dongle_config "testnet" None
       (Scenario.nft_clock 5000) []
     = (Thrown (TokenInfoUnavailable Scenario.dongle), [])
  /\ Nft.analyzeNFTMovements Scenario.dongle_config "testnet" (Some [])
       (Scenario.nft_clock 5000) []
     = (Thrown (TokenInfoUnavailable Scenario.dongle), []).
Proof.
  repeat split; vm_compute; reflexivity.
Qed.

(** C7, amended. For the token and the NFT analyser, with a supported
    network and a well-formed address: a cycle with no prior snapshot and
    zero new items has fetched an empty page, so there is no token info
    and the cycle throws the token-info error and persists nothing. A
    cycle resolves with [null] only when a prior snapshot exists, and a
    first snapshot counts every fetched transaction, at least one. *)
Theorem C7_first_cycle_needs_items :
  (forall config network feed clock db,
      Networks.isValidNetwork network = true ->
      Js.isValidEthereumAddress (Token.address config) = true ->
      Token.findPrevious (Token.address config) network db = None ->
      Token.getNewTransactions (fst (Token.fetchLatestTransactions feed)) None = [] ->
      Token.analyzeCoinFlows config network feed clock db
      = (Thrown (TokenInfoUnavailable (Token.address config)), db))
  /\ (forall config network feed clock db db' S,
         Token.analyzeCoinFlows config network feed clock db = (Returned (Some S), db') ->
         Token.findPrevious (Token.address config) network db = None ->
         Token.totalTransfers (Token.flowMetrics S)
         = Z.of_nat (length (fst (Token.fetchLatestTransactions feed)))
         /\ 1 <= Token.totalTransfers (Token.flowMetrics S))
  /\ (forall config network feed clock db db',
         Token.analyzeCoinFlows config network feed clock db = (Returned None, db') ->
         Token.findPrevious (Token.address config) network db <> None)
  /\ (forall config network feed clock db,
         Networks.isValidNetwork network = true ->
         Js.isValidEthereumAddress (Nft.address config) = true ->
         Nft.findPrevious (Nft.address config) network db = None ->
         Nft.getNewNFTTransactions (fst (Nft.fetchLatestNFTTransactions feed)) None = [] ->
         Nft.analyzeNFTMovements config network feed clock db
         = (Thrown (TokenInfoUnavailable (Nft.address config)), db))
  /\ (forall config network feed clock db db' S,
         Nft.analyzeNFTMovements config network feed clock db = (Returned (Some S), db') ->
         Nft.findPrevious (Nft.address config) network db = None ->
         Nft.totalTransfers (Nft.movementMetrics S)
         = Z.of_nat (length (fst (Nft.fetchLatestNFTTransactions feed)))
         /\ 1 <= Nft.totalTransfers (Nft.movementMetrics S))
  /\ (forall config network feed clock db db',
         Nft.analyzeNFTMovements config network feed clock db = (Returned None, db') ->
         Nft.findPrevious (Nft.address config) network db <> None).
Proof.
  split; [| split; [| split; [| split; [| split]]]].
  - intros config network feed clock db Hnet Haddr Hprev Hnew.
    cbn [Token.getNewTransactions] in Hnew.
    destruct (token_cycle_nothing_new config network feed clock db) as [Hdb Hres].
    { rewrite Hprev. exact Hnew. }
    specialize (Hres Hnet Haddr).
    rewrite (token_info_needs_item feed Hnew) in Hres.
    rewrite (surjective_pairing (Token.analyzeCoinFlows config network feed clock db)).
    rewrite Hdb, Hres. reflexivity.
  - intros config network feed clock db db' S H Hprev.
    apply token_cycle_persisted in H. cbv zeta in H. rewrite Hprev in H.
    cbn [Token.getNewTransactions] in H. destruct H as (Hne & Hm & _).
    rewrite Hm, token_totalTransfers.
    destruct (fst (Token.fetchLatestTransactions feed)); [contradiction |].
    cbn [length]. split; lia.
  - intros config network feed clock db db'. apply token_null_needs_prior.
  - intros config network feed clock db Hnet Haddr Hprev Hnew.
    cbn [Nft.getNewNFTTransactions] in Hnew.
    destruct (nft_cycle_nothing_new config network feed clock db) as [Hdb Hres].
    { rewrite Hprev. exact Hnew. }
    specialize (Hres Hnet Haddr).
    rewrite (nft_info_needs_item feed Hnew) in Hres.
    rewrite (surjective_pairing (Nft.analyzeNFTMovements config network feed clock db)).
    rewrite Hdb, Hres. reflexivity.
  - intros config network feed clock db db' S H Hprev.
    apply nft_cycle_persisted in H. cbv zeta in H. rewrite Hprev in H.
    cbn [Nft.getNewNFTTransactions] in H. destruct H as (Hne & Hm & _).
    rewrite Hm, nft_totalTransfers.
    destruct (fst (Nft.fetchLatestNFTTransactions feed)); [contradiction |].
    cbn [length]. split; lia.
  - intros config network feed clock db db'. apply nft_null_needs_prior.
Qed.

(** a first token cycle with the feed down, and one over two transfers *)
Lemma C7_first_cycle_witness :
  Token.analyzeCoinFlows Scenario.astro_config "testnet" Scenario.token_feed_down
    (Scenario.token_clock 5000) []
  = (Thrown (TokenInfoUnavailable Scenario.astro), [])
  /\ exists S db',
      Token.analyzeCoinFlows Scenario.astro_config "testnet"
        (Scenario.token_feed Scenario.token_page1) (Scenario.token_clock 5000) []
      = (Returned (Some S), db')
      /\ Token.totalTransfers (Token.flowMetrics S) = 2.
Proof.
  destruct C7_first_cycle_needs_items as (Hthrow & Hfirst & _).
  split.
  - apply (Hthrow Scenario.astro_config "testnet" Scenario.token_feed_down
             (Scenario.token_clock 5000) []); vm_compute; reflexivity.
  - assert (E : exists S db',
               Token.analyzeCoinFlows Scenario.astro_config "testnet"
                 (Scenario.token_feed Scenario.token_page1)
                 (Scenario.token_clock 5000) []
               = (Returned (Some S), db'))
      by (eexists; eexists; vm_compute; reflexivity).
    destruct E as (S & db' & E). exists S, db'. split; [exact E |].
    destruct (Hfirst _ _ _ _ _ _ _ E) as [H _]; [vm_compute; reflexivity |].
    rewrite H. vm_compute. reflexivity.
Defined.

(** ** Wallet risk score *)

Section WalletRisk.

(** the wallet score is the base point plus at most six pattern points *)
Lemma wallet_risk_range (pow10 : Z -> Js.number)
  (transactions : list Wallet.Transaction) (metrics : Wallet.TransactionMetrics) :
  1 <= Wallet.calculateRiskScore pow10 transactions metrics <= 7.
Proof.
  unfold Wallet.calculateRiskScore. cbv zeta.
  repeat match goal with
         | |- context [if ?c then _ else _] => destruct c
         end; lia.
Qed.

(** what a wallet cycle that resolves has computed *)
Lemma wallet_cycle_persisted (wallet network : string) (feed : Wallet.Feed)
  (clock : Wallet.Clock) (db db' : list Wallet.WalletSnapshot)
  (S : Wallet.WalletSnapshot) :
  Wallet.createWalletSnapshot wallet network feed clock db = (Returned S, db') ->
  let analysed :=
    match Wallet.fetchTransactions feed with Some txs => txs | None => [] end in
  let previous := Wallet.findPrevious wallet network db in
  Wallet.transactionMetrics S
  = Wallet.mergeWithPrevious
      (Wallet.computeMetrics wallet (Wallet.fetchTransactions feed)) previous
  /\ Wallet.riskScore S
     = Wallet.calculateRiskScore (Wallet.math_pow10 clock) analysed
         (Wallet.transactionMetrics S)
  /\ Wallet.alerts S
     = Wallet.detectAlerts (Wallet.math_pow10 clock) analysed
         (Wallet.transactionMetrics S)
         (Wallet.totalValue (Wallet.portfolioValue S)) previous (Wallet.now_alerts clock)
  /\ db' = db ++ [S].
Proof.
  unfold Wallet.createWalletSnapshot.
  destruct (Networks.getNetworkConfig network); [| discriminate].
  destruct (negb (Js.isValidEthereumAddress wallet)); [discriminate |].
  destruct (Wallet.walletInfo feed) as [address balance | |]; try discriminate.
  destruct (negb (Wallet.truthy address) || _); [discriminate |].
  unfold Mongoose.save.
  destruct (Wallet.validate _); [discriminate |].
  intros H; inversion H; subst; clear H. cbv zeta.
  repeat split; reflexivity.
Qed.

End WalletRisk.

(** C8, as stated, fails. A wallet cycle over one outgoing transfer of
    2 * 10^21 raises one HIGH alert (LARGE_TRANSACTION) and still scores
    the base point only: the alert adds nothing. *)
Lemma C8_wallet_alert_adds_no_risk :
  exists S,
    Wallet.createWalletSnapshot Scenario.alice "testnet"
      (Scenario.wallet_feed (Some [Scenario.payment])) (Scenario.wallet_clock 5000) []
    = (Returned S, [S])
    /\ map Wallet.severity (Wallet.alerts S) = [HIGH]
    /\ Wallet.riskScore S = 1
    /\ Wallet.riskScore S < 1 + 2 * 1.
Proof.
  eexists.
  split; [vm_compute; reflexivity |].
  split; [vm_compute; reflexivity |].
  split; vm_compute; reflexivity.
Qed.

(** C8, amended. The wallet risk score is computed before the alerts
    are detected, from the analysed transactions and the merged metrics
    alone: the base point plus one point for each of the six pattern
    checks, so it lies between 1 and 7 whatever alerts the cycle raises;
    HIGH and MEDIUM alerts contribute nothing to it. *)
Theorem C8_wallet_risk_from_patterns_only :
  (forall pow10 transactions metrics,
      1 <= Wallet.calculateRiskScore pow10 transactions metrics <= 7)
  /\ (forall wallet network feed clock db db' S,
         Wallet.createWalletSnapshot wallet network feed clock db = (Returned S, db') ->
         Wallet.riskScore S
         = Wallet.calculateRiskScore (Wallet.math_pow10 clock)
             (match Wallet.fetchTransactions feed with Some txs => txs | None => [] end)
             (Wallet.transactionMetrics S)
         /\ 1 <= Wallet.riskScore S <= 7).
Proof.
  split; [exact wallet_risk_range |].
  intros wallet network feed clock db db' S H.
  apply wallet_cycle_persisted in H. destruct H as (_ & Hrisk & _).
  split; [exact Hrisk |]. rewrite Hrisk. apply wallet_risk_range.
Qed.

(** the wallet cycle over one large outgoing payment *)
Lemma C8_wallet_risk_witness :
  exists S db',
    Wallet.createWalletSnapshot Scenario.alice "testnet"
      (Scenario.wallet_feed (Some [Scenario.payment])) (Scenario.wallet_clock 5000) []
    = (Returned S, db')
    /\ 1 <= Wallet.riskScore S <= 7.
Proof.
  assert (E : exists S db',
             Wallet.createWalletSnapshot Scenario.alice "testnet"
               (Scenario.wallet_feed (Some [Scenario.payment]))
               (Scenario.wallet_clock 5000) []
             = (Returned S, db'))
    by (eexists; eexists; vm_compute; reflexivity).
  destruct E as (S & db' & E). exists S, db'. split; [exact E |].
  exact (proj2 (proj2 C8_wallet_risk_from_patterns_only _ _ _ _ _ _ _ E)).
Defined.

(** ** Wallet cycle without transactions *)

Section WalletPartialData.

(** the snapshot of a cycle whose transaction endpoints all failed is
    tagged SERVICE_UNAVAILABLE, which the schema's enum does not list *)
Lemma service_unavailable_not_in_enum :
  Mongoose.enum Wallet.dataQuality_enum "SERVICE_UNAVAILABLE" = false.
Proof. reflexivity. Qed.

Lemma wallet_validate_rejects_service_unavailable (doc : Wallet.WalletSnapshot) :
  Wallet.dataQuality (Wallet.analysisMetadata doc) = "SERVICE_UNAVAILABLE" ->
  Wallet.validate doc <> None.
Proof.
  intros Hq. unfold Wallet.validate. rewrite Hq, service_unavailable_not_in_enum.
  cbn [negb].
  repeat match goal with
         | |- context [if ?c then _ else _] => destruct c
         | |- context [match ?o with Some _ => _ | None => _ end] => destruct o
         end; discriminate.
Qed.

End WalletPartialData.

(** C6 does not hold of the code. When the balance fetch succeeds and
    all three transaction endpoints fail, the cycle builds the
    partial-data snapshot with [dataQuality = SERVICE_UNAVAILABLE], but
    the schema's enum for that path lists UNAVAILABLE instead, so the save
    is rejected: the cycle throws and nothing is persisted. *)
Theorem C6_wallet_partial_snapshot_rejected :
  forall wallet network feed clock db,
    Wallet.fetchTransactions feed = None ->
    snd (Wallet.createWalletSnapshot wallet network feed clock db) = db
    /\ exists e,
        fst (Wallet.createWalletSnapshot wallet network feed clock db) = Thrown e.
Proof.
  intros wallet network feed clock db Htx.
  unfold Wallet.createWalletSnapshot. rewrite Htx.
  destruct (Networks.getNetworkConfig network);
    [| split; [reflexivity | eexists; reflexivity]].
  destruct (negb (Js.isValidEthereumAddress wallet));
    [split; [reflexivity | eexists; reflexivity] |].
  destruct (Wallet.walletInfo feed) as [address balance | |];
    try (split; [reflexivity | eexists; reflexivity]).
  destruct (negb (Wallet.truthy address) || _);
    [split; [reflexivity | eexists; reflexivity] |].
  unfold Mongoose.save.
  match goal with
  | |- context [Wallet.validate ?doc] =>
      pose proof (wallet_validate_rejects_service_unavailable doc eq_refl) as Hrej;
      destruct (Wallet.validate doc)
  end.
  - split; [reflexivity | eexists; reflexivity].
  - contradiction.
Qed.

(** balance and token lists fetched, all transaction endpoints down: the
    save rejects the [dataQuality] tag *)
Lemma C6_wallet_partial_snapshot_witness :
  Wallet.walletInfo (Scenario.wallet_feed None)
  = Wallet.InfoOk Scenario.alice (Js.Number (5 * 10 ^ 18))
  /\ Wallet.createWalletSnapshot Scenario.alice "testnet" (Scenario.wallet_feed None)
       (Scenario.wallet_clock 5000) []
     = (Thrown (ValidationError "analysisMetadata.dataQuality"), []).
Proof.
  split; [reflexivity |].
  destruct (C6_wallet_partial_snapshot_rejected Scenario.alice "testnet"
              (Scenario.wallet_feed None) (Scenario.wallet_clock 5000) [] eq_refl)
    as [Hdb [e He]].
  rewrite (surjective_pairing
             (Wallet.createWalletSnapshot Scenario.alice "testnet"
                (Scenario.wallet_feed None) (Scenario.wallet_clock 5000) [])).
  rewrite Hdb. vm_compute. reflexivity.
Defined.

(** ** Job store and queue *)

Section JobStore.

Lemma findById_update (id : nat) (f : Jobs.Job -> Jobs.Job) (w : Jobs.World)
  (j : Jobs.Job) :
  (forall x, Jobs._id (f x) = Jobs._id x) ->
  Jobs.findById id w = Some j ->
  Jobs.findById id (Jobs.findByIdAndUpdate id f w) = Some (f j).
Proof.
  intros Hid. unfold Jobs.findById, Jobs.findByIdAndUpdate, Jobs.set_jobs.
  cbn [Jobs.jobs].
  induction (Jobs.jobs w) as [| x l IH]; cbn [find map]; [discriminate |].
  destruct (Nat.eqb (Jobs._id x) id) eqn:E.
  - rewrite Hid, E. intros H; inversion H; reflexivity.
  - rewrite E. exact IH.
Qed.

Lemma findById_set_stores (id : nat) (w : Jobs.World) (s : Jobs.Stores) :
  Jobs.findById id (Jobs.set_stores w s) = Jobs.findById id w.
Proof. reflexivity. Qed.

Lemma queue_add_cases (data : Jobs.JobData) (opts : Jobs.AddOptions) (w : Jobs.World) :
  (Jobs.broker_accepts w = true
   /\ fst (Jobs.queue_add data opts w) = Returned tt
   /\ Jobs.queue (snd (Jobs.queue_add data opts w))
      = Jobs.queue w ++ [{| Jobs.q_data := data; Jobs.q_opts := opts |}])
  \/ (Jobs.broker_accepts w = false
      /\ fst (Jobs.queue_add data opts w) = Thrown BrokerUnreachable
      /\ Jobs.queue (snd (Jobs.queue_add data opts w)) = Jobs.queue w).
Proof.
  unfold Jobs.queue_add, Jobs.broker_accepts.
  destruct (Jobs.broker w) as [| [|] bs]; cbn; auto.
Qed.

Lemma queue_add_keeps_jobs (data : Jobs.JobData) (opts : Jobs.AddOptions)
  (w : Jobs.World) :
  Jobs.jobs (snd (Jobs.queue_add data opts w)) = Jobs.jobs w
  /\ Jobs.stores (snd (Jobs.queue_add data opts w)) = Jobs.stores w
  /\ Jobs.next_id (snd (Jobs.queue_add data opts w)) = Jobs.next_id w.
Proof.
  unfold Jobs.queue_add.
  destruct (Jobs.broker w) as [| [|] bs]; cbn; auto.
Qed.

(** [JobModel.create] either rejects the document and leaves the
    collection alone, or appends a pending job *)
Lemma create_cases (action : string) (payload : option Jobs.Payload)
  (network type : string) (scheduledAt intervalMinutes : option Z) (w : Jobs.World) :
  (exists path,
      Jobs.create action payload network type scheduledAt intervalMinutes w
      = (Thrown (ValidationError path), w))
  \/ (exists job,
         Jobs.create action payload network type scheduledAt intervalMinutes w
         = (Returned job,
            {| Jobs.jobs := Jobs.jobs w ++ [job];
               Jobs.next_id := Datatypes.S (Jobs.next_id w);
               Jobs.queue := Jobs.queue w;
               Jobs.broker := Jobs.broker w;
               Jobs.stores := Jobs.stores w |})
         /\ Jobs.status job = Jobs.pending
         /\ Jobs.action job = action
         /\ Jobs._id job = Jobs.next_id w
         /\ Jobs.validate action payload network type = None).
Proof.
  unfold Jobs.create.
  destruct (Jobs.validate action payload network type) as [path |] eqn:V.
  - left. exists path. reflexivity.
  - destruct payload as [p |].
    + right. eexists. repeat split.
    + left. exists "payload". reflexivity.
Qed.

(** an action outside the three analysers makes the task throw *)
Lemma runTask_unknown_action (action : string) (p : Jobs.Payload)
  (network : option string) (env : Jobs.Env) (s : Jobs.Stores) :
  ~ In action Jobs.known_actions ->
  Jobs.runTask action p network env s = (Thrown (UnknownActionType action), s).
Proof.
  intros Hnot. unfold Jobs.runTask.
  assert (H1 : String.eqb action "wallet_snapshot" = false).
  { apply String.eqb_neq. intros ->. apply Hnot. cbn. auto. }
  assert (H2 : String.eqb action "analyze_coin_flows" = false).
  { apply String.eqb_neq. intros ->. apply Hnot. cbn. auto. }
  assert (H3 : String.eqb action "analyze_nft_movements" = false).
  { apply String.eqb_neq. intros ->. apply Hnot. cbn. auto. }
  rewrite H1, H2, H3. reflexivity.
Qed.

(** a retry item whose task throws: the job is marked failed and the
    queue is left alone *)
Lemma jobWorker_retry_failure (data : Jobs.JobData) (clock : Jobs.WorkerClock)
  (env : Jobs.Env) (w : Jobs.World) (e : JsError) (s' : Jobs.Stores) :
  Jobs.d_type data = "retry" ->
  Jobs.runTask (Jobs.d_action data) (Jobs.d_payload data) (Jobs.d_network data) env
    (Jobs.stores w) = (Thrown e, s') ->
  Jobs.jobWorker data clock env w
  = Jobs.on_failure (Jobs.jobId data) e (Jobs.finished clock)
      (Jobs.set_stores
         (Jobs.findByIdAndUpdate (Jobs.jobId data) (Jobs.started_update clock) w) s').
Proof.
  intros Ht Hrun. unfold Jobs.jobWorker. rewrite Ht.
  change (String.eqb "retry" "scheduled") with false.
  change (String.eqb "retry" "retry") with true.
  cbn [Jobs.stores Jobs.findByIdAndUpdate Jobs.set_jobs]. rewrite Hrun.
  reflexivity.
Qed.

(** a one-shot item that is due and whose task throws: the same *)
Lemma jobWorker_scheduled_failure (data : Jobs.JobData) (clock : Jobs.WorkerClock)
  (env : Jobs.Env) (w : Jobs.World) (e : JsError) (s' : Jobs.Stores) :
  Jobs.d_type data = "scheduled" ->
  match Jobs.d_scheduledAt data with
  | Some t => t <= Jobs.started clock
  | None => True
  end ->
  Jobs.runTask (Jobs.d_action data) (Jobs.d_payload data) (Jobs.d_network data) env
    (Jobs.stores w) = (Thrown e, s') ->
  Jobs.jobWorker data clock env w
  = Jobs.on_failure (Jobs.jobId data) e (Jobs.finished clock)
      (Jobs.set_stores
         (Jobs.findByIdAndUpdate (Jobs.jobId data) (Jobs.started_update clock) w) s').
Proof.
  intros Ht Hdue Hrun. unfold Jobs.jobWorker. rewrite Ht.
  change (String.eqb "scheduled" "scheduled") with true. cbv iota.
  assert (Hnot : match Jobs.d_scheduledAt data with
                 | Some t => Jobs.started clock <? t
                 | None => false
                 end = false).
  { destruct (Jobs.d_scheduledAt data) as [t |]; [| reflexivity].
    apply Z.ltb_ge. exact Hdue. }
  rewrite Hnot.
  cbn [Jobs.stores Jobs.findByIdAndUpdate Jobs.set_jobs]. rewrite Hrun.
  reflexivity.
Qed.

Lemma jobWorker_retry_success (data : Jobs.JobData) (clock : Jobs.WorkerClock)
  (env : Jobs.Env) (w : Jobs.World) (s' : Jobs.Stores) :
  Jobs.d_type data = "retry" ->
  Jobs.runTask (Jobs.d_action data) (Jobs.d_payload data) (Jobs.d_network data) env
    (Jobs.stores w) = (Returned tt, s') ->
  let intervalMs := Jobs.interval_ms (Jobs.d_intervalMinutes data) in
  let w2 :=
    Jobs.findByIdAndUpdate (Jobs.jobId data) (Jobs.recurred_update clock intervalMs)
      (Jobs.set_stores
         (Jobs.findByIdAndUpdate (Jobs.jobId data) (Jobs.started_update clock) w) s') in
  let added :=
    Jobs.queue_add
      {| Jobs.jobId := Jobs.jobId data; Jobs.d_action := Jobs.d_action data;
         Jobs.d_payload := Jobs.d_payload data; Jobs.d_network := None;
         Jobs.d_type := Jobs.d_type data; Jobs.d_scheduledAt := None;
         Jobs.d_intervalMinutes := Jobs.d_intervalMinutes data |}
      (Jobs.delayed intervalMs) w2 in
  Jobs.jobWorker data clock env w
  = match fst added with
    | Thrown e => Jobs.on_failure (Jobs.jobId data) e (Jobs.finished clock) (snd added)
    | Returned _ => snd added
    end.
Proof.
  intros Ht Hrun. cbv zeta. unfold Jobs.jobWorker. rewrite Ht.
  change (String.eqb "retry" "scheduled") with false.
  change (String.eqb "retry" "retry") with true.
  cbn [Jobs.stores Jobs.findByIdAndUpdate Jobs.set_jobs]. rewrite Hrun.
  cbv iota beta.
  match goal with
  | |- (let (_, _) := ?q in _) = _ => destruct q as [[[] | e] w3]
  | |- match ?q with pair _ _ => _ end = _ => destruct q as [[[] | e] w3]
  end; reflexivity.
Qed.

End JobStore.

(** ** Submission *)

(** C2, as stated, fails. A submission with the action "transfer",
    which no analyser knows, is answered with 200 and leaves a pending
    Job record behind. *)
Lemma C2_unknown_action_is_accepted :
  ~ In "transfer" Jobs.known_actions
  /\ exists job w',
      Jobs.post_jobs (Scenario.submit "transfer" "retry" None (Some 15)) 0
        (Scenario.world0 [])
      = (Returned (Jobs.JobScheduled job), w')
      /\ Jobs.http_status (Returned (Jobs.JobScheduled job)) = 200
      /\ Jobs.jobs w' = [job]
      /\ Jobs.action job = "transfer"
      /\ Jobs.status job = Jobs.pending.
Proof.
  split.
  - cbn. intros [H | [H | [H | []]]]; discriminate.
  - do 2 eexists. split; [vm_compute; reflexivity |].
    repeat split; reflexivity.
Qed.

(** C2, amended. [POST /jobs] does not look at what the action is: a
    request with any non-empty action, a payload, a network that is left
    out or spelled exactly as one of mainnet, testnet and devnet, and a
    type that is "scheduled" with [scheduledAt] given or "retry" with an
    [intervalMinutes] other than zero, is answered with 200 and leaves a
    pending Job record with that action, the broker accepting the queue
    entries. An action no analyser knows is found out only when the
    worker runs the queue item of a stored job, of type "retry" or of
    type "scheduled" with its time reached: the task throws "unknown
    action type" and the job is marked failed with that error. *)
Theorem C2_action_checked_by_worker_only :
  (forall req now w p,
      Mongoose.required (Jobs.req_action req) = true ->
      Jobs.req_payload req = Some p ->
      let network :=
        match Jobs.req_network req with
        | Some n => n
        | None => Networks.DEFAULT_NETWORK
        end in
      In network ["mainnet"; "testnet"; "devnet"] ->
      (Jobs.req_type req = "scheduled" /\ Jobs.req_scheduledAt req <> None
       \/ Jobs.req_type req = "retry"
          /\ Jobs.falsy_interval (Jobs.req_intervalMinutes req) = false) ->
      Jobs.broker w = [] ->
      exists job w',
        Jobs.post_jobs req now w = (Returned (Jobs.JobScheduled job), w')
        /\ Jobs.http_status (Returned (Jobs.JobScheduled job)) = 200
        /\ Jobs.jobs w' = Jobs.jobs w ++ [job]
        /\ Jobs.action job = Jobs.req_action req
        /\ Jobs.status job = Jobs.pending)
  /\ (forall data clock env w j,
         ~ In (Jobs.d_action data) Jobs.known_actions ->
         (Jobs.d_type data = "retry"
          \/ Jobs.d_type data = "scheduled"
             /\ match Jobs.d_scheduledAt data with
                | Some t => t <= Jobs.started clock
                | None => True
                end) ->
         Jobs.findById (Jobs.jobId data) w = Some j ->
         exists j',
           Jobs.findById (Jobs.jobId data) (Jobs.jobWorker data clock env w) = Some j'
           /\ Jobs.status j' = Jobs.failed
           /\ Jobs.errorDetails j' = Some (UnknownActionType (Jobs.d_action data))).
Proof.
  split.
  - intros req now w p Hact Hpay network Hin Hsched Hbroker.
    assert (Hnet : Networks.isValidNetwork network = true
                   /\ Mongoose.enum Networks.schema_network_enum network = true).
    { destruct Hin as [<- | [<- | [<- | []]]]; split; reflexivity. }
    destruct Hnet as [Hnet Henum].
    unfold Jobs.post_jobs. fold network. rewrite Hnet. cbn [negb].
    assert (Hcreate :
              Jobs.validate (Jobs.req_action req) (Jobs.req_payload req) network
                (Jobs.req_type req) = None).
    { unfold Jobs.validate. rewrite Hact, Hpay, Henum. cbn [negb].
      destruct Hsched as [[-> _] | [-> _]]; reflexivity. }
    unfold Jobs.create. rewrite Hcreate, Hpay.
    destruct Hsched as [[Ht Hat] | [Ht Hint]]; rewrite Ht.
    + change (String.eqb "scheduled" "scheduled") with true.
      change (String.eqb "scheduled" "retry") with false.
      destruct (Jobs.req_scheduledAt req) as [t |]; [| contradiction].
      cbn [andb]. unfold Jobs.queue_add. cbn [Jobs.broker]. rewrite Hbroker.
      do 2 eexists. split; [reflexivity |]. repeat split.
    + change (String.eqb "retry" "scheduled") with false.
      change (String.eqb "retry" "retry") with true.
      rewrite Hint. cbn [andb]. unfold Jobs.queue_add. cbn [Jobs.broker].
      rewrite Hbroker. cbn [Jobs.broker].
      do 2 eexists. split; [reflexivity |]. repeat split.
  - intros data clock env w j Hunknown Ht Hj.
    assert (Hrun :
              Jobs.jobWorker data clock env w
              = Jobs.on_failure (Jobs.jobId data)
                  (UnknownActionType (Jobs.d_action data)) (Jobs.finished clock)
                  (Jobs.set_stores
                     (Jobs.findByIdAndUpdate (Jobs.jobId data)
                        (Jobs.started_update clock) w)
                     (Jobs.stores w))).
    { destruct Ht as [Ht | [Ht Hdue]].
      - exact (jobWorker_retry_failure data clock env w _ _ Ht
                 (runTask_unknown_action _ _ _ _ _ Hunknown)).
      - exact (jobWorker_scheduled_failure data clock env w _ _ Ht Hdue
                 (runTask_unknown_action _ _ _ _ _ Hunknown)). }
    rewrite Hrun. unfold Jobs.on_failure.
    eexists. split.
    + apply findById_update; [reflexivity |].
      rewrite findById_set_stores.
      apply findById_update; [reflexivity | exact Hj].
    + split; reflexivity.
Qed.

(** the unknown action "transfer": accepted by the route, failed by the
    worker *)
Lemma C2_action_checked_witness :
  (exists job w',
      Jobs.post_jobs (Scenario.submit "transfer" "scheduled" (Some 60000) None) 0
        (Scenario.world0 [])
      = (Returned (Jobs.JobScheduled job), w')
      /\ Jobs.action job = "transfer")
  /\ (exists j',
         Jobs.findById 0
           (Jobs.jobWorker Scenario.transfer_item (Scenario.worker_clock 10)
              (Scenario.env Scenario.token_page1 10) Scenario.world_transfer)
         = Some j'
         /\ Jobs.status j' = Jobs.failed).
Proof.
  destruct C2_action_checked_by_worker_only as [Hroute Hworker].
  split.
  - destruct (Hroute (Scenario.submit "transfer" "scheduled" (Some 60000) None) 0
                (Scenario.world0 []) Scenario.astro_payload)
      as (job & w' & E & _ & _ & Ha & _).
    + reflexivity.
    + reflexivity.
    + right. left. reflexivity.
    + left. split; [reflexivity | discriminate].
    + reflexivity.
    + exists job, w'. split; [exact E | exact Ha].
  - assert (J : exists j, Jobs.findById 0 Scenario.world_transfer = Some j)
      by (eexists; vm_compute; reflexivity).
    destruct J as [j Hj].
    destruct (Hworker Scenario.transfer_item (Scenario.worker_clock 10)
                (Scenario.env Scenario.token_page1 10) Scenario.world_transfer j)
      as (j' & Hj' & Hs & _).
    + cbn. intros [H | [H | [H | []]]]; discriminate.
    + left. reflexivity.
    + exact Hj.
    + exists j'. split; [exact Hj' | exact Hs].
Defined.

(** C3, as stated, fails. With the broker refusing the enrolment, the
    submission of a scheduled job ends in the broker's error, answered
    with 500, and the Job record created before the enrolment is still in
    the Job Store, pending and in no queue. *)
Lemma C3_job_record_survives_failed_enrolment :
  exists job w',
    Jobs.post_jobs (Scenario.submit "wallet_snapshot" "scheduled" (Some 60000) None)
      0 (Scenario.world0 [false])
    = (Thrown BrokerUnreachable, w')
    /\ Jobs.http_status (Thrown BrokerUnreachable) = 500
    /\ Jobs.jobs w' = [job]
    /\ Jobs.status job = Jobs.pending
    /\ Jobs.queue w' = [].
Proof.
  do 2 eexists. split; [vm_compute; reflexivity |].
  repeat split; reflexivity.
Qed.

(** C3, amended. The route creates the Job record first and enrols it
    afterwards, without undoing the creation: when the enrolment fails,
    the broker's error is returned to the caller (status 500) and the Job
    record just created stays in the Job Store with status pending. *)
Theorem C3_failed_enrolment_keeps_job_record :
  forall req now w w',
    Jobs.post_jobs req now w = (Thrown BrokerUnreachable, w') ->
    Jobs.http_status (Thrown BrokerUnreachable) = 500
    /\ exists job,
        Jobs.jobs w' = Jobs.jobs w ++ [job]
        /\ Jobs._id job = Jobs.next_id w
        /\ Jobs.action job = Jobs.req_action req
        /\ Jobs.status job = Jobs.pending.
Proof.
  intros req now w w' H. split; [reflexivity |].
  unfold Jobs.post_jobs in H.
  destruct (negb (Networks.isValidNetwork _)); [discriminate |].
  destruct (String.eqb (Jobs.req_type req) "scheduled" && _); [discriminate |].
  destruct (String.eqb (Jobs.req_type req) "retry" && _); [discriminate |].
  match type of H with
  | context [Jobs.create ?a ?p ?n ?t ?s ?i w] =>
      destruct (create_cases a p n t s i w)
        as [[path E] | (job & E & Hst & Ha & Hid & _)];
      rewrite E in H; [discriminate |]
  end.
  exists job.
  assert (Hjobs : forall data opts w1 r w2,
             Jobs.queue_add data opts w1 = (r, w2) -> Jobs.jobs w2 = Jobs.jobs w1).
  { intros data opts w1 r w2 Hq.
    pose proof (proj1 (queue_add_keeps_jobs data opts w1)) as K.
    rewrite Hq in K. exact K. }
  destruct (String.eqb (Jobs.req_type req) "scheduled").
  - match type of H with
    | context [Jobs.queue_add ?d ?o ?w1] =>
        destruct (Jobs.queue_add d o w1) as [[u | e] w2] eqn:Q; [discriminate |]
    end.
    inversion H; subst. rewrite (Hjobs _ _ _ _ _ Q). cbn [Jobs.jobs]. auto.
  - destruct (String.eqb (Jobs.req_type req) "retry"); [| discriminate].
    match type of H with
    | context [Jobs.queue_add ?d ?o ?w1] =>
        destruct (Jobs.queue_add d o w1) as [[u | e] w2] eqn:Q
    end.
    + match type of H with
      | context [Jobs.queue_add ?d ?o w2] =>
          destruct (Jobs.queue_add d o w2) as [[u' | e'] w3] eqn:Q';
            [discriminate |]
      end.
      inversion H; subst. rewrite (Hjobs _ _ _ _ _ Q'), (Hjobs _ _ _ _ _ Q).
      cbn [Jobs.jobs]. auto.
    + inversion H; subst. rewrite (Hjobs _ _ _ _ _ Q). cbn [Jobs.jobs]. auto.
Qed.

(** a recurring job whose immediate entry is accepted and whose
    repeating entry the broker refuses *)
Lemma C3_failed_enrolment_witness :
  exists w' job,
    Jobs.post_jobs (Scenario.submit "wallet_snapshot" "retry" None (Some 15)) 0
      (Scenario.world0 [true; false])
    = (Thrown BrokerUnreachable, w')
    /\ Jobs.jobs w' = Jobs.jobs (Scenario.world0 [true; false]) ++ [job]
    /\ Jobs.status job = Jobs.pending.
Proof.
  assert (E : exists w',
             Jobs.post_jobs (Scenario.submit "wallet_snapshot" "retry" None (Some 15))
               0 (Scenario.world0 [true; false])
             = (Thrown BrokerUnreachable, w'))
    by (eexists; vm_compute; reflexivity).
  destruct E as [w' E]. exists w'.
  destruct (C3_failed_enrolment_keeps_job_record _ _ _ _ E)
    as (_ & job & Hjobs & _ & _ & Hst).
  exists job. split; [exact E | split; [exact Hjobs | exact Hst]].
Defined.

(** ** Recurring jobs *)

(** the recovery query selects pending jobs only *)
Lemma not_pending_no_orphan (now : Z) (j : Jobs.Job) :
  Jobs.status j <> Jobs.pending -> Jobs.is_orphan now j = false.
Proof.
  intros H. unfold Jobs.is_orphan.
  destruct (Jobs.status j); [contradiction | | |];
    rewrite andb_false_r; reflexivity.
Qed.

(** C9 does not hold of the code. The handler sets a recurring job to
    [running] when a cycle starts, and the update after a successful cycle
    carries no status: the job is still [running] when the cycle is over
    and stays so until the next fire; after a failed cycle it is
    [failed]. A recurring job is therefore never [completed], as the
    claim says, but it is never back at [pending] either, and the
    start-up recovery, which looks for pending recurring jobs, never
    finds a job that has run. *)
Theorem C9_retry_job_stays_running :
  forall data clock env w j,
    Jobs.d_type data = "retry" ->
    Jobs.findById (Jobs.jobId data) w = Some j ->
    exists j',
      Jobs.findById (Jobs.jobId data) (Jobs.jobWorker data clock env w) = Some j'
      /\ (Jobs.status j' = Jobs.running \/ Jobs.status j' = Jobs.failed)
      /\ (forall now, Jobs.is_orphan now j' = false)
      /\ (forall s',
             Jobs.runTask (Jobs.d_action data) (Jobs.d_payload data)
               (Jobs.d_network data) env (Jobs.stores w) = (Returned tt, s') ->
             Jobs.broker_accepts w = true ->
             Jobs.status j' = Jobs.running
             /\ Jobs.lastRunAt j' = Some (Jobs.finished clock)).
Proof.
  intros data clock env w j Ht Hj.
  assert (H1 : Jobs.findById (Jobs.jobId data)
                 (Jobs.findByIdAndUpdate (Jobs.jobId data)
                    (Jobs.started_update clock) w)
               = Some (Jobs.started_update clock j))
    by (apply findById_update; [reflexivity | exact Hj]).
  destruct (Jobs.runTask (Jobs.d_action data) (Jobs.d_payload data)
              (Jobs.d_network data) env (Jobs.stores w)) as [[[] | e] s] eqn:Hrun.
  - rewrite (jobWorker_retry_success data clock env w s Ht Hrun). cbv zeta.
    match goal with
    | |- context [Jobs.queue_add ?d ?o ?w2] =>
        pose proof (queue_add_keeps_jobs d o w2) as (Kj & _ & _);
        destruct (queue_add_cases d o w2) as [(Hb & Hr & _) | (Hb & Hr & _)];
        rewrite Hr;
        assert (H2 : Jobs.findById (Jobs.jobId data) (snd (Jobs.queue_add d o w2))
                     = Some (Jobs.recurred_update clock
                               (Jobs.interval_ms (Jobs.d_intervalMinutes data))
                               (Jobs.started_update clock j)))
          by (unfold Jobs.findById; rewrite Kj;
              apply findById_update; [reflexivity |];
              rewrite findById_set_stores; exact H1)
    end.
    + eexists. split; [exact H2 |]. split; [left; reflexivity |].
      split; [intros now; apply not_pending_no_orphan; discriminate |].
      intros s' _ _. split; reflexivity.
    + eexists. split.
      * unfold Jobs.on_failure. apply findById_update; [reflexivity | exact H2].
      * split; [right; reflexivity |].
        split; [intros now; apply not_pending_no_orphan; discriminate |].
        intros s' _ Hacc. exfalso.
        change (Jobs.broker_accepts w = false) in Hb. congruence.
  - rewrite (jobWorker_retry_failure data clock env w e s Ht Hrun).
    eexists. split.
    + unfold Jobs.on_failure. apply findById_update; [reflexivity |].
      rewrite findById_set_stores. exact H1.
    + split; [right; reflexivity |].
      split; [intros now; apply not_pending_no_orphan; discriminate |].
      intros s' Hs. discriminate.
Qed.

(** the first fire of the recurring token job of the scenario *)
Lemma C9_retry_job_witness :
  exists j',
    Jobs.findById 0
      (Jobs.jobWorker Scenario.retry_item (Scenario.worker_clock 10)
         (Scenario.env Scenario.token_page1 10) Scenario.world_retry)
    = Some j'
    /\ Jobs.status j' = Jobs.running
    /\ Jobs.status j' <> Jobs.pending.
Proof.
  assert (J : exists j, Jobs.findById 0 Scenario.world_retry = Some j)
    by (eexists; vm_compute; reflexivity).
  destruct J as [j Hj].
  destruct (C9_retry_job_stays_running Scenario.retry_item (Scenario.worker_clock 10)
              (Scenario.env Scenario.token_page1 10) Scenario.world_retry j
              eq_refl Hj) as (j' & Hj' & _ & _ & Hok).
  assert (R : exists s',
             Jobs.runTask (Jobs.d_action Scenario.retry_item)
               (Jobs.d_payload Scenario.retry_item)
               (Jobs.d_network Scenario.retry_item)
               (Scenario.env Scenario.token_page1 10)
               (Jobs.stores Scenario.world_retry)
             = (Returned tt, s'))
    by (eexists; vm_compute; reflexivity).
  destruct R as [s' Hrun].
  destruct (Hok s' Hrun eq_refl) as [Hst _].
  exists j'. split; [exact Hj' |]. split; [exact Hst |].
  rewrite Hst. discriminate.
Defined.

(** C10. Submitting a recurring job registers an immediate entry and a
    repeating entry with the job's interval. After every successful cycle
    the handler itself adds one more one-shot entry for the same job,
    delayed by [intervalMinutes * 60000] ms, and removes nothing: the
    repeating entry and the new delayed entry both lie ahead. When the
    cycle fails nothing is added. *)
Theorem C10_successful_cycle_adds_delayed_entry :
  (forall req now w job w' n,
      Jobs.req_type req = "retry" ->
      Jobs.req_intervalMinutes req = Some n ->
      Jobs.post_jobs req now w = (Returned (Jobs.JobScheduled job), w') ->
      exists data,
        Jobs.queue w'
        = Jobs.queue w
          ++ [ {| Jobs.q_data := data; Jobs.q_opts := Jobs.no_options |};
               {| Jobs.q_data := data;
                  Jobs.q_opts :=
                    {| Jobs.has_delay := true;
                       Jobs.delay := Some (n * 60 * 1000);
                       Jobs.repeat :=
                         Some {| Jobs.every := Some (n * 60 * 1000);
                                 Jobs.immediately := false |} |} |} ]
        /\ Jobs.jobId data = Jobs._id job
        /\ Jobs.d_intervalMinutes data = Some n)
  /\ (forall data clock env w s' n,
         Jobs.d_type data = "retry" ->
         Jobs.d_intervalMinutes data = Some n ->
         Jobs.runTask (Jobs.d_action data) (Jobs.d_payload data)
           (Jobs.d_network data) env (Jobs.stores w) = (Returned tt, s') ->
         Jobs.broker_accepts w = true ->
         exists extra,
           Jobs.queue (Jobs.jobWorker data clock env w) = Jobs.queue w ++ [extra]
           /\ Jobs.jobId (Jobs.q_data extra) = Jobs.jobId data
           /\ Jobs.is_one_shot extra = true
           /\ Jobs.delay (Jobs.q_opts extra) = Some (n * 60000))
  /\ (forall data clock env w e s',
         Jobs.d_type data = "retry" ->
         Jobs.runTask (Jobs.d_action data) (Jobs.d_payload data)
           (Jobs.d_network data) env (Jobs.stores w) = (Thrown e, s') ->
         Jobs.queue (Jobs.jobWorker data clock env w) = Jobs.queue w).
Proof.
  split; [| split].
  - intros req now w job w' n Ht Hn H.
    unfold Jobs.post_jobs in H. rewrite Ht, Hn in H.
    change (String.eqb "retry" "scheduled") with false in H.
    change (String.eqb "retry" "retry") with true in H.
    cbn [andb Jobs.falsy_interval] in H.
    destruct (negb (Networks.isValidNetwork _)); [discriminate |].
    destruct (n =? 0); [discriminate |].
    match type of H with
    | context [Jobs.create ?a ?p ?nw ?t ?s ?i w] =>
        destruct (create_cases a p nw t s i w)
          as [[path E] | (job0 & E & _ & _ & Hid & _)];
        rewrite E in H; [discriminate |]
    end.
    unfold Jobs.queue_add in H. cbn [Jobs.broker Jobs.queue] in H.
    destruct (Jobs.broker w) as [| [|] [| [|] bs]];
      cbn [Jobs.broker] in H; try discriminate;
      inversion H; subst; clear H; cbn [Jobs.queue];
      eexists; (split; [rewrite <- app_assoc; reflexivity |]);
      split; reflexivity.
  - intros data clock env w s' n Ht Hn Hrun Hacc.
    rewrite (jobWorker_retry_success data clock env w s' Ht Hrun). cbv zeta.
    match goal with
    | |- context [Jobs.queue_add ?d ?o ?w2] =>
        destruct (queue_add_cases d o w2) as [(_ & Hr & Hq) | (Hb & _ & _)];
        [rewrite Hr, Hq |
         change (Jobs.broker_accepts w = false) in Hb; congruence]
    end.
    eexists. split; [reflexivity |].
    split; [reflexivity |]. split; [reflexivity |].
    cbn. rewrite Hn. cbn. f_equal. lia.
  - intros data clock env w e s' Ht Hrun.
    rewrite (jobWorker_retry_failure data clock env w e s' Ht Hrun).
    reflexivity.
Qed.

(** the first fire of the recurring token job: with the feed up the queue
    grows by one entry delayed by 15 minutes, with the feed down it does
    not; the repeating entry of the submission is registered all along *)
Lemma C10_successful_cycle_witness :
  (exists extra,
      Jobs.queue (Jobs.jobWorker Scenario.retry_item (Scenario.worker_clock 10)
                    (Scenario.env Scenario.token_page1 10) Scenario.world_retry)
      = Jobs.queue Scenario.world_retry ++ [extra]
      /\ Jobs.delay (Jobs.q_opts extra) = Some 900000)
  /\ Jobs.queue (Jobs.jobWorker Scenario.retry_item (Scenario.worker_clock 10)
                   (Scenario.env_down 10) Scenario.world_retry)
     = Jobs.queue Scenario.world_retry
  /\ length (filter (fun e => negb (Jobs.is_one_shot e))
                    (Jobs.queue Scenario.world_retry)) = 1%nat.
Proof.
  destruct C10_successful_cycle_adds_delayed_entry as (_ & Hok & Hfail).
  split; [| split].
  - assert (R : exists s',
               Jobs.runTask (Jobs.d_action Scenario.retry_item)
                 (Jobs.d_payload Scenario.retry_item)
                 (Jobs.d_network Scenario.retry_item)
                 (Scenario.env Scenario.token_page1 10)
                 (Jobs.stores Scenario.world_retry)
               = (Returned tt, s'))
      by (eexists; vm_compute; reflexivity).
    destruct R as [s' Hrun].
    destruct (Hok Scenario.retry_item (Scenario.worker_clock 10)
                (Scenario.env Scenario.token_page1 10) Scenario.world_retry s' 15
                eq_refl eq_refl Hrun eq_refl) as (extra & Hq & _ & _ & Hd).
    exists extra. split; [exact Hq | exact Hd].
  - assert (R : exists e s',
               Jobs.runTask (Jobs.d_action Scenario.retry_item)
                 (Jobs.d_payload Scenario.retry_item)
                 (Jobs.d_network Scenario.retry_item)
                 (Scenario.env_down 10)
                 (Jobs.stores Scenario.world_retry)
               = (Thrown e, s'))
      by (do 2 eexists; vm_compute; reflexivity).
    destruct R as (e & s' & Hrun).
    exact (Hfail Scenario.retry_item (Scenario.worker_clock 10)
             (Scenario.env_down 10) Scenario.world_retry e s' eq_refl Hrun).
  - vm_compute. reflexivity.
Defined.

(** the recurring token job of the scenario, after its first fire: the
    immediate entry is consumed, the repeating entry is still registered
    and the handler's own delayed entry stands next to it *)
Example recurring_job_has_two_schedules :
  option_map
    (fun w => map (fun e => (Jobs.is_one_shot e, Jobs.delay (Jobs.q_opts e)))
                  (Jobs.queue w))
    (Jobs.fire_one_shot 0 (Scenario.worker_clock 10)
       (Scenario.env Scenario.token_page1 10) Scenario.world_retry)
  = Some [(false, Some 900000); (true, Some 900000)].
Proof. vm_compute. reflexivity. Qed.

(** * Further properties of the services *)

(** ** Token flows: what a persisted cycle recorded *)

Section TokenCycle.

Variables (config : Token.TokenConfig) (network : string) (feed : Token.Feed)
  (clock : Token.Clock) (db : list Token.MemeCoinSnapshot).

Lemma token_cycle_inv (db' : list Token.MemeCoinSnapshot) (S : Token.MemeCoinSnapshot) :
  Token.analyzeCoinFlows config network feed clock db = (Returned (Some S), db') ->
  let page := fst (Token.fetchLatestTransactions feed) in
  let prev := Token.findPrevious (Token.address config) network db in
  let new := Token.getNewTransactions page prev in
  Networks.getNetworkConfig network = Returned tt
  /\ Js.isValidEthereumAddress (Token.address config) = true
  /\ snd (Token.fetchLatestTransactions feed) = Some (Token.tokenInfo S)
  /\ new <> []
  /\ Token.tokenAddress S = Token.address config
  /\ Token.network S = network
  /\ Token.snapshot_timestamp S = Token.now_snapshot clock
  /\ Token.flowMetrics S
     = Token.analyzeCumulativeFlows new config prev (Token.now_flows clock)
  /\ Token.detectAlerts (Token.flowMetrics S) config prev new (Token.now_alerts clock)
     = Returned (Token.alerts S)
  /\ Token.riskScore S
     = Token.calculateRiskScore (Token.flowMetrics S) (Token.alerts S)
         (Token.now_risk clock)
  /\ Token.validate S = None
  /\ db' = db ++ [S].
Proof.
  unfold Token.analyzeCoinFlows.
  destruct (Networks.getNetworkConfig network) as [[] | e0]; [| discriminate].
  destruct (Js.isValidEthereumAddress (Token.address config)); [| discriminate].
  cbn [negb].
  destruct (Token.fetchLatestTransactions feed) as [page info]; cbn [fst snd].
  destruct info as [info |]; [| discriminate].
  destruct (Token.getNewTransactions page
              (Token.findPrevious (Token.address config) network db))
    as [| tx new] eqn:Hnew; [discriminate |].
  destruct (Token.detectAlerts _ _ _ _ _) as [al |] eqn:Hal; [| discriminate].
  unfold Mongoose.save.
  destruct (Token.validate _) eqn:Hv; [discriminate |].
  intros H; inversion H; subst; clear H.
  cbv zeta. cbn [Token.tokenInfo Token.tokenAddress Token.network
                 Token.snapshot_timestamp Token.flowMetrics Token.alerts
                 Token.riskScore].
  repeat split; try reflexivity; try assumption. discriminate.
Qed.

Lemma token_cycle_null (info : Token.TokenInfo) :
  Networks.getNetworkConfig network = Returned tt ->
  Js.isValidEthereumAddress (Token.address config) = true ->
  snd (Token.fetchLatestTransactions feed) = Some info ->
  Token.getNewTransactions (fst (Token.fetchLatestTransactions feed))
    (Token.findPrevious (Token.address config) network db) = [] ->
  Token.analyzeCoinFlows config network feed clock db = (Returned None, db).
Proof.
  intros Hcfg Haddr Hinfo Hnew. unfold Token.analyzeCoinFlows.
  rewrite Hcfg, Haddr. cbn [negb].
  destruct (Token.fetchLatestTransactions feed) as [page i]; cbn [fst snd] in *.
  subst i. rewrite Hnew. reflexivity.
Qed.

End TokenCycle.

Section TokenFolds.

Variables (config : Token.TokenConfig) (now : Z).

Lemma token_fold_volume (l : list Token.Transaction) (acc : Token.FlowAcc) :
  Token.acc_newVolume (fold_left (Token.flow_step config now) l acc)
  = Token.acc_newVolume acc
    + Tally.sumZ (map Token.value (filter Token.status l)).
Proof.
  unfold Tally.sumZ.
  revert acc. induction l as [| tx l IH]; intros acc; cbn [fold_left filter].
  - cbn. lia.
  - rewrite IH. unfold Token.flow_step.
    destruct (Token.status tx);
      cbn [negb map fold_right Token.acc_newVolume]; lia.
Qed.

End TokenFolds.

Section TokenMetrics.

Variables (config : Token.TokenConfig) (now : Z).

Let prior {A : Type} (prev : option Token.MemeCoinSnapshot)
  (f : Token.FlowMetrics -> A) (d : A) : A :=
  match prev with Some p => f (Token.flowMetrics p) | None => d end.

Let acc0 (prev : option Token.MemeCoinSnapshot) : Token.FlowAcc :=
  {| Token.acc_newVolume := 0;
     Token.acc_newLargeTransfers := [];
     Token.acc_newBurnTransactions := [];
     Token.acc_newTransferSizes := [];
     Token.acc_uniqueAddresses := Js.set_of_list (prior prev Token.uniqueAddresses []);
     Token.acc_volume1h := prior prev Token.last1h 0;
     Token.acc_volume6h := prior prev Token.last6h 0;
     Token.acc_volume24h := prior prev Token.last24h 0 |}.

Lemma token_metrics_fields (new : list Token.Transaction)
  (prev : option Token.MemeCoinSnapshot) :
  let m := Token.analyzeCumulativeFlows new config prev now in
  let acc := fold_left (Token.flow_step config now) new (acc0 prev) in
  Token.totalVolume m = prior prev Token.totalVolume 0 + Token.acc_newVolume acc
  /\ Token.uniqueAddresses m = Token.acc_uniqueAddresses acc
  /\ Token.last1h m = Token.acc_volume1h acc
  /\ Token.last6h m = Token.acc_volume6h acc
  /\ Token.last24h m = Token.acc_volume24h acc
  /\ Token.transferFrequency m = Z.of_nat (length new)
  /\ Token.processedTransactionHashes m
     = Js.slice0 1000 (map Token.txHash new
                       ++ prior prev Token.processedTransactionHashes [])
  /\ Token.topSenders m
     = map (fun e : string * (Z * Z) =>
              {| Token.ts_address := fst e; Token.totalSent := fst (snd e);
                 Token.ts_transactionCount := snd (snd e) |})
           (Js.slice0 10
              (Js.sort (fun a b : string * (Z * Z) => fst (snd b) - fst (snd a))
                 (fst (Token.mergeSenderReceiverMetrics new
                         (option_map Token.flowMetrics prev)))))
  /\ Token.topReceivers m
     = map (fun e : string * (Z * Z) =>
              {| Token.tr_address := fst e; Token.totalReceived := fst (snd e);
                 Token.tr_transactionCount := snd (snd e) |})
           (Js.slice0 10
              (Js.sort (fun a b : string * (Z * Z) => fst (snd b) - fst (snd a))
                 (snd (Token.mergeSenderReceiverMetrics new
                         (option_map Token.flowMetrics prev))))).
Proof.
  unfold Token.analyzeCumulativeFlows, acc0, prior.
  destruct (Token.mergeSenderReceiverMetrics new (option_map Token.flowMetrics prev)).
  destruct prev; cbn [fst snd option_map]; repeat split; reflexivity.
Qed.

Lemma token_fold_windows (l : list Token.Transaction) (acc : Token.FlowAcc) :
  let within (k : Z) (tx : Token.Transaction) :=
    Token.status tx && (now - k * Token.HOUR <=? Token.timestamp tx) in
  let acc' := fold_left (Token.flow_step config now) l acc in
  Token.acc_volume1h acc'
  = Token.acc_volume1h acc + Tally.sumZ (map Token.value (filter (within 1) l))
  /\ Token.acc_volume6h acc'
     = Token.acc_volume6h acc + Tally.sumZ (map Token.value (filter (within 6) l))
  /\ Token.acc_volume24h acc'
     = Token.acc_volume24h acc + Tally.sumZ (map Token.value (filter (within 24) l)).
Proof.
  cbv zeta. unfold Tally.sumZ.
  revert acc. induction l as [| tx l IH]; intros acc; cbn [fold_left filter].
  - cbn. repeat split; lia.
  - destruct (IH (Token.flow_step config now acc tx)) as (H1 & H6 & H24).
    rewrite H1, H6, H24. clear IH H1 H6 H24. unfold Token.flow_step.
    replace (now - 1 * Token.HOUR) with (now - Token.HOUR) by lia.
    destruct (Token.status tx); cbn [negb andb].
    + cbn [Token.acc_volume1h Token.acc_volume6h Token.acc_volume24h].
      destruct (now - Token.HOUR <=? Token.timestamp tx);
        destruct (now - 6 * Token.HOUR <=? Token.timestamp tx);
        destruct (now - 24 * Token.HOUR <=? Token.timestamp tx);
        cbn [map fold_right]; repeat split; lia.
    + repeat split; reflexivity.
Qed.

Lemma token_fold_addresses (l : list Token.Transaction) (acc : Token.FlowAcc) :
  NoDup (Token.acc_uniqueAddresses acc) ->
  let acc' := fold_left (Token.flow_step config now) l acc in
  NoDup (Token.acc_uniqueAddresses acc')
  /\ forall a,
       In a (Token.acc_uniqueAddresses acc')
       <-> In a (Token.acc_uniqueAddresses acc)
           \/ exists tx, In tx l /\ Token.status tx = true
                         /\ (a = Js.toLowerCase (Token.from tx)
                             \/ a = Js.toLowerCase (Token.to tx)).
Proof.
  cbv zeta. revert acc. induction l as [| tx l IH]; intros acc Hnd; cbn [fold_left].
  - split; [exact Hnd |]. intros a. split; [auto |].
    intros [H | (tx & [] & _)]. exact H.
  - assert (Hstep : NoDup (Token.acc_uniqueAddresses (Token.flow_step config now acc tx))).
    { unfold Token.flow_step. destruct (Token.status tx); cbn [negb]; [| exact Hnd].
      cbn [Token.acc_uniqueAddresses]. do 2 apply set_add_NoDup. exact Hnd. }
    destruct (IH _ Hstep) as [Hn Hi]. split; [exact Hn |].
    intros a. rewrite Hi. clear IH Hn Hi Hstep.
    unfold Token.flow_step. destruct (Token.status tx) eqn:Est; cbn [negb].
    + cbn [Token.acc_uniqueAddresses]. rewrite !set_add_In. split.
      * intros [[-> | [-> | H]] | (tx' & Hin & Hs & Ha)].
        -- right. exists tx. cbn. auto.
        -- right. exists tx. cbn. auto.
        -- left. exact H.
        -- right. exists tx'. cbn. auto.
      * intros [H | (tx' & [<- | Hin] & Hs & Ha)].
        -- left. auto.
        -- left. destruct Ha as [-> | ->]; auto.
        -- right. exists tx'. auto.
    + split.
      * intros [H | (tx' & Hin & Hs & Ha)]; [left; exact H |].
        right. exists tx'. cbn. auto.
      * intros [H | (tx' & [<- | Hin] & Hs & Ha)]; [left; exact H | congruence |].
        right. exists tx'. auto.
Qed.

End TokenMetrics.

(** X1. The cumulative volume of a token snapshot is the prior
    snapshot's volume plus the values of the new transactions that
    succeeded (failed ones add nothing); each of the 1 h, 6 h and 24 h
    volumes is the prior snapshot's figure plus the values of the new
    successful transactions stamped within that span of the analysis
    time, so a figure carried over from an earlier cycle is never
    reduced. *)
Theorem X1_token_volumes_accumulate (new : list Token.Transaction)
  (config : Token.TokenConfig) (prev : option Token.MemeCoinSnapshot) (now : Z) :
  let m := Token.analyzeCumulativeFlows new config prev now in
  let prior (f : Token.FlowMetrics -> Z) :=
    match prev with Some p => f (Token.flowMetrics p) | None => 0 end in
  let within (k : Z) (tx : Token.Transaction) :=
    Token.status tx && (now - k * Token.HOUR <=? Token.timestamp tx) in
  Token.totalVolume m
  = prior Token.totalVolume + Tally.sumZ (map Token.value (filter Token.status new))
  /\ Token.last1h m
     = prior Token.last1h + Tally.sumZ (map Token.value (filter (within 1) new))
  /\ Token.last6h m
     = prior Token.last6h + Tally.sumZ (map Token.value (filter (within 6) new))
  /\ Token.last24h m
     = prior Token.last24h + Tally.sumZ (map Token.value (filter (within 24) new)).
Proof.
  cbv zeta.
  destruct (token_metrics_fields config now new prev)
    as (Hv & _ & H1 & H6 & H24 & _).
  rewrite Hv, H1, H6, H24, token_fold_volume.
  match goal with
  | |- context [fold_left (Token.flow_step config now) new ?a] =>
      destruct (token_fold_windows config now new a) as (W1 & W6 & W24)
  end.
  rewrite W1, W6, W24.
  destruct prev; cbn; repeat split; lia.
Qed.

(** X2. The address set of a token snapshot has no duplicates, and an
    address is in it exactly when it was in the prior snapshot's set or
    is the lower-cased sender or receiver of a new transaction that
    succeeded. *)
Theorem X2_token_unique_addresses (new : list Token.Transaction)
  (config : Token.TokenConfig) (prev : option Token.MemeCoinSnapshot) (now : Z) :
  let m := Token.analyzeCumulativeFlows new config prev now in
  let before :=
    match prev with
    | Some p => Token.uniqueAddresses (Token.flowMetrics p)
    | None => []
    end in
  NoDup (Token.uniqueAddresses m)
  /\ forall a,
       In a (Token.uniqueAddresses m)
       <-> In a before
           \/ exists tx, In tx new /\ Token.status tx = true
                         /\ (a = Js.toLowerCase (Token.from tx)
                             \/ a = Js.toLowerCase (Token.to tx)).
Proof.
  cbv zeta.
  destruct (token_metrics_fields config now new prev) as (_ & Hu & _).
  rewrite Hu.
  match goal with
  | |- context [fold_left (Token.flow_step config now) new ?a] =>
      destruct (token_fold_addresses config now new a) as [Hn Hi]
  end.
  { cbn [Token.acc_uniqueAddresses]. apply set_of_list_spec. }
  split; [exact Hn |]. intros a. rewrite Hi.
  cbn [Token.acc_uniqueAddresses].
  destruct (set_of_list_spec
              match prev with
              | Some p => Token.uniqueAddresses (Token.flowMetrics p)
              | None => []
              end) as [_ Hs].
  rewrite Hs. reflexivity.
Qed.

(** ** Processed hashes and re-running a cycle *)

Section ProcessedHashes.

Lemma distinct_NoDup (l : list string) : Tally.distinct l = true <-> NoDup l.
Proof.
  induction l as [| x l IH]; cbn [Tally.distinct].
  - split; [constructor | reflexivity].
  - rewrite andb_true_iff, negb_true_iff, includes_false, IH. split.
    + intros [H1 H2]. constructor; assumption.
    + intros H. inversion H; subst. split; assumption.
Qed.

Lemma firstn_subset {A : Type} (n : nat) (l : list A) (x : A) :
  In x (firstn n l) -> In x l.
Proof.
  revert n. induction l as [| a l IH]; intros n; destruct n; cbn; try tauto.
  intros [H | H]; [left; exact H | right; exact (IH n H)].
Qed.

Lemma NoDup_firstn {A : Type} (n : nat) (l : list A) :
  NoDup l -> NoDup (firstn n l).
Proof.
  revert n. induction l as [| a l IH]; intros n H; destruct n; cbn;
    try constructor.
  - inversion H; subst. intros Hin. apply firstn_subset in Hin. contradiction.
  - inversion H; subst. apply IH. assumption.
Qed.

Lemma kept_keys_distinct {A B : Type} (key : A -> B) (keep : A -> bool)
  (items : list A) :
  NoDup (map key items) -> NoDup (map key (filter keep items)).
Proof.
  induction items as [| x items IH]; cbn [map filter]; intros H; [constructor |].
  inversion H as [| ? ? Hfresh Hrest]; subst.
  destruct (keep x); cbn [map]; [| auto].
  constructor; [| auto]. intros Hin. apply Hfresh.
  apply in_map_iff in Hin. destruct Hin as (y & E & Hy).
  apply filter_In in Hy. apply in_map_iff. exists y. tauto.
Qed.

Lemma fresh_hashes_distinct {A : Type} (h : A -> string) (page : list A)
  (seen : list string) :
  NoDup (map h page) -> NoDup seen ->
  NoDup (map h (filter (fun x => negb (Js.includes seen (h x))) page) ++ seen).
Proof.
  intros Hp Hs. apply NoDup_app; [apply kept_keys_distinct; exact Hp | exact Hs |].
  intros a Ha Hin. apply in_map_iff in Ha. destruct Ha as (x & <- & Hx).
  apply filter_In in Hx. destruct Hx as [_ Hx].
  apply negb_true_iff, includes_false in Hx. contradiction.
Qed.

Lemma page_hashes_seen {A : Type} (h : A -> string) (page : list A)
  (seen : list string) (x : A) :
  In x page ->
  In (h x) (map h (filter (fun x => negb (Js.includes seen (h x))) page) ++ seen).
Proof.
  intros Hx. apply in_app_iff.
  destruct (Js.includes seen (h x)) eqn:E.
  - right. apply includes_In. exact E.
  - left. apply in_map. apply filter_In. rewrite E. auto.
Qed.

End ProcessedHashes.

(** X3. The processed-hash list of a token snapshot holds no hash twice,
    provided the fetched page lists no hash twice and the prior
    snapshot's list (if any) holds none twice. *)
Theorem X3_token_processed_hashes_distinct (page : list Token.Transaction)
  (config : Token.TokenConfig) (prev : option Token.MemeCoinSnapshot) (now : Z) :
  NoDup (map Token.txHash page) ->
  NoDup match prev with
        | Some p => Token.processedTransactionHashes (Token.flowMetrics p)
        | None => []
        end ->
  NoDup (Token.processedTransactionHashes
           (Token.analyzeCumulativeFlows (Token.getNewTransactions page prev)
              config prev now)).
Proof.
  intros Hp Hs.
  destruct (token_metrics_fields config now (Token.getNewTransactions page prev) prev)
    as (_ & _ & _ & _ & _ & _ & Hh & _).
  rewrite Hh. unfold Js.slice0. apply NoDup_firstn.
  destruct prev as [p |]; cbn [Token.getNewTransactions].
  - apply (fresh_hashes_distinct Token.txHash); assumption.
  - rewrite app_nil_r. exact Hp.
Qed.

Lemma X3_token_processed_hashes_witness :
  NoDup (Token.processedTransactionHashes
           (Token.analyzeCumulativeFlows
              (Token.getNewTransactions Scenario.token_page2
                 (Token.findPrevious Scenario.astro "testnet" Scenario.token_db1))
              Scenario.astro_config
              (Token.findPrevious Scenario.astro "testnet" Scenario.token_db1)
              9000)).
Proof.
  apply X3_token_processed_hashes_distinct.
  - apply distinct_NoDup. vm_compute. reflexivity.
  - apply distinct_NoDup. vm_compute. reflexivity.
Defined.

(** X4. Running a token cycle again on the page that the previous cycle
    persisted resolves with [null] and stores nothing, whatever the time
    of the second run: provided the first cycle's snapshot is stamped
    later than the prior one it merged, and the page's new hashes and the
    prior processed hashes together fit the 1000 kept. *)
Theorem X4_token_cycle_rerun_stores_nothing (config : Token.TokenConfig)
  (network : string) (feed : Token.Feed) (clock clock' : Token.Clock)
  (db db' : list Token.MemeCoinSnapshot) (S : Token.MemeCoinSnapshot) :
  Token.analyzeCoinFlows config network feed clock db = (Returned (Some S), db') ->
  let prev := Token.findPrevious (Token.address config) network db in
  match prev with
  | Some p => Token.snapshot_timestamp p < Token.now_snapshot clock
  | None => True
  end ->
  (length (Token.getNewTransactions (fst (Token.fetchLatestTransactions feed)) prev)
   + length match prev with
            | Some p => Token.processedTransactionHashes (Token.flowMetrics p)
            | None => []
            end <= 1000)%nat ->
  Token.analyzeCoinFlows config network feed clock' db' = (Returned None, db').
Proof.
  intros H prev Hts Hlen.
  apply token_cycle_inv in H.
  destruct H as (Hnet & Haddr & Hinfo & _ & Ha & Hn & Ht & Hm & _ & _ & _ & ->).
  fold prev in Hm.
  assert (Hprev' : Token.findPrevious (Token.address config) network (db ++ [S])
                   = Some S).
  { unfold Token.findPrevious. apply findLatest_snoc.
    - rewrite Ha, Hn, !String.eqb_refl. reflexivity.
    - intros s' Hin Hmatch. rewrite Ht.
      destruct prev as [p |] eqn:Ep.
      + unfold prev, Token.findPrevious in Ep.
        apply findLatest_Some in Ep. destruct Ep as (_ & _ & Hmax).
        specialize (Hmax s' Hin Hmatch). lia.
      + unfold prev, Token.findPrevious in Ep.
        rewrite findLatest_None in Ep. rewrite (Ep s' Hin) in Hmatch. discriminate. }
  assert (Hnew : Token.getNewTransactions (fst (Token.fetchLatestTransactions feed))
                   (Token.findPrevious (Token.address config) network (db ++ [S]))
                 = []).
  { rewrite Hprev'. apply token_nothing_new. intros tx Htx.
    apply includes_In. rewrite Hm.
    destruct (token_metrics_fields config (Token.now_flows clock)
                (Token.getNewTransactions (fst (Token.fetchLatestTransactions feed)) prev)
                prev) as (_ & _ & _ & _ & _ & _ & Hh & _).
    rewrite Hh. unfold Js.slice0. rewrite firstn_all2.
    2:{ rewrite length_app, length_map. destruct prev; exact Hlen. }
    destruct prev as [p |]; cbn [Token.getNewTransactions].
    - apply (page_hashes_seen Token.txHash). exact Htx.
    - rewrite app_nil_r. apply in_map. exact Htx. }
  exact (token_cycle_null config network feed clock' (db ++ [S]) _
           Hnet Haddr Hinfo Hnew).
Qed.

Lemma X4_token_cycle_rerun_witness :
  exists S db',
    Token.analyzeCoinFlows Scenario.astro_config "testnet"
      (Scenario.token_feed Scenario.token_page2) (Scenario.token_clock 9000)
      Scenario.token_db1 = (Returned (Some S), db')
    /\ Token.analyzeCoinFlows Scenario.astro_config "testnet"
         (Scenario.token_feed Scenario.token_page2) (Scenario.token_clock 9500)
         db' = (Returned None, db').
Proof.
  assert (E : exists S db',
             Token.analyzeCoinFlows Scenario.astro_config "testnet"
               (Scenario.token_feed Scenario.token_page2) (Scenario.token_clock 9000)
               Scenario.token_db1 = (Returned (Some S), db'))
    by (eexists; eexists; vm_compute; reflexivity).
  destruct E as (S & db' & E). exists S, db'. split; [exact E |].
  apply (X4_token_cycle_rerun_stores_nothing _ _ _ _ _ _ _ _ E).
  - vm_compute. reflexivity.
  - vm_compute. lia.
Defined.

(** ** Sorting and the top-ten lists *)

Section Sorting.

Context {A : Type}.

Lemma sort_insert_perm (cmp : A -> A -> Z) (x : A) (l : list A) :
  Permutation (Js.sort_insert cmp x l) (x :: l).
Proof.
  induction l as [| y l IH]; cbn [Js.sort_insert]; [reflexivity |].
  destruct (cmp x y <=? 0); [reflexivity |].
  rewrite IH. apply perm_swap.
Qed.

Lemma sort_perm (cmp : A -> A -> Z) (l : list A) : Permutation (Js.sort cmp l) l.
Proof.
  unfold Js.sort. induction l as [| x l IH]; cbn [fold_right]; [reflexivity |].
  rewrite sort_insert_perm. constructor. exact IH.
Qed.

Variable key : A -> Z.

Let desc (a b : A) : Prop := key b <= key a.
Let by_key_desc (a b : A) : Z := key b - key a.

Lemma sort_insert_desc (x : A) (l : list A) :
  StronglySorted desc l -> StronglySorted desc (Js.sort_insert by_key_desc x l).
Proof.
  induction l as [| y l IH]; intros Hs; cbn [Js.sort_insert].
  - constructor; constructor.
  - inversion Hs as [| ? ? Hs' Hy]; subst.
    destruct (by_key_desc x y <=? 0) eqn:E.
    + apply Z.leb_le in E. constructor; [exact Hs |].
      constructor; [unfold desc, by_key_desc in *; lia |].
      rewrite Forall_forall in *. intros z Hz. specialize (Hy z Hz).
      unfold desc, by_key_desc in *. lia.
    + apply Z.leb_gt in E. constructor; [apply IH; exact Hs' |].
      rewrite Forall_forall in *. intros z Hz.
      apply (Permutation_in _ (sort_insert_perm by_key_desc x l)) in Hz.
      destruct Hz as [<- | Hz]; [unfold desc, by_key_desc in *; lia | auto].
Qed.

Lemma sort_desc (l : list A) : StronglySorted desc (Js.sort by_key_desc l).
Proof.
  unfold Js.sort. induction l as [| x l IH]; cbn [fold_right]; [constructor |].
  apply sort_insert_desc. exact IH.
Qed.

Lemma firstn_sorted (R : A -> A -> Prop) (n : nat) (l : list A) :
  StronglySorted R l -> StronglySorted R (firstn n l).
Proof.
  revert n. induction l as [| a l IH]; intros n Hs; destruct n; cbn;
    try constructor.
  - inversion Hs; subst. auto.
  - inversion Hs as [| ? ? _ Ha]; subst. rewrite Forall_forall in *.
    intros z Hz. apply Ha. revert Hz. clear. revert n.
    induction l as [| b l IH]; intros n; destruct n; cbn; try tauto.
    intros [H | H]; [left; exact H | right; exact (IH n H)].
Qed.

Lemma top_desc (n : nat) (l : list A) :
  StronglySorted desc (Js.slice0 n (Js.sort by_key_desc l)).
Proof. unfold Js.slice0. apply firstn_sorted, sort_desc. Qed.

End Sorting.

Section SortedMap.

Lemma map_sorted {A B : Type} (f : A -> B) (R : B -> B -> Prop) (l : list A) :
  StronglySorted (fun a b => R (f a) (f b)) l -> StronglySorted R (map f l).
Proof.
  induction 1 as [| a l Hs IH Ha]; cbn [map]; constructor; [exact IH |].
  rewrite Forall_forall in *. intros y Hy. apply in_map_iff in Hy.
  destruct Hy as (x & <- & Hx). apply Ha. exact Hx.
Qed.

End SortedMap.

(** X5. The top senders of a token snapshot are at most ten and listed
    by total sent, largest first; likewise the top receivers by total
    received. *)
Theorem X5_token_top_lists_ranked (new : list Token.Transaction)
  (config : Token.TokenConfig) (prev : option Token.MemeCoinSnapshot) (now : Z) :
  let m := Token.analyzeCumulativeFlows new config prev now in
  (length (Token.topSenders m) <= 10)%nat
  /\ StronglySorted (fun a b => Token.totalSent b <= Token.totalSent a)
       (Token.topSenders m)
  /\ (length (Token.topReceivers m) <= 10)%nat
  /\ StronglySorted (fun a b => Token.totalReceived b <= Token.totalReceived a)
       (Token.topReceivers m).
Proof.
  cbv zeta.
  destruct (token_metrics_fields config now new prev)
    as (_ & _ & _ & _ & _ & _ & _ & Hs & Hr).
  rewrite Hs, Hr. rewrite !length_map.
  split; [apply length_slice0 |].
  split; [apply map_sorted; cbn [Token.totalSent];
          apply (top_desc (fun e : string * (Z * Z) => fst (snd e))) |].
  split; [apply length_slice0 |].
  apply map_sorted; cbn [Token.totalReceived].
  apply (top_desc (fun e : string * (Z * Z) => fst (snd e))).
Qed.

(** ** Token risk score *)

Section TokenRisk.

Lemma count_severity_nonneg (s : Severity) (alerts : list Token.AlertData) :
  0 <= Token.count_severity s alerts.
Proof. unfold Token.count_severity. lia. Qed.

End TokenRisk.

(** X6. The token risk score lies between 1 and 10, and the alerts enter
    it additively: it is the score of the same metrics without alerts
    plus 2 for every HIGH alert and 1 for every MEDIUM alert, capped at
    10; LOW alerts add nothing. *)
Theorem X6_token_risk_score (metrics : Token.FlowMetrics)
  (alerts : list Token.AlertData) (now : Z) :
  1 <= Token.calculateRiskScore metrics alerts now <= 10
  /\ Token.calculateRiskScore metrics alerts now
     = Z.min (Token.calculateRiskScore metrics [] now
              + 2 * Token.count_severity HIGH alerts
              + Token.count_severity MEDIUM alerts) 10.
Proof.
  pose proof (count_severity_nonneg HIGH alerts) as Hh.
  pose proof (count_severity_nonneg MEDIUM alerts) as Hm.
  unfold Token.calculateRiskScore.
  change (Token.count_severity HIGH []) with 0.
  change (Token.count_severity MEDIUM []) with 0.
  cbv zeta.
  repeat match goal with
         | |- context [if ?c then _ else _] => destruct c
         end; lia.
Qed.

Section TokenSave.

Lemma token_risk_range (metrics : Token.FlowMetrics)
  (alerts : list Token.AlertData) (now : Z) :
  1 <= Token.calculateRiskScore metrics alerts now <= 10.
Proof.
  pose proof (count_severity_nonneg HIGH alerts) as Hh.
  pose proof (count_severity_nonneg MEDIUM alerts) as Hm.
  unfold Token.calculateRiskScore. cbv zeta.
  repeat match goal with
         | |- context [if ?c then _ else _] => destruct c
         end; lia.
Qed.

Lemma valid_address_required (a : string) :
  Js.isValidEthereumAddress a = true -> Mongoose.required a = true.
Proof. destruct a; [discriminate | reflexivity]. Qed.

End TokenSave.

(** X7. A token configuration whose large-transfer threshold times ten
    is not an integer makes every cycle that finds new transactions fail
    with a RangeError, with nothing stored. *)
Theorem X7_token_fractional_threshold_throws (config : Token.TokenConfig)
  (network : string) (feed : Token.Feed) (clock : Token.Clock)
  (db : list Token.MemeCoinSnapshot) :
  Js.BigInt (Js.mul (Token.largeTransfer (Token.thresholds config)) (Js.Number 10))
  = None ->
  Networks.isValidNetwork network = true ->
  Js.isValidEthereumAddress (Token.address config) = true ->
  snd (Token.fetchLatestTransactions feed) <> None ->
  Token.getNewTransactions (fst (Token.fetchLatestTransactions feed))
    (Token.findPrevious (Token.address config) network db) <> [] ->
  Token.analyzeCoinFlows config network feed clock db = (Thrown RangeError, db).
Proof.
  intros Hbig Hnet Haddr Hinfo Hnew.
  unfold Token.analyzeCoinFlows.
  rewrite (valid_network_config _ Hnet), Haddr. cbn [negb].
  destruct (Token.fetchLatestTransactions feed) as [page info]; cbn [fst snd] in *.
  destruct info as [info |]; [| contradiction].
  destruct (Token.getNewTransactions page _) as [| tx new]; [contradiction |].
  unfold Token.detectAlerts. rewrite Hbig. reflexivity.
Qed.

Lemma X7_token_fractional_threshold_witness :
  Token.analyzeCoinFlows Cases.fractional_config "testnet"
    (Scenario.token_feed Scenario.token_page1) (Scenario.token_clock 5000) []
  = (Thrown RangeError, []).
Proof.
  apply X7_token_fractional_threshold_throws.
  - vm_compute. reflexivity.
  - vm_compute. reflexivity.
  - vm_compute. reflexivity.
  - vm_compute. discriminate.
  - vm_compute. discriminate.
Defined.

(** X8. The only schema constraint that can reject the snapshot of a
    token cycle is the [network] enumeration: a cycle that fails
    validation fails on that path, for a network name that
    [getNetworkConfig] let pass but that is none of the three names as
    the schema spells them, and stores nothing. *)
Theorem X8_token_save_rejects_network_only (config : Token.TokenConfig)
  (network : string) (feed : Token.Feed) (clock : Token.Clock)
  (db db' : list Token.MemeCoinSnapshot) (path : string) :
  Token.analyzeCoinFlows config network feed clock db
  = (Thrown (ValidationError path), db') ->
  path = "network"
  /\ Networks.getNetworkConfig network = Returned tt
  /\ Mongoose.enum Networks.schema_network_enum network = false
  /\ db' = db.
Proof.
  unfold Token.analyzeCoinFlows.
  destruct (Networks.getNetworkConfig network) as [[] | e0] eqn:Hcfg.
  2:{ destruct (network_config_cases network) as [E | E]; rewrite E in Hcfg;
        inversion Hcfg; subst; discriminate. }
  destruct (Js.isValidEthereumAddress (Token.address config)) eqn:Haddr;
    [| discriminate].
  cbn [negb].
  destruct (Token.fetchLatestTransactions feed) as [page info].
  destruct info as [info |]; [| discriminate].
  destruct (Token.getNewTransactions page _) as [| tx new]; [discriminate |].
  destruct (Token.detectAlerts _ _ _ _ _) as [al | e] eqn:Hal.
  2:{ unfold Token.detectAlerts in Hal.
      destruct (Js.BigInt _); [discriminate |].
      inversion Hal; subst. discriminate. }
  unfold Mongoose.save, Token.validate.
  cbn [Token.tokenAddress Token.network Token.riskScore Token.analysisMetadata
       Token.dataQuality].
  rewrite (valid_address_required _ Haddr). cbn [negb].
  destruct (Mongoose.enum Networks.schema_network_enum network).
  - cbn [negb].
    match goal with
    | |- context [Mongoose.within 0 10 (Token.calculateRiskScore ?m ?a ?n)] =>
        pose proof (token_risk_range m a n) as Hr;
        assert (Hw : Mongoose.within 0 10 (Token.calculateRiskScore m a n) = true)
          by (unfold Mongoose.within; apply andb_true_iff;
              split; apply Z.leb_le; lia);
        rewrite Hw
    end.
    cbn [negb].
    match goal with
    | |- context [100 <? ?t] => destruct (100 <? t); [| destruct (10 <? t)]
    end; cbn; discriminate.
  - cbn [negb]. intros H; inversion H; subst. auto.
Qed.

Lemma X8_token_save_rejects_network_witness :
  exists path db',
    Token.analyzeCoinFlows Scenario.astro_config "TESTNET"
      (Scenario.token_feed Scenario.token_page1) (Scenario.token_clock 5000) []
    = (Thrown (ValidationError path), db')
    /\ path = "network"
    /\ Networks.getNetworkConfig "TESTNET" = Returned tt
    /\ Mongoose.enum Networks.schema_network_enum "TESTNET" = false
    /\ db' = [].
Proof.
  assert (E : exists path db',
             Token.analyzeCoinFlows Scenario.astro_config "TESTNET"
               (Scenario.token_feed Scenario.token_page1) (Scenario.token_clock 5000) []
             = (Thrown (ValidationError path), db'))
    by (eexists; eexists; vm_compute; reflexivity).
  destruct E as (path & db' & E). exists path, db'. split; [exact E |].
  exact (X8_token_save_rejects_network_only _ _ _ _ _ _ _ E).
Defined.

(** ** NFT movements: holders, counters and re-running a cycle *)

Section NftCycle.

Variables (config : Nft.NFTConfig) (network : string) (feed : Nft.Feed)
  (clock : Nft.Clock) (db : list Nft.NFTSnapshot).

Lemma nft_cycle_inv (db' : list Nft.NFTSnapshot) (S : Nft.NFTSnapshot) :
  Nft.analyzeNFTMovements config network feed clock db = (Returned (Some S), db') ->
  let page := fst (Nft.fetchLatestNFTTransactions feed) in
  let prev := Nft.findPrevious (Nft.address config) network db in
  let new := Nft.getNewNFTTransactions page prev in
  Networks.getNetworkConfig network = Returned tt
  /\ Js.isValidEthereumAddress (Nft.address config) = true
  /\ snd (Nft.fetchLatestNFTTransactions feed) = Some (Nft.tokenInfo S)
  /\ new <> []
  /\ Nft.tokenAddress S = Js.toLowerCase (Nft.address config)
  /\ Nft.network S = network
  /\ Nft.snapshot_timestamp S = Nft.now_snapshot clock
  /\ Nft.movementMetrics S
     = Nft.analyzeCumulativeNFTMovements new config prev (Nft.now_movements clock)
  /\ Nft.alerts S
     = Nft.detectNFTAlerts (Nft.movementMetrics S) config prev new (Nft.now_alerts clock)
  /\ Nft.riskScore S
     = Nft.calculateNFTRiskScore (Nft.movementMetrics S) (Nft.alerts S)
         (Nft.now_risk clock)
  /\ Nft.validate S = None
  /\ db' = db ++ [S].
Proof.
  unfold Nft.analyzeNFTMovements.
  destruct (Networks.getNetworkConfig network) as [[] | e0]; [| discriminate].
  destruct (Js.isValidEthereumAddress (Nft.address config)); [| discriminate].
  cbn [negb].
  destruct (Nft.fetchLatestNFTTransactions feed) as [page info]; cbn [fst snd].
  destruct info as [info |]; [| discriminate].
  destruct (Nft.getNewNFTTransactions page
              (Nft.findPrevious (Nft.address config) network db))
    as [| tx new] eqn:Hnew; [discriminate |].
  unfold Mongoose.save.
  destruct (Nft.validate _) eqn:Hv; [discriminate |].
  intros H; inversion H; subst; clear H.
  cbv zeta. cbn [Nft.tokenInfo Nft.tokenAddress Nft.network
                 Nft.snapshot_timestamp Nft.movementMetrics Nft.alerts
                 Nft.riskScore].
  repeat split; try reflexivity; try assumption. discriminate.
Qed.

Lemma nft_cycle_null (info : Nft.NFTTokenInfo) :
  Networks.getNetworkConfig network = Returned tt ->
  Js.isValidEthereumAddress (Nft.address config) = true ->
  snd (Nft.fetchLatestNFTTransactions feed) = Some info ->
  Nft.getNewNFTTransactions (fst (Nft.fetchLatestNFTTransactions feed))
    (Nft.findPrevious (Nft.address config) network db) = [] ->
  Nft.analyzeNFTMovements config network feed clock db = (Returned None, db).
Proof.
  intros Hcfg Haddr Hinfo Hnew. unfold Nft.analyzeNFTMovements.
  rewrite Hcfg, Haddr. cbn [negb].
  destruct (Nft.fetchLatestNFTTransactions feed) as [page i]; cbn [fst snd] in *.
  subst i. rewrite Hnew. reflexivity.
Qed.

End NftCycle.

Section NftMetrics.

Variables (config : Nft.NFTConfig) (now : Z).

Let prior {A : Type} (prev : option Nft.NFTSnapshot)
  (f : Nft.NFTMovementMetrics -> A) (d : A) : A :=
  match prev with Some p => f (Nft.movementMetrics p) | None => d end.

Let acc0 (prev : option Nft.NFTSnapshot) : Nft.MovementAcc :=
  {| Nft.acc_uniqueHolders := Js.set_of_list (prior prev Nft.uniqueHolders []);
     Nft.acc_newTransferHistory := [];
     Nft.acc_newMintTransactions := [];
     Nft.acc_newBurnTransactions := [];
     Nft.acc_tokenTransferCounts := [];
     Nft.acc_transfers1h := prior prev Nft.last1h 0;
     Nft.acc_transfers6h := prior prev Nft.last6h 0;
     Nft.acc_transfers24h := prior prev Nft.last24h 0;
     Nft.acc_totalFees := prior prev Nft.totalFeesGenerated 0;
     Nft.acc_feeDistribution :=
       prior prev Nft.feeDistribution {| Nft.low := 0; Nft.medium := 0; Nft.high := 0 |};
     Nft.acc_flippingCount := 0 |}.

Lemma nft_metrics_fields (new : list Nft.NFTTransaction)
  (prev : option Nft.NFTSnapshot) :
  let m := Nft.analyzeCumulativeNFTMovements new config prev now in
  let acc := fold_left (Nft.movement_step now) new (acc0 prev) in
  let stats := Nft.updateHolderMetrics new (option_map Nft.movementMetrics prev) in
  Nft.currentHolders m = fst (fst stats)
  /\ Nft.topHolders m
     = map (fun e : Nft.HolderValue * (Z * list string) =>
              {| Nft.h_address := fst e; Nft.tokenCount := fst (snd e);
                 Nft.tokensOwned := snd (snd e) |})
           (Js.slice0 10
              (Js.sort (fun a b : Nft.HolderValue * (Z * list string) =>
                          fst (snd b) - fst (snd a))
                       (snd (fst stats))))
  /\ Nft.uniqueHolders m = Nft.acc_uniqueHolders acc
  /\ Nft.last1h m = Nft.acc_transfers1h acc
  /\ Nft.last6h m = Nft.acc_transfers6h acc
  /\ Nft.last24h m = Nft.acc_transfers24h acc
  /\ Nft.totalFeesGenerated m = Nft.acc_totalFees acc
  /\ Nft.feeDistribution m = Nft.acc_feeDistribution acc
  /\ Nft.processedTransactionHashes m
     = Js.slice0 2000 (map Nft.txHash new
                       ++ prior prev Nft.processedTransactionHashes []).
Proof.
  unfold Nft.analyzeCumulativeNFTMovements, acc0, prior.
  destruct (Nft.updateHolderMetrics new (option_map Nft.movementMetrics prev))
    as [[holders stats] traders].
  destruct prev; cbn [fst snd option_map]; repeat split; reflexivity.
Qed.

End NftMetrics.

Section NftHolders.

Let assign (o : list (string * Nft.HolderValue)) (tx : Nft.NFTTransaction)
  : list (string * Nft.HolderValue) :=
  if negb (Nft.status tx) then o
  else Js.obj_set (Nft.tokenItemId tx) (Nft.Text (Js.toLowerCase (Nft.to tx))) o.

Let tally (m : Nft.HolderStats) (entry : string * Nft.HolderValue) : Nft.HolderStats :=
  let '(tokenId, owner) := entry in
  if Nft.HolderValue_eqb owner (Nft.Text (Js.toLowerCase Nft.ZERO_ADDRESS)) then m
  else
    match Nft.holder_get owner m with
    | Some (n, owned) => Nft.holder_set owner (n + 1, owned ++ [tokenId]) m
    | None => Nft.holder_set owner (1, [tokenId]) m
    end.

Lemma nft_holders_fold (new : list Nft.NFTTransaction)
  (pm : option Nft.NFTMovementMetrics) :
  let holders0 :=
    match pm with
    | Some m => Nft.spread_stored_map (Nft.currentHolders m)
    | None => []
    end in
  fst (fst (Nft.updateHolderMetrics new pm)) = fold_left assign new holders0
  /\ snd (fst (Nft.updateHolderMetrics new pm))
     = fold_left tally (fold_left assign new holders0) [].
Proof.
  cbv zeta. unfold Nft.updateHolderMetrics.
  match goal with
  | |- context [fold_left ?f new (?h0, ?t0)] =>
      assert (E : forall l acc, fst (fold_left f l acc) = fold_left assign l (fst acc))
  end.
  { induction l as [| tx l IH]; intros acc; cbn [fold_left]; [reflexivity |].
    rewrite IH. unfold assign. destruct (Nft.status tx); reflexivity. }
  match goal with
  | |- context [fold_left ?f new (?h0, ?t0)] =>
      specialize (E new (h0, t0)); destruct (fold_left f new (h0, t0)) as [h t]
  end.
  cbn [fst snd] in *. subst h. split; reflexivity.
Qed.



(** a key of the table is never dropped *)
Lemma assign_keeps_key (l : list Nft.NFTTransaction)
  (o : list (string * Nft.HolderValue)) (k : string) :
  Js.map_get k o <> None -> Js.map_get k (fold_left assign l o) <> None.
Proof.
  revert o. induction l as [| tx l IH]; intros o H; cbn [fold_left]; [exact H |].
  apply IH. unfold assign. destruct (Nft.status tx); cbn [negb]; [| exact H].
  destruct (String.eqb (Nft.tokenItemId tx) k) eqn:E.
  - apply String.eqb_eq in E. rewrite E, obj_get_set_eq. discriminate.
  - apply String.eqb_neq in E. rewrite (obj_get_set_ne _ _ _ _ E). exact H.
Qed.

Lemma map_get_In {V : Type} (k : string) (v : V) (m : list (string * V)) :
  Js.map_get k m = Some v -> In (k, v) m.
Proof.
  induction m as [| [k' v'] m IH]; cbn; [discriminate |].
  destruct (String.eqb k' k) eqn:E.
  - apply String.eqb_eq in E. subst. intros H; inversion H. left. reflexivity.
  - intros H. right. exact (IH H).
Qed.

Lemma HolderValue_eqb_eq (a b : Nft.HolderValue) :
  Nft.HolderValue_eqb a b = true <-> a = b.
Proof.
  destruct a as [x | x], b as [y | y]; cbn; split; intros H;
    try discriminate; try (apply String.eqb_eq in H; subst; reflexivity);
    inversion H; subst; apply String.eqb_refl.
Qed.

Lemma holder_get_In (k : Nft.HolderValue) (v : Z * list string)
  (m : Nft.HolderStats) :
  Nft.holder_get k m = Some v -> In (k, v) m.
Proof.
  induction m as [| [k' v'] m IH]; cbn; [discriminate |].
  destruct (Nft.HolderValue_eqb k' k) eqn:E.
  - apply HolderValue_eqb_eq in E. subst. intros H; inversion H. left. reflexivity.
  - intros H. right. exact (IH H).
Qed.

Lemma holder_set_In (k : Nft.HolderValue) (v : Z * list string)
  (m : Nft.HolderStats) (e : Nft.HolderValue * (Z * list string)) :
  In e (Nft.holder_set k v m) -> e = (k, v) \/ In e m.
Proof.
  induction m as [| [k' v'] m IH]; cbn.
  - intros [<- | []]. left. reflexivity.
  - destruct (Nft.HolderValue_eqb k' k) eqn:E; cbn.
    + apply HolderValue_eqb_eq in E. subst k'. intros [<- | H]; auto.
    + intros [<- | H]; auto. destruct (IH H); auto.
Qed.

Let sound (e : Nft.HolderValue * (Z * list string)) : Prop :=
  fst e <> Nft.Text (Js.toLowerCase Nft.ZERO_ADDRESS)
  /\ fst (snd e) = Z.of_nat (length (snd (snd e)))
  /\ 1 <= fst (snd e).

Lemma tally_sound (holders : list (string * Nft.HolderValue)) (m : Nft.HolderStats) :
  (forall e, In e m -> sound e) ->
  forall e, In e (fold_left tally holders m) -> sound e.
Proof.
  revert m. induction holders as [| [tokenId owner] holders IH]; intros m Hm;
    cbn [fold_left]; [exact Hm |].
  apply IH. intros e He. unfold tally in He.
  destruct (Nft.HolderValue_eqb owner (Nft.Text (Js.toLowerCase Nft.ZERO_ADDRESS)))
    eqn:Ez; [auto |].
  assert (Hz : owner <> Nft.Text (Js.toLowerCase Nft.ZERO_ADDRESS)).
  { intros E. apply HolderValue_eqb_eq in E. congruence. }
  destruct (Nft.holder_get owner m) as [[n owned] |] eqn:Eg.
  - apply holder_set_In in He. destruct He as [-> | He]; [| auto].
    apply holder_get_In in Eg. destruct (Hm _ Eg) as (_ & Hn & Hpos).
    unfold sound. cbn [fst snd] in *. rewrite length_app. cbn [length].
    repeat split; [exact Hz | lia | lia].
  - apply holder_set_In in He. destruct He as [-> | He]; [| auto].
    unfold sound. cbn. repeat split; [exact Hz | lia].
Qed.

Lemma nft_holder_stats_sound (new : list Nft.NFTTransaction)
  (pm : option Nft.NFTMovementMetrics) :
  forall e, In e (snd (fst (Nft.updateHolderMetrics new pm))) -> sound e.
Proof.
  destruct (nft_holders_fold new pm) as [_ E]. rewrite E.
  apply tally_sound. intros e [].
Qed.

Lemma nft_current_holders (new : list Nft.NFTTransaction)
  (config : Nft.NFTConfig) (prev : option Nft.NFTSnapshot) (now : Z) :
  Nft.currentHolders (Nft.analyzeCumulativeNFTMovements new config prev now)
  = fold_left assign new
      match prev with
      | Some p => Nft.spread_stored_map (Nft.currentHolders (Nft.movementMetrics p))
      | None => []
      end.
Proof.
  destruct (nft_metrics_fields config now new prev) as (Hc & _). rewrite Hc.
  destruct (nft_holders_fold new (option_map Nft.movementMetrics prev)) as [E _].
  rewrite E. destruct prev; reflexivity.
Qed.

(** with a prior snapshot the holder table cannot be cast to the [Map]
    the schema declares *)
Lemma nft_holders_with_prior (new : list Nft.NFTTransaction)
  (config : Nft.NFTConfig) (p : Nft.NFTSnapshot) (now : Z) :
  Nft.castable_holders
    (Nft.currentHolders (Nft.analyzeCumulativeNFTMovements new config (Some p) now))
  = false.
Proof.
  rewrite nft_current_holders.
  match goal with
  | |- Nft.castable_holders ?o = false =>
      assert (Hk : Js.map_get "$__parent" o <> None)
        by (apply assign_keeps_key; discriminate);
      destruct (Js.map_get "$__parent" o) as [v |] eqn:Eg; [| contradiction];
      apply map_get_In in Eg;
      destruct (Nft.castable_holders o) eqn:Ec; [| reflexivity];
      unfold Nft.castable_holders in Ec; rewrite forallb_forall in Ec;
      specialize (Ec _ Eg); cbn in Ec; discriminate
  end.
Qed.

End NftHolders.

Section NftPersist.

(** an NFT cycle persists a snapshot only when none is stored yet for
    the collection and network *)
Lemma nft_persist_needs_no_prior (config : Nft.NFTConfig) (network : string)
  (feed : Nft.Feed) (clock : Nft.Clock) (db db' : list Nft.NFTSnapshot)
  (S : Nft.NFTSnapshot) :
  Nft.analyzeNFTMovements config network feed clock db = (Returned (Some S), db') ->
  Nft.findPrevious (Nft.address config) network db = None.
Proof.
  intros H. apply nft_cycle_inv in H. cbv zeta in H.
  destruct H as (_ & _ & _ & _ & _ & _ & _ & Hm & _ & _ & Hv & _).
  destruct (Nft.findPrevious (Nft.address config) network db) as [p |];
    [| reflexivity].
  exfalso. unfold Nft.validate in Hv.
  rewrite Hm, nft_holders_with_prior in Hv. cbn [negb] in Hv.
  repeat match type of Hv with
         | (if ?c then _ else _) = None => destruct c; try discriminate
         end.
Qed.

End NftPersist.



(** X10. The top holders of an NFT snapshot are at most ten, listed by
    token count with the largest first; none of them is the zero address,
    and each one's token count is the number of token ids listed for it,
    which is at least one. *)
Theorem X10_nft_top_holders (new : list Nft.NFTTransaction)
  (config : Nft.NFTConfig) (prev : option Nft.NFTSnapshot) (now : Z) :
  let m := Nft.analyzeCumulativeNFTMovements new config prev now in
  (length (Nft.topHolders m) <= 10)%nat
  /\ StronglySorted (fun a b => Nft.tokenCount b <= Nft.tokenCount a)
       (Nft.topHolders m)
  /\ forall h, In h (Nft.topHolders m) ->
       Nft.h_address h <> Nft.Text (Js.toLowerCase Nft.ZERO_ADDRESS)
       /\ Nft.tokenCount h = Z.of_nat (length (Nft.tokensOwned h))
       /\ 1 <= Nft.tokenCount h.
Proof.
  cbv zeta.
  destruct (nft_metrics_fields config now new prev) as (_ & Ht & _).
  rewrite Ht. rewrite length_map.
  split; [apply length_slice0 |].
  split.
  - apply map_sorted; cbn [Nft.tokenCount].
    apply (top_desc (fun e : Nft.HolderValue * (Z * list string) => fst (snd e))).
  - intros h Hh. apply in_map_iff in Hh. destruct Hh as (e & <- & He).
    unfold Js.slice0 in He. apply firstn_subset in He.
    apply (Permutation_in _ (sort_perm _ _)) in He.
    apply nft_holder_stats_sound in He. exact He.
Qed.

Section NftCounters.

Variable now : Z.

Lemma nft_fold_counters (l : list Nft.NFTTransaction) (acc : Nft.MovementAcc) :
  let within (k : Z) (tx : Nft.NFTTransaction) :=
    Nft.status tx && (now - k * Nft.HOUR <=? Nft.timestamp tx) in
  let buckets (a : Nft.MovementAcc) :=
    Nft.low (Nft.acc_feeDistribution a) + Nft.medium (Nft.acc_feeDistribution a)
    + Nft.high (Nft.acc_feeDistribution a) in
  let acc' := fold_left (Nft.movement_step now) l acc in
  Nft.acc_transfers1h acc' = Nft.acc_transfers1h acc + Tally.count (within 1) l
  /\ Nft.acc_transfers6h acc' = Nft.acc_transfers6h acc + Tally.count (within 6) l
  /\ Nft.acc_transfers24h acc' = Nft.acc_transfers24h acc + Tally.count (within 24) l
  /\ Nft.acc_totalFees acc'
     = Nft.acc_totalFees acc + Tally.sumZ (map Nft.fee (filter Nft.status l))
  /\ buckets acc' = buckets acc + Tally.count Nft.status l.
Proof.
  cbv zeta. unfold Tally.count, Tally.sumZ.
  revert acc. induction l as [| tx l IH]; intros acc; cbn [fold_left filter].
  - cbn. repeat split; lia.
  - destruct (IH (Nft.movement_step now acc tx)) as (H1 & H6 & H24 & Hf & Hb).
    rewrite H1, H6, H24, Hf, Hb. clear IH H1 H6 H24 Hf Hb.
    unfold Nft.movement_step.
    replace (now - 1 * Nft.HOUR) with (now - Nft.HOUR) by lia.
    destruct (Nft.status tx); cbn [negb andb].
    + cbv zeta.
      cbn [Nft.acc_transfers1h Nft.acc_transfers6h Nft.acc_transfers24h
           Nft.acc_totalFees Nft.acc_feeDistribution].
      destruct (now - Nft.HOUR <=? Nft.timestamp tx);
        destruct (now - 6 * Nft.HOUR <=? Nft.timestamp tx);
        destruct (now - 24 * Nft.HOUR <=? Nft.timestamp tx);
        destruct (Js.ltb (Js.Number (Nft.fee tx)) (Js.Number (10 ^ 15)));
        try destruct (Js.ltb (Js.Number (Nft.fee tx)) (Js.Number (10 ^ 16)));
        cbn [map fold_right length Nft.low Nft.medium Nft.high];
        repeat split; lia.
    + repeat split; reflexivity.
Qed.

End NftCounters.

(** X11. The activity counters of an NFT snapshot accumulate: each of
    the 1 h, 6 h and 24 h transfer counts is the prior snapshot's count
    plus the number of new successful transactions stamped within that
    span of the analysis time; the total fees are the prior total plus
    the fees of the new successful transactions; and the three fee
    buckets together grow by exactly the number of new successful
    transactions. *)
Theorem X11_nft_counters_accumulate (new : list Nft.NFTTransaction)
  (config : Nft.NFTConfig) (prev : option Nft.NFTSnapshot) (now : Z) :
  let m := Nft.analyzeCumulativeNFTMovements new config prev now in
  let prior (f : Nft.NFTMovementMetrics -> Z) :=
    match prev with Some p => f (Nft.movementMetrics p) | None => 0 end in
  let within (k : Z) (tx : Nft.NFTTransaction) :=
    Nft.status tx && (now - k * Nft.HOUR <=? Nft.timestamp tx) in
  let buckets (x : Nft.NFTMovementMetrics) :=
    Nft.low (Nft.feeDistribution x) + Nft.medium (Nft.feeDistribution x)
    + Nft.high (Nft.feeDistribution x) in
  Nft.last1h m = prior Nft.last1h + Tally.count (within 1) new
  /\ Nft.last6h m = prior Nft.last6h + Tally.count (within 6) new
  /\ Nft.last24h m = prior Nft.last24h + Tally.count (within 24) new
  /\ Nft.totalFeesGenerated m
     = prior Nft.totalFeesGenerated
       + Tally.sumZ (map Nft.fee (filter Nft.status new))
  /\ buckets m = prior buckets + Tally.count Nft.status new.
Proof.
  cbv zeta.
  destruct (nft_metrics_fields config now new prev)
    as (_ & _ & _ & H1 & H6 & H24 & Hf & Hd & _).
  rewrite H1, H6, H24, Hf, Hd.
  match goal with
  | |- context [fold_left (Nft.movement_step now) new ?a] =>
      destruct (nft_fold_counters now new a) as (W1 & W6 & W24 & Wf & Wb)
  end.
  rewrite W1, W6, W24, Wf, Wb.
  destruct prev; cbn; repeat split; lia.
Qed.

Section NftRisk.

Lemma nft_count_severity_nonneg (s : Severity) (alerts : list Nft.NFTAlertData) :
  0 <= Nft.count_severity s alerts.
Proof. unfold Nft.count_severity. lia. Qed.

Lemma nft_risk_range (metrics : Nft.NFTMovementMetrics)
  (alerts : list Nft.NFTAlertData) (now : Z) :
  1 <= Nft.calculateNFTRiskScore metrics alerts now <= 10.
Proof.
  pose proof (nft_count_severity_nonneg HIGH alerts) as Hh.
  pose proof (nft_count_severity_nonneg MEDIUM alerts) as Hm.
  unfold Nft.calculateNFTRiskScore. cbv zeta.
  destruct (Nft.topHolders metrics);
    repeat match goal with
           | |- context [if ?c then _ else _] => destruct c
           end; lia.
Qed.

End NftRisk.

(** X12. The NFT risk score lies between 1 and 10, and the alerts enter
    it additively: it is the score of the same metrics without alerts
    plus 2 for every HIGH alert and 1 for every MEDIUM alert, capped at
    10; LOW alerts add nothing. *)
Theorem X12_nft_risk_score (metrics : Nft.NFTMovementMetrics)
  (alerts : list Nft.NFTAlertData) (now : Z) :
  1 <= Nft.calculateNFTRiskScore metrics alerts now <= 10
  /\ Nft.calculateNFTRiskScore metrics alerts now
     = Z.min (Nft.calculateNFTRiskScore metrics [] now
              + 2 * Nft.count_severity HIGH alerts
              + Nft.count_severity MEDIUM alerts) 10.
Proof.
  pose proof (nft_count_severity_nonneg HIGH alerts) as Hh.
  pose proof (nft_count_severity_nonneg MEDIUM alerts) as Hm.
  unfold Nft.calculateNFTRiskScore.
  change (Nft.count_severity HIGH []) with 0.
  change (Nft.count_severity MEDIUM []) with 0.
  cbv zeta.
  destruct (Nft.topHolders metrics);
    repeat match goal with
           | |- context [if ?c then _ else _] => destruct c
           end; lia.
Qed.

(** X13. After an NFT cycle persisted a snapshot, a cycle run again on
    the same page, at whatever time, resolves with [null] and stores
    nothing, provided the page holds at most the 2000 hashes a snapshot
    keeps. *)
Theorem X13_nft_cycle_rerun_stores_nothing (config : Nft.NFTConfig)
  (network : string) (feed : Nft.Feed) (clock clock' : Nft.Clock)
  (db db' : list Nft.NFTSnapshot) (S : Nft.NFTSnapshot) :
  Nft.analyzeNFTMovements config network feed clock db = (Returned (Some S), db') ->
  (length (fst (Nft.fetchLatestNFTTransactions feed)) <= 2000)%nat ->
  Nft.analyzeNFTMovements config network feed clock' db' = (Returned None, db').
Proof.
  intros H Hlen.
  pose proof (nft_persist_needs_no_prior _ _ _ _ _ _ _ H) as Hprev.
  apply nft_cycle_inv in H. cbv zeta in H.
  destruct H as (Hnet & Haddr & Hinfo & _ & Ha & Hn & Ht & Hm & _ & _ & _ & ->).
  rewrite Hprev in Hm.
  assert (Hprev' : Nft.findPrevious (Nft.address config) network (db ++ [S])
                   = Some S).
  { unfold Nft.findPrevious. apply findLatest_snoc.
    - rewrite Ha, Hn, !String.eqb_refl. reflexivity.
    - intros s' Hin Hmatch. unfold Nft.findPrevious in Hprev.
      rewrite findLatest_None in Hprev. rewrite (Hprev s' Hin) in Hmatch.
      discriminate. }
  apply (nft_cycle_null config network feed clock' (db ++ [S]) _ Hnet Haddr Hinfo).
  rewrite Hprev'. apply nft_nothing_new. intros tx Htx.
  apply includes_In. rewrite Hm.
  destruct (nft_metrics_fields config (Nft.now_movements clock)
              (Nft.getNewNFTTransactions
                 (fst (Nft.fetchLatestNFTTransactions feed)) None)
              None) as (_ & _ & _ & _ & _ & _ & _ & _ & Hh).
  rewrite Hh. unfold Js.slice0. rewrite firstn_all2.
  2:{ rewrite length_app, length_map. cbn [Nft.getNewNFTTransactions length]. lia. }
  cbn [Nft.getNewNFTTransactions]. rewrite app_nil_r. apply in_map. exact Htx.
Qed.

Lemma X13_nft_cycle_rerun_witness :
  exists S db',
    Nft.analyzeNFTMovements Scenario.dongle_config "testnet"
      (Some Scenario.nft_page1) (Scenario.nft_clock 5000) []
    = (Returned (Some S), db')
    /\ Nft.analyzeNFTMovements Scenario.dongle_config "testnet"
         (Some Scenario.nft_page1) (Scenario.nft_clock 5500) db'
       = (Returned None, db').
Proof.
  assert (E : exists S db',
             Nft.analyzeNFTMovements Scenario.dongle_config "testnet"
               (Some Scenario.nft_page1) (Scenario.nft_clock 5000) []
             = (Returned (Some S), db'))
    by (eexists; eexists; vm_compute; reflexivity).
  destruct E as (S & db' & E). exists S, db'. split; [exact E |].
  apply (X13_nft_cycle_rerun_stores_nothing _ _ _ _ _ _ _ _ E).
  vm_compute. lia.
Defined.

(** ** Cumulative transfer counter *)



(** ** Wallet metrics *)

Section WalletMetrics.

Variable wallet : string.

Let agree (a a' : Wallet.TransactionMetrics * Z) : Prop :=
  Wallet.totalIncoming (fst a) = Wallet.totalIncoming (fst a')
  /\ Wallet.totalOutgoing (fst a) = Wallet.totalOutgoing (fst a')
  /\ Wallet.totalGasUsed (fst a) = Wallet.totalGasUsed (fst a')
  /\ Wallet.totalFeesPaid (fst a) = Wallet.totalFeesPaid (fst a')
  /\ Wallet.contractInteractions (fst a) = Wallet.contractInteractions (fst a')
  /\ Wallet.nativeTransfers (fst a) = Wallet.nativeTransfers (fst a')
  /\ Wallet.executionTransactions (fst a) = Wallet.executionTransactions (fst a')
  /\ Wallet.uniqueContracts (fst a) = Wallet.uniqueContracts (fst a')
  /\ Wallet.avgGasPrice (fst a) = Wallet.avgGasPrice (fst a')
  /\ Wallet.avgTransactionValue (fst a) = Wallet.avgTransactionValue (fst a')
  /\ snd a = snd a'.

Lemma wallet_fold_agree (l : list Wallet.Transaction)
  (a a' : Wallet.TransactionMetrics * Z) :
  agree a a' ->
  agree (fold_left (Wallet.metrics_step wallet) l a)
        (fold_left (Wallet.metrics_step wallet) (filter Wallet.status l) a').
Proof.
  revert a a'. induction l as [| tx l IH]; intros a a' H; cbn [fold_left filter];
    [exact H |].
  destruct (Wallet.status tx) eqn:Es; cbn [fold_left]; apply IH; clear IH;
    destruct a as [m v], a' as [m' v']; unfold agree in *; cbn [fst snd] in *;
    destruct H as (H1 & H2 & H3 & H4 & H5 & H6 & H7 & H8 & H9 & H10 & H11);
    unfold Wallet.metrics_step; rewrite Es; cbn [negb fst snd];
    cbn [Wallet.totalIncoming Wallet.totalOutgoing Wallet.totalGasUsed
         Wallet.totalFeesPaid Wallet.contractInteractions Wallet.nativeTransfers
         Wallet.executionTransactions Wallet.uniqueContracts Wallet.avgGasPrice
         Wallet.avgTransactionValue];
    rewrite ?H1, ?H2, ?H3, ?H4, ?H5, ?H6, ?H7, ?H8, ?H9, ?H10, ?H11;
    repeat split; reflexivity.
Qed.

Lemma wallet_fold_failed (l : list Wallet.Transaction)
  (a : Wallet.TransactionMetrics * Z) :
  Wallet.failedTransactions (fst (fold_left (Wallet.metrics_step wallet) l a))
  = Wallet.failedTransactions (fst a)
    + Tally.count (fun tx => negb (Wallet.status tx)) l.
Proof.
  unfold Tally.count.
  revert a. induction l as [| tx l IH]; intros a; cbn [fold_left filter].
  - cbn. lia.
  - rewrite IH. destruct a as [m v]. unfold Wallet.metrics_step.
    destruct (Wallet.status tx); cbn [negb fst Wallet.failedTransactions length]; lia.
Qed.

Lemma filter_idem {A : Type} (p : A -> bool) (l : list A) :
  filter p (filter p l) = filter p l.
Proof.
  induction l as [| a l IH]; cbn [filter]; [reflexivity |].
  destruct (p a) eqn:E; cbn [filter]; rewrite ?E, IH; reflexivity.
Qed.

Lemma wallet_metrics_agree (txs : list Wallet.Transaction) :
  agree (Wallet.computeMetrics wallet (Some txs), 0)
        (Wallet.computeMetrics wallet (Some (filter Wallet.status txs)), 0).
Proof.
  unfold Wallet.computeMetrics. rewrite filter_idem.
  pose proof (wallet_fold_agree txs (Wallet.initialMetrics, 0)
                (Wallet.initialMetrics, 0)) as H.
  destruct (fold_left (Wallet.metrics_step wallet) txs (Wallet.initialMetrics, 0))
    as [m v].
  destruct (fold_left (Wallet.metrics_step wallet) (filter Wallet.status txs)
              (Wallet.initialMetrics, 0)) as [m' v'].
  assert (H0 : agree (m, v) (m', v')).
  { apply H. unfold agree. repeat split; reflexivity. }
  clear H. unfold agree in *. cbn [fst snd] in *.
  destruct H0 as (H1 & H2 & H3 & H4 & H5 & H6 & H7 & H8 & H9 & H10 & H11).
  subst v'.
  destruct (0 <? Z.of_nat (length (filter Wallet.status txs)));
    cbn [Wallet.totalIncoming Wallet.totalOutgoing Wallet.totalGasUsed
         Wallet.totalFeesPaid Wallet.contractInteractions Wallet.nativeTransfers
         Wallet.executionTransactions Wallet.uniqueContracts Wallet.avgGasPrice
         Wallet.avgTransactionValue];
    repeat split; assumption || reflexivity.
Qed.

Lemma wallet_metrics_failed (txs : list Wallet.Transaction) :
  Wallet.failedTransactions (Wallet.computeMetrics wallet (Some txs))
  = Tally.count (fun tx => negb (Wallet.status tx)) txs.
Proof.
  unfold Wallet.computeMetrics.
  pose proof (wallet_fold_failed txs (Wallet.initialMetrics, 0)) as H.
  destruct (fold_left (Wallet.metrics_step wallet) txs (Wallet.initialMetrics, 0))
    as [m v].
  cbn [fst Wallet.failedTransactions Wallet.initialMetrics] in H.
  destruct (0 <? Z.of_nat (length (filter Wallet.status txs)));
    cbn [Wallet.failedTransactions]; lia.
Qed.

End WalletMetrics.

(** X14. In the metrics of a wallet page a failed transaction counts in
    [failedTransactions] and nowhere in the amounts: incoming, outgoing,
    gas, fees, the interaction counters, the contract set and the two
    averages are those of the page with its failed transactions
    removed, and [failedTransactions] is the number of failed ones. *)
Theorem X14_wallet_failed_transactions_only_counted (wallet : string)
  (txs : list Wallet.Transaction) :
  let m := Wallet.computeMetrics wallet (Some txs) in
  let m' := Wallet.computeMetrics wallet (Some (filter Wallet.status txs)) in
  Wallet.totalIncoming m = Wallet.totalIncoming m'
  /\ Wallet.totalOutgoing m = Wallet.totalOutgoing m'
  /\ Wallet.totalGasUsed m = Wallet.totalGasUsed m'
  /\ Wallet.totalFeesPaid m = Wallet.totalFeesPaid m'
  /\ Wallet.contractInteractions m = Wallet.contractInteractions m'
  /\ Wallet.nativeTransfers m = Wallet.nativeTransfers m'
  /\ Wallet.executionTransactions m = Wallet.executionTransactions m'
  /\ Wallet.uniqueContracts m = Wallet.uniqueContracts m'
  /\ Wallet.avgGasPrice m = Wallet.avgGasPrice m'
  /\ Wallet.avgTransactionValue m = Wallet.avgTransactionValue m'
  /\ Wallet.failedTransactions m
     = Tally.count (fun tx => negb (Wallet.status tx)) txs
  /\ Wallet.failedTransactions m' = 0.
Proof.
  cbv zeta.
  destruct (wallet_metrics_agree wallet txs)
    as (H1 & H2 & H3 & H4 & H5 & H6 & H7 & H8 & H9 & H10 & _).
  cbn [fst] in *.
  repeat (split; [assumption |]).
  split; [apply wallet_metrics_failed |].
  rewrite wallet_metrics_failed. unfold Tally.count.
  rewrite (filter_none (fun tx => negb (Wallet.status tx))); [reflexivity |].
  intros tx Htx. apply filter_In in Htx. destruct Htx as [_ ->]. reflexivity.
Qed.

Section WalletCycle.

Lemma wallet_cycle_inv (wallet network : string) (feed : Wallet.Feed)
  (clock : Wallet.Clock) (db db' : list Wallet.WalletSnapshot)
  (S : Wallet.WalletSnapshot) :
  Wallet.createWalletSnapshot wallet network feed clock db = (Returned S, db') ->
  Wallet.walletAddress S = Js.toLowerCase wallet
  /\ Wallet.network S = network
  /\ Wallet.snapshot_timestamp S = Wallet.now_snapshot clock
  /\ Wallet.transactionMetrics S
     = Wallet.mergeWithPrevious
         (Wallet.computeMetrics wallet (Wallet.fetchTransactions feed))
         (Wallet.findPrevious wallet network db)
  /\ db' = db ++ [S].
Proof.
  unfold Wallet.createWalletSnapshot.
  destruct (Networks.getNetworkConfig network); [| discriminate].
  destruct (negb (Js.isValidEthereumAddress wallet)); [discriminate |].
  destruct (Wallet.walletInfo feed) as [address balance | |]; try discriminate.
  destruct (negb (Wallet.truthy address) || _); [discriminate |].
  unfold Mongoose.save.
  destruct (Wallet.validate _); [discriminate |].
  intros H; inversion H; subst; clear H. cbv zeta.
  repeat split; reflexivity.
Qed.

End WalletCycle.

(** X15. The wallet analyser keeps no record of what it has counted: a
    second cycle over the same feed adds the page's figures once more to
    the totals the first cycle stored. Provided the first snapshot is
    stamped later than the prior one it merged, every cumulative counter
    of the second snapshot is that of the first plus the page's own. *)
Theorem X15_wallet_cycle_counts_page_again (wallet network : string)
  (feed : Wallet.Feed) (clock clock' : Wallet.Clock)
  (db db1 db2 : list Wallet.WalletSnapshot) (S1 S2 : Wallet.WalletSnapshot) :
  Wallet.createWalletSnapshot wallet network feed clock db = (Returned S1, db1) ->
  Wallet.createWalletSnapshot wallet network feed clock' db1 = (Returned S2, db2) ->
  match Wallet.findPrevious wallet network db with
  | Some p => Wallet.snapshot_timestamp p < Wallet.now_snapshot clock
  | None => True
  end ->
  let page := Wallet.computeMetrics wallet (Wallet.fetchTransactions feed) in
  let m1 := Wallet.transactionMetrics S1 in
  let m2 := Wallet.transactionMetrics S2 in
  db2 = db ++ [S1; S2]
  /\ Wallet.totalIncoming m2 = Wallet.totalIncoming page + Wallet.totalIncoming m1
  /\ Wallet.totalOutgoing m2 = Wallet.totalOutgoing page + Wallet.totalOutgoing m1
  /\ Wallet.totalGasUsed m2 = Wallet.totalGasUsed page + Wallet.totalGasUsed m1
  /\ Wallet.totalFeesPaid m2 = Wallet.totalFeesPaid page + Wallet.totalFeesPaid m1
  /\ Wallet.contractInteractions m2
     = Wallet.contractInteractions page + Wallet.contractInteractions m1
  /\ Wallet.nativeTransfers m2 = Wallet.nativeTransfers page + Wallet.nativeTransfers m1
  /\ Wallet.executionTransactions m2
     = Wallet.executionTransactions page + Wallet.executionTransactions m1
  /\ Wallet.failedTransactions m2
     = Wallet.failedTransactions page + Wallet.failedTransactions m1.
Proof.
  intros H1 H2 Hts.
  apply wallet_cycle_inv in H1. destruct H1 as (Ha & Hn & Ht & _ & ->).
  apply wallet_cycle_inv in H2. destruct H2 as (_ & _ & _ & Hm2 & ->).
  assert (Hprev : Wallet.findPrevious wallet network (db ++ [S1]) = Some S1).
  { unfold Wallet.findPrevious. apply findLatest_snoc.
    - rewrite Ha, Hn, !String.eqb_refl. reflexivity.
    - intros s' Hin Hmatch. rewrite Ht.
      destruct (Wallet.findPrevious wallet network db) as [p |] eqn:Ep.
      + unfold Wallet.findPrevious in Ep.
        apply findLatest_Some in Ep. destruct Ep as (_ & _ & Hmax).
        specialize (Hmax s' Hin Hmatch). lia.
      + unfold Wallet.findPrevious in Ep.
        rewrite findLatest_None in Ep. rewrite (Ep s' Hin) in Hmatch. discriminate. }
  rewrite Hprev in Hm2. cbv zeta. rewrite Hm2.
  split; [rewrite <- app_assoc; reflexivity |].
  repeat split; reflexivity.
Qed.

Lemma X15_wallet_cycle_counts_page_again_witness :
  exists S1 S2,
    Wallet.createWalletSnapshot Scenario.alice "testnet"
      (Scenario.wallet_feed (Some [Scenario.payment])) (Scenario.wallet_clock 5000) []
    = (Returned S1, [S1])
    /\ Wallet.createWalletSnapshot Scenario.alice "testnet"
         (Scenario.wallet_feed (Some [Scenario.payment])) (Scenario.wallet_clock 9000)
         [S1]
       = (Returned S2, [S1; S2])
    /\ Wallet.totalOutgoing (Wallet.transactionMetrics S1) = 2 * 10 ^ 21
    /\ Wallet.totalOutgoing (Wallet.transactionMetrics S2) = 4 * 10 ^ 21.
Proof.
  assert (E1 : exists S1,
             Wallet.createWalletSnapshot Scenario.alice "testnet"
               (Scenario.wallet_feed (Some [Scenario.payment]))
               (Scenario.wallet_clock 5000) []
             = (Returned S1, [S1])
             /\ Wallet.totalOutgoing (Wallet.transactionMetrics S1) = 2 * 10 ^ 21)
    by (eexists; split; vm_compute; reflexivity).
  destruct E1 as (S1 & E1 & O1).
  assert (E2 : exists S2,
             Wallet.createWalletSnapshot Scenario.alice "testnet"
               (Scenario.wallet_feed (Some [Scenario.payment]))
               (Scenario.wallet_clock 9000) ([] ++ [S1])
             = (Returned S2, [S1; S2])).
  { destruct (Wallet.createWalletSnapshot Scenario.alice "testnet"
                (Scenario.wallet_feed (Some [Scenario.payment]))
                (Scenario.wallet_clock 5000) []) as [r d] eqn:E.
    vm_compute in E. inversion E1; subst. inversion E; subst.
    eexists. vm_compute. reflexivity. }
  destruct E2 as (S2 & E2).
  exists S1, S2. split; [exact E1 |]. split; [exact E2 |]. split; [exact O1 |].
  change [S1] with ([] ++ [S1]) in E1.
  destruct (X15_wallet_cycle_counts_page_again _ _ _ _ _ _ _ _ _ _ E1 E2)
    as (_ & _ & Hout & _).
  - vm_compute. exact I.
  - rewrite Hout, O1. vm_compute. reflexivity.
Defined.

(** X16. For calldata that is present (not empty, not ["0x"], not
    ["0"]) the category of a wallet transaction is decided by the method
    selector alone, whatever the transaction type: with no [method]
    field, calldata that starts with a selector of the table gets that
    selector's label, whatever follows it; and a [method] field that is
    a selector of the table gets its label, whatever the calldata. *)
Theorem X16_wallet_selector_decides_category (tx : Wallet.Transaction)
  (sel label : string) :
  In (sel, label) Wallet.defiMethods ->
  (forall rest,
     Wallet.method tx = "" -> Wallet.data tx = (sel ++ rest)%string ->
     Wallet.categorizeTransaction tx = label)
  /\ (Wallet.method tx = sel ->
      negb (Wallet.truthy (Wallet.data tx)) || String.eqb (Wallet.data tx) "0x"
      || String.eqb (Wallet.data tx) "0" = false ->
      Wallet.categorizeTransaction tx = label).
Proof.
  intros Hin. split.
  - intros rest Hm Hd. unfold Wallet.categorizeTransaction. rewrite Hm, Hd.
    unfold Wallet.defiMethods in Hin. cbn [In] in Hin.
    repeat (destruct Hin as [Hin | Hin];
            [inversion Hin; subst; destruct rest; vm_compute; reflexivity |]).
    contradiction.
  - intros Hm Hd. unfold Wallet.categorizeTransaction. rewrite Hd, Hm.
    unfold Wallet.defiMethods in Hin. cbn [In] in Hin.
    repeat (destruct Hin as [Hin | Hin];
            [inversion Hin; subst; vm_compute; reflexivity |]).
    contradiction.
Qed.

Lemma X16_wallet_selector_witness :
  Wallet.categorizeTransaction
    {| Wallet.hash := "0xw2"; Wallet.timestamp := 1000; Wallet.value := 0;
       Wallet.fee := 21000; Wallet.type := 0; Wallet.actionType := "Execute";
       Wallet.from := Scenario.alice; Wallet.to := Scenario.astro;
       Wallet.data := ("0xa9059cbb" ++ "00000000000000000000000022222222")%string;
       Wallet.method := ""; Wallet.gasPrice := 1;
       Wallet.gasUsedByTransaction := 50000; Wallet.status := true |}
  = "ERC20_TRANSFER".
Proof.
  apply (proj1 (X16_wallet_selector_decides_category _ "0xa9059cbb" "ERC20_TRANSFER"
                  ltac:(left; reflexivity))
           "00000000000000000000000022222222").
  - reflexivity.
  - reflexivity.
Defined.

Section Portfolio.

Lemma find_existsb_false {A : Type} (p : A -> bool) (l : list A) :
  existsb p l = false -> find p l = None.
Proof.
  induction l as [| a l IH]; cbn; [reflexivity |].
  destruct (p a); cbn; [discriminate | exact IH].
Qed.

End Portfolio.

(** X17. Only priced tokens count in the portfolio value: the result is
    the same as for the token list with every token removed whose
    contract address is, case aside, none of the price table's. *)
Theorem X17_wallet_portfolio_ignores_unpriced (pow10 : Z -> Js.number)
  (nativeBalance : Js.number) (tokens : list Wallet.Erc20Token) :
  let priced (token : Wallet.Erc20Token) :=
    existsb (fun p => String.eqb (Js.toLowerCase (Wallet.price_address p))
                                 (Js.toLowerCase (Wallet.contractAddress token)))
            Wallet.priceData in
  Wallet.calculatePortfolioValue pow10 nativeBalance tokens
  = Wallet.calculatePortfolioValue pow10 nativeBalance (filter priced tokens).
Proof.
  cbv zeta. unfold Wallet.calculatePortfolioValue.
  match goal with
  | |- context [fold_left ?f tokens ?a0] =>
      assert (E : forall l a,
                 fold_left f l a
                 = fold_left f
                     (filter
                        (fun token =>
                           existsb
                             (fun p => String.eqb (Js.toLowerCase (Wallet.price_address p))
                                         (Js.toLowerCase (Wallet.contractAddress token)))
                             Wallet.priceData) l) a)
  end.
  { induction l as [| t l IH]; intros a; cbn [fold_left filter]; [reflexivity |].
    destruct (existsb _ Wallet.priceData) eqn:Ep; cbn [fold_left].
    - apply IH.
    - rewrite (find_existsb_false _ _ Ep). apply IH. }
  rewrite (E tokens). reflexivity.
Qed.

(** ** Submission: what each reply of [POST /jobs] means *)

Section Submission.

Lemma type_enum_cases (t : string) :
  Mongoose.enum Jobs.type_enum t = true -> t = "scheduled" \/ t = "retry".
Proof.
  unfold Mongoose.enum, Jobs.type_enum. intros H. apply includes_In in H.
  destruct H as [<- | [<- | []]]; auto.
Qed.

Lemma validate_type (action : string) (payload : option Jobs.Payload)
  (network type : string) :
  Jobs.validate action payload network type = None ->
  Mongoose.enum Networks.schema_network_enum network = true
  /\ (type = "scheduled" \/ type = "retry").
Proof.
  unfold Jobs.validate.
  destruct (Mongoose.required action); cbn [negb]; [| discriminate].
  destruct payload; [| discriminate].
  destruct (Mongoose.enum Networks.schema_network_enum network); cbn [negb];
    [| discriminate].
  destruct (Mongoose.enum Jobs.type_enum type) eqn:E; cbn [negb]; [| discriminate].
  intros _. split; [reflexivity | apply type_enum_cases; exact E].
Qed.

End Submission.

(** X18. A [POST /jobs] request is answered 400 exactly when the
    network is unsupported, or the type is "scheduled" without
    [scheduledAt], or the type is "retry" with an absent or zero
    [intervalMinutes]; a request answered 400 creates no job record and
    no queue entry. *)
Theorem X18_post_jobs_bad_request (req : Jobs.Request) (now : Z) (w : Jobs.World) :
  let network :=
    match Jobs.req_network req with
    | Some n => n
    | None => Networks.DEFAULT_NETWORK
    end in
  (Jobs.http_status (fst (Jobs.post_jobs req now w)) = 400
   <-> Networks.isValidNetwork network = false
       \/ (Jobs.req_type req = "scheduled" /\ Jobs.req_scheduledAt req = None)
       \/ (Jobs.req_type req = "retry"
           /\ (Jobs.req_intervalMinutes req = None
               \/ Jobs.req_intervalMinutes req = Some 0)))
  /\ (Jobs.http_status (fst (Jobs.post_jobs req now w)) = 400 ->
      snd (Jobs.post_jobs req now w) = w).
Proof.
  cbv zeta. unfold Jobs.post_jobs.
  destruct (Networks.isValidNetwork _) eqn:Hnet; cbn [negb].
  2:{ cbn. split; [split; auto | reflexivity]. }
  destruct (String.eqb (Jobs.req_type req) "scheduled") eqn:Hs.
  - apply String.eqb_eq in Hs.
    destruct (Jobs.req_scheduledAt req) as [t |] eqn:Hat; cbn [andb].
    2:{ cbn. split; [split; auto | reflexivity]. }
    rewrite Hs. change (String.eqb "scheduled" "retry") with false. cbn [andb].
    change (String.eqb "scheduled" "scheduled") with true.
    split.
    + split.
      * intros H. exfalso. revert H.
        destruct (Jobs.create _ _ _ _ _ _ w) as [[job | e] w1]; cbn; [| discriminate].
        destruct (Jobs.queue_add _ _ w1) as [[[] | e] w2]; cbn; discriminate.
      * intros [H | [[_ H] | [H _]]]; discriminate.
    + intros H. exfalso. revert H.
      destruct (Jobs.create _ _ _ _ _ _ w) as [[job | e] w1]; cbn; [| discriminate].
      destruct (Jobs.queue_add _ _ w1) as [[[] | e] w2]; cbn; discriminate.
  - cbn [andb]. apply String.eqb_neq in Hs.
    destruct (String.eqb (Jobs.req_type req) "retry") eqn:Hr; cbn [andb].
    + apply String.eqb_eq in Hr.
      destruct (Jobs.falsy_interval (Jobs.req_intervalMinutes req)) eqn:Hf.
      * cbn. split; [| reflexivity]. split; [| reflexivity]. intros _.
        right. right. split; [exact Hr |].
        unfold Jobs.falsy_interval in Hf.
        destruct (Jobs.req_intervalMinutes req) as [n |]; [| auto].
        apply Z.eqb_eq in Hf. subst. auto.
      * assert (Hno : ~ (Jobs.req_intervalMinutes req = None
                         \/ Jobs.req_intervalMinutes req = Some 0)).
        { intros [E | E]; rewrite E in Hf; discriminate. }
        split.
        -- split.
           ++ intros H. exfalso. revert H.
              destruct (Jobs.create _ _ _ _ _ _ w) as [[job | e] w1]; cbn;
                [| discriminate].
              destruct (Jobs.queue_add _ _ w1) as [[[] | e] w2]; cbn;
                [| discriminate].
              destruct (Jobs.queue_add _ _ w2) as [[[] | e] w3]; cbn; discriminate.
           ++ intros [H | [[H _] | [_ H]]];
                [discriminate | contradiction | contradiction].
        -- intros H. exfalso. revert H.
           destruct (Jobs.create _ _ _ _ _ _ w) as [[job | e] w1]; cbn;
             [| discriminate].
           destruct (Jobs.queue_add _ _ w1) as [[[] | e] w2]; cbn;
             [| discriminate].
           destruct (Jobs.queue_add _ _ w2) as [[[] | e] w3]; cbn; discriminate.
    + apply String.eqb_neq in Hr. split.
      * split.
        -- intros H. exfalso. revert H.
           destruct (Jobs.create _ _ _ _ _ _ w) as [[job | e] w1]; cbn; discriminate.
        -- intros [H | [[H _] | [H _]]];
             [discriminate | contradiction | contradiction].
      * intros H. exfalso. revert H.
        destruct (Jobs.create _ _ _ _ _ _ w) as [[job | e] w1]; cbn; discriminate.
Qed.

(** X19. A [POST /jobs] request answered with a scheduled job has stored
    that job, pending and with an empty log, under a fresh id, and has
    enrolled it under that id with the request's network: a one-shot job
    as one entry delayed until [scheduledAt] (not at all if that is
    past), a recurring job as one immediate entry followed by one
    repeating entry that starts after one interval. *)
Theorem X19_post_jobs_accepted_is_enrolled (req : Jobs.Request) (now : Z)
  (w w' : Jobs.World) (job : Jobs.Job) :
  Jobs.post_jobs req now w = (Returned (Jobs.JobScheduled job), w') ->
  let network :=
    match Jobs.req_network req with
    | Some n => n
    | None => Networks.DEFAULT_NETWORK
    end in
  let data :=
    {| Jobs.jobId := Jobs._id job; Jobs.d_action := Jobs.req_action req;
       Jobs.d_payload := Jobs.payload job; Jobs.d_network := Some network;
       Jobs.d_type := Jobs.req_type req;
       Jobs.d_scheduledAt := Jobs.req_scheduledAt req;
       Jobs.d_intervalMinutes := Jobs.intervalMinutes job |} in
  Jobs.jobs w' = Jobs.jobs w ++ [job]
  /\ Jobs._id job = Jobs.next_id w
  /\ Jobs.status job = Jobs.pending
  /\ Jobs.logs job = []
  /\ Jobs.network job = network
  /\ Jobs.req_payload req = Some (Jobs.payload job)
  /\ ((Jobs.req_type req = "scheduled"
       /\ exists t,
            Jobs.req_scheduledAt req = Some t
            /\ Jobs.queue w'
               = Jobs.queue w
                 ++ [{| Jobs.q_data := data;
                        Jobs.q_opts := Jobs.delayed (Some (Z.max (t - now) 0)) |}])
      \/ (Jobs.req_type req = "retry"
          /\ exists n,
               Jobs.req_intervalMinutes req = Some n /\ n <> 0
               /\ Jobs.queue w'
                  = Jobs.queue w
                    ++ [{| Jobs.q_data := data; Jobs.q_opts := Jobs.no_options |};
                        {| Jobs.q_data := data;
                           Jobs.q_opts :=
                             {| Jobs.has_delay := true;
                                Jobs.delay := Some (n * 60 * 1000);
                                Jobs.repeat :=
                                  Some {| Jobs.every := Some (n * 60 * 1000);
                                          Jobs.immediately := false |} |} |}])).
Proof.
  cbv zeta. unfold Jobs.post_jobs.
  destruct (Networks.isValidNetwork _); cbn [negb]; [| discriminate].
  destruct (String.eqb (Jobs.req_type req) "scheduled"
            && match Jobs.req_scheduledAt req with None => true | Some _ => false end)
    eqn:C1; [discriminate |].
  destruct (String.eqb (Jobs.req_type req) "retry"
            && Jobs.falsy_interval (Jobs.req_intervalMinutes req)) eqn:C2;
    [discriminate |].
  unfold Jobs.create.
  destruct (Jobs.validate _ _ _ _) as [path |] eqn:V; [discriminate |].
  apply validate_type in V. destruct V as [_ Ht].
  destruct (Jobs.req_payload req) as [p |]; [| discriminate].
  destruct Ht as [Ht | Ht]; rewrite Ht in *.
  - change (String.eqb "scheduled" "scheduled") with true in *.
    cbn [andb] in C1. cbv iota beta.
    destruct (Jobs.req_scheduledAt req) as [t |]; [| discriminate].
    unfold Jobs.queue_add.
    cbn [Jobs.broker Jobs.jobs Jobs.queue Jobs.next_id Jobs.stores Jobs._id
         Jobs.payload].
    destruct (Jobs.broker w) as [| [|] bs]; intros H; inversion H; subst; clear H;
      cbn [Jobs.jobs Jobs.queue Jobs._id Jobs.status Jobs.logs Jobs.network
           Jobs.payload Jobs.intervalMinutes];
      (repeat split; try reflexivity);
      left; (split; [reflexivity |]); exists t; split; reflexivity.
  - change (String.eqb "retry" "scheduled") with false in *.
    change (String.eqb "retry" "retry") with true in *.
    cbn [andb] in C2. rewrite C2. cbv iota beta.
    unfold Jobs.falsy_interval in C2.
    destruct (Jobs.req_intervalMinutes req) as [n |]; [| discriminate].
    apply Z.eqb_neq in C2.
    unfold Jobs.queue_add.
    cbn [Jobs.broker Jobs.jobs Jobs.queue Jobs.next_id Jobs.stores Jobs._id
         Jobs.payload].
    destruct (Jobs.broker w) as [| [|] [| [|] bs]]; intros H; inversion H; subst;
      clear H;
      cbn [Jobs.jobs Jobs.queue Jobs._id Jobs.status Jobs.logs Jobs.network
           Jobs.payload Jobs.intervalMinutes];
      (repeat split; try reflexivity);
      right; (split; [reflexivity |]); exists n;
      (split; [reflexivity |]); (split; [exact C2 |]);
      rewrite <- app_assoc; reflexivity.
Qed.

Lemma X19_post_jobs_accepted_witness :
  exists job w',
    Jobs.post_jobs (Scenario.submit "analyze_coin_flows" "retry" None (Some 15)) 0
      (Scenario.world0 [])
    = (Returned (Jobs.JobScheduled job), w')
    /\ Jobs.jobs w' = [] ++ [job]
    /\ length (Jobs.queue w') = 2%nat.
Proof.
  assert (E : exists job w',
             Jobs.post_jobs (Scenario.submit "analyze_coin_flows" "retry" None (Some 15))
               0 (Scenario.world0 [])
             = (Returned (Jobs.JobScheduled job), w')
             /\ length (Jobs.queue w') = 2%nat)
    by (do 2 eexists; split; vm_compute; reflexivity).
  destruct E as (job & w' & E & L). exists job, w'.
  split; [exact E |]. split; [| exact L].
  exact (proj1 (X19_post_jobs_accepted_is_enrolled _ _ _ _ _ E)).
Defined.

(** X20. The network check of [POST /jobs] ignores letter case, the job
    schema does not: a request that is not answered 400 and names a
    supported network in other than lower case fails with a validation
    error (status 500), and no job record or queue entry is created. *)
Theorem X20_post_jobs_network_case (req : Jobs.Request) (now : Z) (w : Jobs.World)
  (n : string) :
  Jobs.req_network req = Some n ->
  Networks.isValidNetwork n = true ->
  Mongoose.enum Networks.schema_network_enum n = false ->
  Jobs.http_status (fst (Jobs.post_jobs req now w)) <> 400 ->
  Jobs.http_status (fst (Jobs.post_jobs req now w)) = 500
  /\ exists path, Jobs.post_jobs req now w = (Thrown (ValidationError path), w).
Proof.
  intros Hn Hvalid Henum. unfold Jobs.post_jobs. rewrite Hn, Hvalid. cbn [negb].
  destruct (String.eqb (Jobs.req_type req) "scheduled" && _);
    [cbn; intros H; contradiction |].
  destruct (String.eqb (Jobs.req_type req) "retry" && _);
    [cbn; intros H; contradiction |].
  intros _. unfold Jobs.create, Jobs.validate. rewrite Henum. cbn [negb].
  destruct (negb (Mongoose.required (Jobs.req_action req)));
    [cbn; split; [reflexivity | eexists; reflexivity] |].
  destruct (Jobs.req_payload req);
    cbn; split; try reflexivity; eexists; reflexivity.
Qed.

Lemma X20_post_jobs_network_case_witness :
  Jobs.http_status
    (fst (Jobs.post_jobs
            {| Jobs.req_action := "analyze_coin_flows";
               Jobs.req_payload := Some Scenario.astro_payload;
               Jobs.req_network := Some "Mainnet";
               Jobs.req_type := "retry";
               Jobs.req_scheduledAt := None;
               Jobs.req_intervalMinutes := Some 15 |} 0 (Scenario.world0 [])))
  = 500.
Proof.
  apply (X20_post_jobs_network_case _ 0 (Scenario.world0 []) "Mainnet").
  - reflexivity.
  - vm_compute. reflexivity.
  - vm_compute. reflexivity.
  - vm_compute. discriminate.
Defined.

(** ** The worker and the job records *)

Section WorkerFrame.

Variable id : nat.

Let touched (j j' : Jobs.Job) : Prop :=
  JobRules.evolves j j' /\ (Jobs._id j <> id -> j' = j).

Let logged (j j' : Jobs.Job) : Prop :=
  touched j j'
  /\ (Jobs._id j = id -> (length (Jobs.logs j) < length (Jobs.logs j'))%nat).

Lemma evolves_refl (j : Jobs.Job) : JobRules.evolves j j.
Proof.
  unfold JobRules.evolves. repeat split. exists []. symmetry. apply app_nil_r.
Qed.

Lemma evolves_trans (a b c : Jobs.Job) :
  JobRules.evolves a b -> JobRules.evolves b c -> JobRules.evolves a c.
Proof.
  unfold JobRules.evolves.
  intros (A1 & A2 & A3 & A4 & A5 & A6 & A7 & m1 & A8)
         (B1 & B2 & B3 & B4 & B5 & B6 & B7 & m2 & B8).
  repeat split; try congruence.
  exists (m1 ++ m2). rewrite B8, A8, app_assoc. reflexivity.
Qed.

Lemma update_touched (u : Jobs.Job -> Jobs.Job) (w : Jobs.World) :
  (forall j, JobRules.evolves j (u j)) ->
  Forall2 touched (Jobs.jobs w) (Jobs.jobs (Jobs.findByIdAndUpdate id u w)).
Proof.
  intros Hu. unfold Jobs.findByIdAndUpdate, Jobs.set_jobs. cbn [Jobs.jobs].
  induction (Jobs.jobs w) as [| j l IH]; cbn [map]; constructor; [| exact IH].
  unfold touched. destruct (Nat.eqb (Jobs._id j) id) eqn:E.
  - apply Nat.eqb_eq in E. split; [apply Hu | intros H; contradiction].
  - split; [apply evolves_refl | reflexivity].
Qed.

Lemma update_logged (u : Jobs.Job -> Jobs.Job) (w : Jobs.World) :
  (forall j, JobRules.evolves j (u j)
             /\ (length (Jobs.logs j) < length (Jobs.logs (u j)))%nat) ->
  Forall2 logged (Jobs.jobs w) (Jobs.jobs (Jobs.findByIdAndUpdate id u w)).
Proof.
  intros Hu. unfold Jobs.findByIdAndUpdate, Jobs.set_jobs. cbn [Jobs.jobs].
  induction (Jobs.jobs w) as [| j l IH]; cbn [map]; constructor; [| exact IH].
  unfold logged, touched. destruct (Nat.eqb (Jobs._id j) id) eqn:E.
  - apply Nat.eqb_eq in E.
    split; [split; [apply Hu | intros H; contradiction] | intros _; apply Hu].
  - apply Nat.eqb_neq in E.
    split; [split; [apply evolves_refl | reflexivity] | intros H; contradiction].
Qed.

Lemma touched_trans (l1 l2 l3 : list Jobs.Job) :
  Forall2 touched l1 l2 -> Forall2 touched l2 l3 -> Forall2 touched l1 l3.
Proof.
  intros H. revert l3. induction H as [| a b l1 l2 Hab _ IH]; intros l3 H23;
    inversion H23; subst; constructor; [| apply IH; assumption].
  destruct Hab as [E1 F1].
  match goal with H : touched b _ |- _ => destruct H as [E2 F2] end.
  split; [eapply evolves_trans; eassumption |].
  intros Hne. rewrite F2; [apply F1; exact Hne |].
  destruct E1 as (Hid & _). congruence.
Qed.

Lemma logged_touched_trans (l1 l2 l3 : list Jobs.Job) :
  Forall2 logged l1 l2 -> Forall2 touched l2 l3 -> Forall2 logged l1 l3.
Proof.
  intros H. revert l3. induction H as [| a b l1 l2 Hab _ IH]; intros l3 H23;
    inversion H23; subst; constructor; [| apply IH; assumption].
  destruct Hab as [[E1 F1] L1].
  match goal with H : touched b _ |- _ => destruct H as [E2 F2] end.
  split; [split |].
  - eapply evolves_trans; eassumption.
  - intros Hne. rewrite F2; [apply F1; exact Hne |].
    destruct E1 as (Hid & _). congruence.
  - intros Hid. specialize (L1 Hid).
    destruct E2 as (_ & _ & _ & _ & _ & _ & _ & more & Hm).
    rewrite Hm, length_app. lia.
Qed.

Lemma touched_refl (l : list Jobs.Job) : Forall2 touched l l.
Proof.
  induction l; constructor; [| assumption].
  split; [apply evolves_refl | reflexivity].
Qed.

Lemma push_log_evolves (entry : Jobs.LogEntry) (j : Jobs.Job) :
  JobRules.evolves j (Jobs.push_log entry j).
Proof. unfold JobRules.evolves. repeat split. eexists. reflexivity. Qed.

Lemma started_update_evolves (clock : Jobs.WorkerClock) (j : Jobs.Job) :
  JobRules.evolves j (Jobs.started_update clock j)
  /\ (length (Jobs.logs j) < length (Jobs.logs (Jobs.started_update clock j)))%nat.
Proof.
  split.
  - unfold JobRules.evolves. repeat split. eexists. reflexivity.
  - cbn. rewrite length_app. cbn. lia.
Qed.

Lemma recurred_update_evolves (clock : Jobs.WorkerClock) (ms : option Z)
  (j : Jobs.Job) :
  JobRules.evolves j (Jobs.recurred_update clock ms j).
Proof. unfold JobRules.evolves. repeat split. eexists. reflexivity. Qed.

Lemma on_failure_touched (e : JsError) (now : Z) (w : Jobs.World) :
  Forall2 touched (Jobs.jobs w) (Jobs.jobs (Jobs.on_failure id e now w)).
Proof.
  unfold Jobs.on_failure. apply update_touched.
  intros j. unfold JobRules.evolves. repeat split. eexists. reflexivity.
Qed.

Lemma completed_touched (now : Z) (w : Jobs.World) :
  Forall2 touched (Jobs.jobs w)
    (Jobs.jobs
       (Jobs.findByIdAndUpdate id
          (fun j => Jobs.push_log (Jobs.log now Jobs.INFO "Job completed successfully")
                      (Jobs.set_lastRunAt now (Jobs.set_status Jobs.completed j)))
          w)).
Proof.
  apply update_touched.
  intros j. unfold JobRules.evolves. repeat split. eexists. reflexivity.
Qed.

End WorkerFrame.

Section WorkerRun.

(** whatever the item, the handler changes no job record but the item's
    own, and that one only as a record may evolve, with its log longer *)
Lemma jobWorker_frame (data : Jobs.JobData) (clock : Jobs.WorkerClock)
  (env : Jobs.Env) (w : Jobs.World) :
  Forall2
    (fun j j' =>
       (JobRules.evolves j j' /\ (Jobs._id j <> Jobs.jobId data -> j' = j))
       /\ (Jobs._id j = Jobs.jobId data ->
           (length (Jobs.logs j) < length (Jobs.logs j'))%nat))
    (Jobs.jobs w) (Jobs.jobs (Jobs.jobWorker data clock env w)).
Proof.
  set (id := Jobs.jobId data).
  pose proof (update_logged id (Jobs.started_update clock) w
                (started_update_evolves clock)) as H1.
  eapply logged_touched_trans; [exact H1 |]. clear H1.
  unfold Jobs.jobWorker. fold id.
  set (w1 := Jobs.findByIdAndUpdate id (Jobs.started_update clock) w).
  destruct (String.eqb (Jobs.d_type data) "scheduled").
  - destruct (match Jobs.d_scheduledAt data with
              | Some t => Jobs.started clock <? t
              | None => false
              end).
    + apply update_touched. intros j. apply push_log_evolves.
    + destruct (Jobs.runTask _ _ _ env (Jobs.stores w1)) as [[[] | e] s].
      * apply (completed_touched id (Jobs.finished clock) (Jobs.set_stores w1 s)).
      * apply (on_failure_touched id e (Jobs.finished clock) (Jobs.set_stores w1 s)).
  - destruct (String.eqb (Jobs.d_type data) "retry").
    + destruct (Jobs.runTask _ _ _ env (Jobs.stores w1)) as [[[] | e] s].
      * match goal with
        | |- context [Jobs.queue_add ?d ?o ?w2] =>
            pose proof (queue_add_keeps_jobs d o w2) as (Hj & _);
            destruct (Jobs.queue_add d o w2) as [[[] | e] w3]
        end; cbn [snd] in Hj.
        -- rewrite Hj.
           apply (update_touched id _ (Jobs.set_stores w1 s)).
           intros j. apply recurred_update_evolves.
        -- eapply touched_trans;
             [| apply (on_failure_touched id e (Jobs.finished clock) w3)].
           rewrite Hj.
           apply (update_touched id _ (Jobs.set_stores w1 s)).
           intros j. apply recurred_update_evolves.
      * apply (on_failure_touched id e (Jobs.finished clock) (Jobs.set_stores w1 s)).
    + apply update_touched. intros j. apply push_log_evolves.
Qed.

Lemma forall2_same {A : Type} (R : A -> A -> Prop) (l l' : list A) :
  Forall2 R l l' -> (forall a b, In a l -> R a b -> b = a) -> l' = l.
Proof.
  induction 1 as [| a b l l' Hab _ IH]; intros H; [reflexivity |].
  rewrite (H a b (or_introl eq_refl) Hab). f_equal.
  apply IH. intros x y Hx. apply H. right. exact Hx.
Qed.

Lemma jobWorker_missing_job (data : Jobs.JobData) (clock : Jobs.WorkerClock)
  (env : Jobs.Env) (w : Jobs.World) :
  Jobs.findById (Jobs.jobId data) w = None ->
  Jobs.jobs (Jobs.jobWorker data clock env w) = Jobs.jobs w.
Proof.
  intros Hnone. apply (forall2_same _ _ _ (jobWorker_frame data clock env w)).
  intros a b Ha [[_ Hsame] _]. apply Hsame.
  unfold Jobs.findById in Hnone.
  pose proof (find_none _ _ Hnone a Ha) as E. apply Nat.eqb_neq in E. exact E.
Qed.

End WorkerRun.

(** X21. While it handles one queue item the worker changes no job
    record but the one the item names, creates and deletes none, and
    changes that one only by status, run times, error details and log:
    identity and submitted fields stay, earlier log entries stay in
    place, and at least one log entry is appended. *)
Theorem X21_worker_touches_only_its_job (data : Jobs.JobData)
  (clock : Jobs.WorkerClock) (env : Jobs.Env) (w : Jobs.World) :
  Forall2
    (fun j j' =>
       (JobRules.evolves j j' /\ (Jobs._id j <> Jobs.jobId data -> j' = j))
       /\ (Jobs._id j = Jobs.jobId data ->
           (length (Jobs.logs j) < length (Jobs.logs j'))%nat))
    (Jobs.jobs w) (Jobs.jobs (Jobs.jobWorker data clock env w)).
Proof. exact (jobWorker_frame data clock env w). Qed.

(** X22. A one-shot item is never enrolled again, whatever happens. When
    the worker finds its scheduled time still ahead, it runs no analysis,
    touches no snapshot collection and leaves the job at status
    [running]; otherwise it runs the task once and the job ends
    [completed], with its last run time set, or [failed], with the
    error recorded. *)
Theorem X22_scheduled_item_lifecycle (data : Jobs.JobData)
  (clock : Jobs.WorkerClock) (env : Jobs.Env) (w : Jobs.World) (j : Jobs.Job) :
  Jobs.d_type data = "scheduled" ->
  Jobs.findById (Jobs.jobId data) w = Some j ->
  let w' := Jobs.jobWorker data clock env w in
  let early :=
    match Jobs.d_scheduledAt data with
    | Some t => Jobs.started clock <? t
    | None => false
    end in
  let run :=
    Jobs.runTask (Jobs.d_action data) (Jobs.d_payload data) (Jobs.d_network data)
      env (Jobs.stores w) in
  Jobs.queue w' = Jobs.queue w
  /\ exists j',
       Jobs.findById (Jobs.jobId data) w' = Some j'
       /\ if early then
            Jobs.status j' = Jobs.running
            /\ Jobs.lastRunAt j' = Jobs.lastRunAt j
            /\ Jobs.stores w' = Jobs.stores w
          else
            Jobs.stores w' = snd run
            /\ match fst run with
               | Returned _ =>
                   Jobs.status j' = Jobs.completed
                   /\ Jobs.lastRunAt j' = Some (Jobs.finished clock)
                   /\ Jobs.errorDetails j' = Jobs.errorDetails j
               | Thrown e =>
                   Jobs.status j' = Jobs.failed
                   /\ Jobs.lastRunAt j' = Jobs.lastRunAt j
                   /\ Jobs.errorDetails j' = Some e
               end.
Proof.
  intros Ht Hj. cbv zeta. unfold Jobs.jobWorker. rewrite Ht.
  change (String.eqb "scheduled" "scheduled") with true. cbv iota.
  pose proof (findById_update (Jobs.jobId data) (Jobs.started_update clock) w j
                (fun _ => eq_refl) Hj) as H1.
  destruct (match Jobs.d_scheduledAt data with
            | Some t => Jobs.started clock <? t
            | None => false
            end).
  - split; [reflexivity |].
    eexists. split.
    + apply findById_update; [intros x; reflexivity | exact H1].
    + repeat split.
  - cbn [Jobs.stores Jobs.findByIdAndUpdate Jobs.set_jobs].
    destruct (Jobs.runTask _ _ _ env (Jobs.stores w)) as [[[] | e] s]; cbn [fst snd].
    + split; [reflexivity |].
      eexists. split.
      * apply findById_update; [intros x; reflexivity |].
        rewrite findById_set_stores. exact H1.
      * repeat split.
    + split; [reflexivity |].
      eexists. split.
      * unfold Jobs.on_failure.
        apply findById_update; [intros x; reflexivity |].
        rewrite findById_set_stores. exact H1.
      * repeat split.
Qed.

Lemma X22_scheduled_item_witness :
  exists j',
    Jobs.findById 0%nat
      (Jobs.jobWorker Cases.scheduled_item (Scenario.worker_clock 59000)
         (Scenario.env Scenario.token_page1 59000) Cases.world_scheduled) = Some j'
    /\ Jobs.status j' = Jobs.running
    /\ Jobs.stores
         (Jobs.jobWorker Cases.scheduled_item (Scenario.worker_clock 59000)
            (Scenario.env Scenario.token_page1 59000) Cases.world_scheduled)
       = Jobs.stores Cases.world_scheduled.
Proof.
  assert (E : exists j, Jobs.findById 0%nat Cases.world_scheduled = Some j)
    by (eexists; vm_compute; reflexivity).
  destruct E as (j & E).
  destruct (X22_scheduled_item_lifecycle Cases.scheduled_item
              (Scenario.worker_clock 59000)
              (Scenario.env Scenario.token_page1 59000) Cases.world_scheduled
              j eq_refl E)
    as (_ & j' & Hj' & Hcase).
  exists j'. split; [exact Hj' |].
  lazymatch type of Hcase with
  | if ?c then _ else _ => change c with true in Hcase
  end.
  cbv iota in Hcase.
  destruct Hcase as (Hs & _ & Hst). split; assumption.
Defined.

Section WorkerRequeue.

Lemma jobWorker_retry_enrols (data : Jobs.JobData) (clock : Jobs.WorkerClock)
  (env : Jobs.Env) (w : Jobs.World) (s' : Jobs.Stores) :
  Jobs.d_type data = "retry" ->
  Jobs.runTask (Jobs.d_action data) (Jobs.d_payload data) (Jobs.d_network data) env
    (Jobs.stores w) = (Returned tt, s') ->
  Jobs.broker_accepts w = true ->
  Jobs.stores (Jobs.jobWorker data clock env w) = s'
  /\ Jobs.queue (Jobs.jobWorker data clock env w)
     = Jobs.queue w
       ++ [{| Jobs.q_data :=
                {| Jobs.jobId := Jobs.jobId data; Jobs.d_action := Jobs.d_action data;
                   Jobs.d_payload := Jobs.d_payload data; Jobs.d_network := None;
                   Jobs.d_type := Jobs.d_type data; Jobs.d_scheduledAt := None;
                   Jobs.d_intervalMinutes := Jobs.d_intervalMinutes data |};
              Jobs.q_opts :=
                Jobs.delayed (Jobs.interval_ms (Jobs.d_intervalMinutes data)) |}].
Proof.
  intros Ht Hrun Hb.
  rewrite (jobWorker_retry_success data clock env w s' Ht Hrun). cbv zeta.
  match goal with
  | |- context [Jobs.queue_add ?d ?o ?w2] =>
      destruct (queue_add_cases d o w2) as [(_ & Hf & Hq) | (Hb' & _)];
      [pose proof (queue_add_keeps_jobs d o w2) as (_ & Hs & _) |]
  end.
  - rewrite Hf, Hs, Hq. split; reflexivity.
  - change (Jobs.broker_accepts w = false) in Hb'. congruence.
Qed.

End WorkerRequeue.

(** X23. The handler does not need the job record: for a recurring
    item whose job is not in the job collection it still runs the
    analysis, keeps what the analysis stored, and on success enrols the
    next delayed item, while the job collection stays as it is. *)
Theorem X23_worker_runs_item_of_missing_job (data : Jobs.JobData)
  (clock : Jobs.WorkerClock) (env : Jobs.Env) (w : Jobs.World) (s' : Jobs.Stores) :
  Jobs.findById (Jobs.jobId data) w = None ->
  Jobs.d_type data = "retry" ->
  Jobs.runTask (Jobs.d_action data) (Jobs.d_payload data) (Jobs.d_network data) env
    (Jobs.stores w) = (Returned tt, s') ->
  Jobs.broker_accepts w = true ->
  let w' := Jobs.jobWorker data clock env w in
  Jobs.jobs w' = Jobs.jobs w
  /\ Jobs.stores w' = s'
  /\ exists extra,
       Jobs.queue w' = Jobs.queue w ++ [extra]
       /\ Jobs.jobId (Jobs.q_data extra) = Jobs.jobId data
       /\ Jobs.q_opts extra
          = Jobs.delayed (Jobs.interval_ms (Jobs.d_intervalMinutes data)).
Proof.
  intros Hnone Ht Hrun Hb. cbv zeta.
  split; [apply jobWorker_missing_job; exact Hnone |].
  destruct (jobWorker_retry_enrols data clock env w s' Ht Hrun Hb) as [Hs Hq].
  split; [exact Hs |]. eexists. split; [exact Hq |]. split; reflexivity.
Qed.

Lemma X23_worker_runs_item_of_missing_job_witness :
  let w := Scenario.world0 [] in
  let w' :=
    Jobs.jobWorker Scenario.retry_item (Scenario.worker_clock 10)
      (Scenario.env Scenario.token_page1 10) w in
  Jobs.jobs w' = []
  /\ length (Jobs.memeCoinSnapshots (Jobs.stores w')) = 1%nat
  /\ length (Jobs.queue w') = 1%nat.
Proof.
  cbv zeta.
  assert (R : exists s',
             Jobs.runTask (Jobs.d_action Scenario.retry_item)
               (Jobs.d_payload Scenario.retry_item)
               (Jobs.d_network Scenario.retry_item)
               (Scenario.env Scenario.token_page1 10)
               (Jobs.stores (Scenario.world0 []))
             = (Returned tt, s')
             /\ length (Jobs.memeCoinSnapshots s') = 1%nat)
    by (eexists; split; vm_compute; reflexivity).
  destruct R as (s' & Hrun & Hlen).
  destruct (X23_worker_runs_item_of_missing_job Scenario.retry_item
              (Scenario.worker_clock 10) (Scenario.env Scenario.token_page1 10)
              (Scenario.world0 []) s' eq_refl eq_refl Hrun eq_refl)
    as (Hj & Hs & extra & Hq & _).
  split; [exact Hj |]. split; [rewrite Hs; exact Hlen |].
  rewrite Hq. reflexivity.
Defined.

(** X24. The item that a successful recurring cycle enrols carries no
    network: when it fires, the task runs with the default network,
    whatever network the job was submitted for. *)
Theorem X24_requeued_item_runs_on_default_network (data : Jobs.JobData)
  (clock : Jobs.WorkerClock) (env : Jobs.Env) (w : Jobs.World) (s' : Jobs.Stores) :
  Jobs.d_type data = "retry" ->
  Jobs.runTask (Jobs.d_action data) (Jobs.d_payload data) (Jobs.d_network data) env
    (Jobs.stores w) = (Returned tt, s') ->
  Jobs.broker_accepts w = true ->
  exists extra,
    Jobs.queue (Jobs.jobWorker data clock env w) = Jobs.queue w ++ [extra]
    /\ Jobs.d_network (Jobs.q_data extra) = None
    /\ forall env' s,
         Jobs.runTask (Jobs.d_action (Jobs.q_data extra))
           (Jobs.d_payload (Jobs.q_data extra)) (Jobs.d_network (Jobs.q_data extra))
           env' s
         = Jobs.runTask (Jobs.d_action data) (Jobs.d_payload data)
             (Some Networks.DEFAULT_NETWORK) env' s.
Proof.
  intros Ht Hrun Hb.
  destruct (jobWorker_retry_enrols data clock env w s' Ht Hrun Hb) as [_ Hq].
  eexists. split; [exact Hq |]. split; reflexivity.
Qed.

Lemma X24_requeued_item_witness :
  exists extra,
    Jobs.queue
      (Jobs.jobWorker Cases.mainnet_item (Scenario.worker_clock 10)
         (Scenario.env Scenario.token_page1 10) Cases.world_mainnet)
    = Jobs.queue Cases.world_mainnet ++ [extra]
    /\ Jobs.d_network Cases.mainnet_item = Some "mainnet"
    /\ Jobs.d_network (Jobs.q_data extra) = None.
Proof.
  assert (R : exists s',
             Jobs.runTask (Jobs.d_action Cases.mainnet_item)
               (Jobs.d_payload Cases.mainnet_item)
               (Jobs.d_network Cases.mainnet_item)
               (Scenario.env Scenario.token_page1 10)
               (Jobs.stores Cases.world_mainnet)
             = (Returned tt, s'))
    by (eexists; vm_compute; reflexivity).
  destruct R as (s' & Hrun).
  destruct (X24_requeued_item_runs_on_default_network Cases.mainnet_item
              (Scenario.worker_clock 10) (Scenario.env Scenario.token_page1 10)
              Cases.world_mainnet s' eq_refl Hrun eq_refl)
    as (extra & Hq & Hn & _).
  exists extra. split; [exact Hq |]. split; [reflexivity | exact Hn].
Defined.

(** ** Start-up recovery *)

Section RecoveryFacts.

Let entry (job : Jobs.Job) : Jobs.QueueEntry :=
  {| Jobs.q_data := Recovery.recovered_data job; Jobs.q_opts := Jobs.no_options |}.

Lemma readd_keeps (orphans : list Jobs.Job) (w : Jobs.World) :
  Jobs.jobs (snd (Recovery.readd orphans w)) = Jobs.jobs w
  /\ Jobs.stores (snd (Recovery.readd orphans w)) = Jobs.stores w
  /\ exists k,
       (k <= length orphans)%nat
       /\ Jobs.queue (snd (Recovery.readd orphans w))
          = Jobs.queue w ++ map entry (firstn k orphans).
Proof.
  revert w. induction orphans as [| job rest IH]; intros w; cbn [Recovery.readd].
  - repeat split. exists 0%nat. cbn. rewrite app_nil_r. split; [lia | reflexivity].
  - pose proof (queue_add_keeps_jobs (Recovery.recovered_data job) Jobs.no_options w)
      as (Hj & Hs & _).
    destruct (queue_add_cases (Recovery.recovered_data job) Jobs.no_options w)
      as [(_ & Hf & Hq) | (_ & Hf & Hq)];
      destruct (Jobs.queue_add (Recovery.recovered_data job) Jobs.no_options w)
        as [r w1]; cbn [fst snd] in *; subst r.
    + destruct (IH w1) as (IHj & IHs & k & Hk & IHq).
      split; [congruence |]. split; [congruence |].
      exists (Datatypes.S k). split; [cbn; lia |].
      rewrite IHq, Hq, <- app_assoc. reflexivity.
    + cbn [snd]. split; [exact Hj |]. split; [exact Hs |].
      exists 0%nat. cbn. rewrite app_nil_r. split; [lia | exact Hq].
Qed.

Lemma readd_all (orphans : list Jobs.Job) (w : Jobs.World) :
  Forall (fun b => b = true) (Jobs.broker w) ->
  Jobs.queue (snd (Recovery.readd orphans w)) = Jobs.queue w ++ map entry orphans.
Proof.
  revert w. induction orphans as [| job rest IH]; intros w Hb; cbn [Recovery.readd].
  - cbn. rewrite app_nil_r. reflexivity.
  - unfold Jobs.queue_add.
    destruct (Jobs.broker w) as [| b bs] eqn:Eb.
    + rewrite IH by (cbn; constructor). cbn [Jobs.queue map].
      rewrite <- app_assoc. reflexivity.
    + inversion Hb; subst. rewrite IH by (cbn; assumption). cbn [Jobs.queue map].
      rewrite <- app_assoc. reflexivity.
Qed.

End RecoveryFacts.

(** X25. Start-up recovery changes no job record and no snapshot; it
    only appends queue entries, one immediate entry without a network
    for each of the first few orphaned jobs in the order of the
    collection, stopping at the first one the broker refuses. With the
    broker accepting every one is re-added; and since the job records
    stay as they were, a second recovery finds the same orphans
    again. *)
Theorem X25_recovery_readds_orphans (now : Z) (w : Jobs.World) :
  let w' := Recovery.recoverOrphanedJobs now w in
  let entry (job : Jobs.Job) :=
    {| Jobs.q_data := Recovery.recovered_data job; Jobs.q_opts := Jobs.no_options |} in
  Jobs.jobs w' = Jobs.jobs w
  /\ Jobs.stores w' = Jobs.stores w
  /\ Jobs.findOrphans now w' = Jobs.findOrphans now w
  /\ (exists k,
        (k <= length (Jobs.findOrphans now w))%nat
        /\ Jobs.queue w'
           = Jobs.queue w ++ map entry (firstn k (Jobs.findOrphans now w)))
  /\ (Forall (fun b => b = true) (Jobs.broker w) ->
      Jobs.queue w' = Jobs.queue w ++ map entry (Jobs.findOrphans now w)).
Proof.
  cbv zeta. unfold Recovery.recoverOrphanedJobs.
  destruct (readd_keeps (Jobs.findOrphans now w) w) as (Hj & Hs & Hk).
  split; [exact Hj |]. split; [exact Hs |].
  split; [unfold Jobs.findOrphans at 1; rewrite Hj; reflexivity |].
  split; [exact Hk |]. apply readd_all.
Qed.

Lemma X25_recovery_witness :
  Jobs.queue (Recovery.recoverOrphanedJobs 1000 Scenario.world_retry)
  = Jobs.queue Scenario.world_retry
    ++ [{| Jobs.q_data :=
             {| Jobs.jobId := 0%nat; Jobs.d_action := "analyze_coin_flows";
                Jobs.d_payload := Scenario.astro_payload; Jobs.d_network := None;
                Jobs.d_type := "retry"; Jobs.d_scheduledAt := None;
                Jobs.d_intervalMinutes := Some 15 |};
           Jobs.q_opts := Jobs.no_options |}].
Proof.
  destruct (X25_recovery_readds_orphans 1000 Scenario.world_retry)
    as (_ & _ & _ & _ & Hall).
  rewrite Hall; [vm_compute; reflexivity |].
  vm_compute. constructor.
Defined.

(** ** Reading the latest snapshot *)

Section ReadRoutes.

Lemma findNewest_none {S : Type} (m : S -> bool) (db : list S) :
  SnapshotRoutes.findNewest m db = None -> forall s, In s db -> m s = false.
Proof.
  unfold SnapshotRoutes.findNewest. intros H s Hs.
  apply (find_none _ _ H). apply in_rev in Hs. exact Hs.
Qed.

Lemma findNewest_snoc {S : Type} (m : S -> bool) (db : list S) (s : S) :
  m s = true -> SnapshotRoutes.findNewest m (db ++ [s]) = Some s.
Proof.
  intros H. unfold SnapshotRoutes.findNewest. rewrite rev_unit. cbn [find].
  rewrite H. reflexivity.
Qed.

Lemma wallet_cycle_store (wallet network : string) (feed : Wallet.Feed)
  (clock : Wallet.Clock) (db : list Wallet.WalletSnapshot) :
  (exists e, Wallet.createWalletSnapshot wallet network feed clock db = (Thrown e, db))
  \/ exists S, Wallet.createWalletSnapshot wallet network feed clock db
               = (Returned S, db ++ [S]).
Proof.
  unfold Wallet.createWalletSnapshot.
  destruct (Networks.getNetworkConfig network); [| left; eexists; reflexivity].
  destruct (negb (Js.isValidEthereumAddress wallet)); [left; eexists; reflexivity |].
  destruct (Wallet.walletInfo feed) as [address balance | |];
    try (left; eexists; reflexivity).
  destruct (negb (Wallet.truthy address) || _); [left; eexists; reflexivity |].
  unfold Mongoose.save.
  destruct (Wallet.validate _); [left; eexists; reflexivity |].
  right. eexists. reflexivity.
Qed.

End ReadRoutes.

(** X26. [GET /snapshots/nft/:collectionAddress]: when a snapshot of the
    collection and network is stored, the route answers with the one
    stored last and runs no analysis. When none is stored it runs one
    analyser cycle with the default thresholds, and the answer is either
    the snapshot that cycle stored or the cycle's error with nothing
    stored. The replies "no new data" (200 with null data), "no snapshot
    was created" (500) and "not found" (404) are never given. *)
Theorem X26_nft_read_route (collectionAddress : string) (query : option string)
  (feed : Nft.Feed) (clock : Nft.Clock) (db : list Nft.NFTSnapshot) :
  let network := SnapshotRoutes.network_of query in
  let r := SnapshotRoutes.get_nft_snapshot collectionAddress query feed clock db in
  let cycle :=
    Nft.analyzeNFTMovements (SnapshotRoutes.nft_default_config collectionAddress)
      network feed clock db in
  (Networks.isValidNetwork network = false -> r = (SnapshotRoutes.InvalidNetwork, db))
  /\ (Networks.isValidNetwork network = true ->
      match SnapshotRoutes.nft_lookup collectionAddress network db with
      | Some s => r = (SnapshotRoutes.Found s, db)
      | None =>
          (exists S, cycle = (Returned (Some S), db ++ [S])
                     /\ r = (SnapshotRoutes.Found S, db ++ [S]))
          \/ (exists e, cycle = (Thrown e, db)
                        /\ r = (SnapshotRoutes.GenerationFailed e, db))
      end)
  /\ fst r <> SnapshotRoutes.NoNewData
  /\ fst r <> SnapshotRoutes.NotCreated
  /\ fst r <> SnapshotRoutes.NotFound.
Proof.
  cbv zeta.
  assert (Hmain :
    Networks.isValidNetwork (SnapshotRoutes.network_of query) = true ->
    match SnapshotRoutes.nft_lookup collectionAddress
            (SnapshotRoutes.network_of query) db with
    | Some s =>
        SnapshotRoutes.get_nft_snapshot collectionAddress query feed clock db
        = (SnapshotRoutes.Found s, db)
    | None =>
        (exists S,
            Nft.analyzeNFTMovements
              (SnapshotRoutes.nft_default_config collectionAddress)
              (SnapshotRoutes.network_of query) feed clock db
            = (Returned (Some S), db ++ [S])
            /\ SnapshotRoutes.get_nft_snapshot collectionAddress query feed clock db
               = (SnapshotRoutes.Found S, db ++ [S]))
        \/ (exists e,
               Nft.analyzeNFTMovements
                 (SnapshotRoutes.nft_default_config collectionAddress)
                 (SnapshotRoutes.network_of query) feed clock db
               = (Thrown e, db)
               /\ SnapshotRoutes.get_nft_snapshot collectionAddress query feed clock db
                  = (SnapshotRoutes.GenerationFailed e, db))
    end).
  { intros Hnet. unfold SnapshotRoutes.get_nft_snapshot. rewrite Hnet. cbn [negb].
    destruct (SnapshotRoutes.nft_lookup collectionAddress
                (SnapshotRoutes.network_of query) db) as [s |] eqn:Hl;
      [reflexivity |].
    assert (Hprev : Nft.findPrevious
                      (Nft.address (SnapshotRoutes.nft_default_config collectionAddress))
                      (SnapshotRoutes.network_of query) db = None).
    { unfold Nft.findPrevious. apply findLatest_None.
      apply (findNewest_none _ _ Hl). }
    pose proof (nft_cycle_store (SnapshotRoutes.nft_default_config collectionAddress)
                  (SnapshotRoutes.network_of query) feed clock db) as Hstore.
    destruct (Nft.analyzeNFTMovements _ _ feed clock db) as [[[S |] | e] db'] eqn:Hc.
    - pose proof (nft_cycle_inv _ _ _ _ _ _ _ Hc) as Hinv. cbv zeta in Hinv.
      destruct Hinv as (_ & _ & _ & _ & Ha & Hn & _ & _ & _ & _ & _ & ->).
      left. exists S. split; [reflexivity |].
      unfold SnapshotRoutes.nft_lookup. rewrite findNewest_snoc; [reflexivity |].
      rewrite Ha, Hn, !String.eqb_refl. reflexivity.
    - apply nft_null_needs_prior in Hc. contradiction.
    - right. exists e. cbn [snd] in Hstore.
      destruct Hstore as [-> | (S & HS)]; [| discriminate]. split; reflexivity. }
  split.
  - intros Hnet. unfold SnapshotRoutes.get_nft_snapshot. rewrite Hnet. reflexivity.
  - split; [exact Hmain |].
    destruct (Networks.isValidNetwork (SnapshotRoutes.network_of query)) eqn:Hnet.
    + specialize (Hmain eq_refl).
      destruct (SnapshotRoutes.nft_lookup _ _ db).
      * rewrite Hmain. cbn. repeat split; discriminate.
      * destruct Hmain as [(S & _ & ->) | (e & _ & ->)]; cbn;
          repeat split; discriminate.
    + unfold SnapshotRoutes.get_nft_snapshot. rewrite Hnet. cbn.
      repeat split; discriminate.
Qed.

(** X27. [GET /snapshots/wallet/:address]: when a snapshot of the wallet
    and network is stored, the route answers with the one stored last
    and runs no analysis. When none is stored it runs one wallet cycle
    on the requested network, and the answer is either the snapshot
    that cycle stored or the cycle's error with nothing stored. The
    replies "no snapshot was created" (500) and "not found" (404) are
    never given. *)
Theorem X27_wallet_read_route (address : string) (query : option string)
  (feed : Wallet.Feed) (clock : Wallet.Clock) (db : list Wallet.WalletSnapshot) :
  let network := SnapshotRoutes.network_of query in
  let r := SnapshotRoutes.get_wallet_snapshot address query feed clock db in
  let cycle := Wallet.createWalletSnapshot address network feed clock db in
  (Networks.isValidNetwork network = false -> r = (SnapshotRoutes.InvalidNetwork, db))
  /\ (Networks.isValidNetwork network = true ->
      match SnapshotRoutes.wallet_lookup address network db with
      | Some s => r = (SnapshotRoutes.Found s, db)
      | None =>
          (exists S, cycle = (Returned S, db ++ [S])
                     /\ r = (SnapshotRoutes.Found S, db ++ [S]))
          \/ (exists e, cycle = (Thrown e, db)
                        /\ r = (SnapshotRoutes.GenerationFailed e, db))
      end)
  /\ fst r <> SnapshotRoutes.NoNewData
  /\ fst r <> SnapshotRoutes.NotCreated
  /\ fst r <> SnapshotRoutes.NotFound.
Proof.
  cbv zeta.
  assert (Hmain :
    Networks.isValidNetwork (SnapshotRoutes.network_of query) = true ->
    match SnapshotRoutes.wallet_lookup address (SnapshotRoutes.network_of query) db with
    | Some s =>
        SnapshotRoutes.get_wallet_snapshot address query feed clock db
        = (SnapshotRoutes.Found s, db)
    | None =>
        (exists S,
            Wallet.createWalletSnapshot address (SnapshotRoutes.network_of query)
              feed clock db = (Returned S, db ++ [S])
            /\ SnapshotRoutes.get_wallet_snapshot address query feed clock db
               = (SnapshotRoutes.Found S, db ++ [S]))
        \/ (exists e,
               Wallet.createWalletSnapshot address (SnapshotRoutes.network_of query)
                 feed clock db = (Thrown e, db)
               /\ SnapshotRoutes.get_wallet_snapshot address query feed clock db
                  = (SnapshotRoutes.GenerationFailed e, db))
    end).
  { intros Hnet. unfold SnapshotRoutes.get_wallet_snapshot. rewrite Hnet. cbn [negb].
    destruct (SnapshotRoutes.wallet_lookup address (SnapshotRoutes.network_of query) db)
      as [s |] eqn:Hl; [reflexivity |].
    destruct (wallet_cycle_store address (SnapshotRoutes.network_of query) feed clock db)
      as [(e & Hc) | (S & Hc)]; rewrite Hc.
    - right. exists e. split; reflexivity.
    - left. exists S. split; [reflexivity |].
      pose proof (wallet_cycle_inv _ _ _ _ _ _ _ Hc) as (Ha & Hn & _).
      unfold SnapshotRoutes.wallet_lookup. rewrite findNewest_snoc; [reflexivity |].
      rewrite Ha, Hn, !String.eqb_refl. reflexivity. }
  split.
  - intros Hnet. unfold SnapshotRoutes.get_wallet_snapshot. rewrite Hnet. reflexivity.
  - split; [exact Hmain |].
    destruct (Networks.isValidNetwork (SnapshotRoutes.network_of query)) eqn:Hnet.
    + specialize (Hmain eq_refl).
      destruct (SnapshotRoutes.wallet_lookup _ _ db).
      * rewrite Hmain. cbn. repeat split; discriminate.
      * destruct Hmain as [(S & _ & ->) | (e & _ & ->)]; cbn;
          repeat split; discriminate.
    + unfold SnapshotRoutes.get_wallet_snapshot. rewrite Hnet. cbn.
      repeat split; discriminate.
Qed.

(** ** What can reject a wallet snapshot *)

Section WalletSave.

Lemma is_hex_lower (c : ascii) :
  Js.is_hex c = true -> Js.is_hex (Js.lower_ascii c) = true.
Proof.
  destruct c as [[|] [|] [|] [|] [|] [|] [|] [|]]; vm_compute; auto.
Qed.

Lemma all_hex_lower (s : string) :
  Js.all_hex s = true -> Js.all_hex (Js.toLowerCase s) = true.
Proof.
  induction s as [| c s IH]; cbn [Js.all_hex Js.toLowerCase]; [reflexivity |].
  intros H. apply andb_true_iff in H. destruct H as [Hc Hs].
  rewrite (is_hex_lower c Hc), (IH Hs). reflexivity.
Qed.

Lemma length_toLowerCase (s : string) :
  String.length (Js.toLowerCase s) = String.length s.
Proof. induction s as [| c s IH]; cbn; [reflexivity | rewrite IH; reflexivity]. Qed.

(** a valid address is still valid in lower case *)
Lemma valid_address_shape (a : string) :
  Js.isValidEthereumAddress a = true ->
  exists rest,
    a = String "0" (String "x" rest)
    /\ Nat.eqb (String.length rest) 40 = true /\ Js.all_hex rest = true.
Proof.
  destruct a as [| c0 a']; [discriminate |].
  destruct (Ascii.eqb c0 "0") eqn:E0.
  - apply Ascii.eqb_eq in E0. subst c0.
    destruct a' as [| c1 rest]; [discriminate |].
    destruct (Ascii.eqb c1 "x") eqn:E1.
    + apply Ascii.eqb_eq in E1. subst c1.
      cbn [Js.isValidEthereumAddress]. intros H.
      apply andb_true_iff in H. exists rest. tauto.
    + apply Ascii.eqb_neq in E1. intros H. exfalso. revert H.
      destruct c1 as [[|] [|] [|] [|] [|] [|] [|] [|]];
        try discriminate; contradiction.
  - apply Ascii.eqb_neq in E0. intros H. exfalso. revert H.
    destruct c0 as [[|] [|] [|] [|] [|] [|] [|] [|]];
      try discriminate; contradiction.
Qed.

(** a valid address is still valid in lower case *)
Lemma valid_address_lower (a : string) :
  Js.isValidEthereumAddress a = true ->
  Js.isValidEthereumAddress (Js.toLowerCase a) = true.
Proof.
  intros H. apply valid_address_shape in H. destruct H as (rest & -> & Hl & Hh).
  change (Js.toLowerCase (String "0" (String "x" rest)))
    with (String "0" (String "x" (Js.toLowerCase rest))).
  cbn [Js.isValidEthereumAddress].
  rewrite length_toLowerCase, Hl, (all_hex_lower rest Hh). reflexivity.
Qed.

End WalletSave.

(** X28. A wallet snapshot is never rejected for its address or its
    risk score: a wallet cycle that fails validation fails on the
    network spelling, on the token lists (the token request failed, or
    a token lacks a required field), or on the data quality, and the
    last only when every transaction endpoint failed. Nothing is stored
    in any of these cases. *)
Theorem X28_wallet_save_rejections (wallet network : string) (feed : Wallet.Feed)
  (clock : Wallet.Clock) (db db' : list Wallet.WalletSnapshot) (path : string) :
  Wallet.createWalletSnapshot wallet network feed clock db
  = (Thrown (ValidationError path), db') ->
  db' = db
  /\ In path ["network"; "erc20Tokens"; "erc721Tokens"; "analysisMetadata.dataQuality"]
  /\ (path = "network" -> Mongoose.enum Networks.schema_network_enum network = false)
  /\ (path = "analysisMetadata.dataQuality" -> Wallet.fetchTransactions feed = None).
Proof.
  unfold Wallet.createWalletSnapshot.
  destruct (network_config_cases network) as [-> | ->]; [| discriminate].
  destruct (Js.isValidEthereumAddress wallet) eqn:Haddr; cbn [negb]; [| discriminate].
  destruct (Wallet.walletInfo feed) as [address balance | |]; try discriminate.
  destruct (negb (Wallet.truthy address) || _); [discriminate |].
  unfold Mongoose.save, Wallet.validate.
  cbn [Wallet.walletAddress Wallet.network Wallet.erc20Tokens Wallet.erc721Tokens
       Wallet.riskScore Wallet.analysisMetadata Wallet.dataQuality].
  rewrite (valid_address_lower wallet Haddr). cbn [negb].
  destruct (Mongoose.enum Networks.schema_network_enum network) eqn:Hnet; cbn [negb].
  2:{ intros H; inversion H; subst.
      split; [reflexivity |]. split; [left; reflexivity |].
      split; [intros _; reflexivity | discriminate]. }
  destruct (Wallet.tokens feed) as [[erc20 erc721] |]; cbn [option_map fst snd].
  2:{ intros H; inversion H; subst.
      split; [reflexivity |]. split; [right; left; reflexivity |].
      split; discriminate. }
  destruct (negb (forallb _ erc20)).
  { intros H; inversion H; subst.
    split; [reflexivity |]. split; [right; left; reflexivity |].
    split; discriminate. }
  destruct (negb (forallb _ erc721)).
  { intros H; inversion H; subst.
    split; [reflexivity |]. split; [right; right; left; reflexivity |].
    split; discriminate. }
  match goal with
  | |- context [Mongoose.within 1 10 (Wallet.calculateRiskScore ?pw ?t ?m)] =>
      pose proof (wallet_risk_range pw t m) as Hr;
      assert (Hw : Mongoose.within 1 10 (Wallet.calculateRiskScore pw t m) = true)
        by (unfold Mongoose.within; apply andb_true_iff; split; apply Z.leb_le; lia);
      rewrite Hw
  end.
  cbn [negb].
  destruct (Wallet.fetchTransactions feed) as [txs |].
  - destruct (Nat.ltb 0 (length txs)).
    + change (Mongoose.enum Wallet.dataQuality_enum "COMPLETE") with true.
      cbn [negb]. discriminate.
    + change (Mongoose.enum Wallet.dataQuality_enum "LIMITED") with true.
      cbn [negb]. discriminate.
  - change (Mongoose.enum Wallet.dataQuality_enum "SERVICE_UNAVAILABLE") with false.
    cbn [negb]. intros H; inversion H; subst.
    split; [reflexivity |]. split; [right; right; right; left; reflexivity |].
    split; [discriminate | intros _; reflexivity].
Qed.

Lemma X28_wallet_save_rejections_witness :
  exists path db',
    Wallet.createWalletSnapshot Scenario.alice "testnet" (Scenario.wallet_feed None)
      (Scenario.wallet_clock 5000) []
    = (Thrown (ValidationError path), db')
    /\ db' = []
    /\ In path ["network"; "erc20Tokens"; "erc721Tokens";
                "analysisMetadata.dataQuality"].
Proof.
  assert (E : exists path db',
             Wallet.createWalletSnapshot Scenario.alice "testnet"
               (Scenario.wallet_feed None) (Scenario.wallet_clock 5000) []
             = (Thrown (ValidationError path), db'))
    by (do 2 eexists; vm_compute; reflexivity).
  destruct E as (path & db' & E). exists path, db'. split; [exact E |].
  destruct (X28_wallet_save_rejections _ _ _ _ _ _ _ E) as (Hdb & Hin & _).
  split; assumption.
Defined.

(** ** The NFT save with a prior snapshot *)

Section NftSave.

Lemma required_lower_address (a : string) :
  Js.isValidEthereumAddress a = true ->
  Mongoose.required (Js.toLowerCase a) = true.
Proof.
  intros H. apply valid_address_shape in H. destruct H as (rest & -> & _).
  reflexivity.
Qed.

End NftSave.

(** X29. An NFT cycle that finds a snapshot of the collection stored for
    the network and at least one new transaction on the page stores
    nothing and fails with a validation error: the holder table, started
    from the spread of the stored [Map], cannot be cast to the [Map] the
    schema declares. The error names the holder table whenever the
    network is one the schema lists and the token info is complete. *)
Theorem X29_nft_cycle_with_prior_rejects (config : Nft.NFTConfig)
  (network : string) (feed : Nft.Feed) (clock : Nft.Clock)
  (db : list Nft.NFTSnapshot) (p : Nft.NFTSnapshot) (info : Nft.NFTTokenInfo) :
  Networks.getNetworkConfig network = Returned tt ->
  Js.isValidEthereumAddress (Nft.address config) = true ->
  snd (Nft.fetchLatestNFTTransactions feed) = Some info ->
  Nft.findPrevious (Nft.address config) network db = Some p ->
  Nft.getNewNFTTransactions (fst (Nft.fetchLatestNFTTransactions feed)) (Some p) <> [] ->
  exists path,
    Nft.analyzeNFTMovements config network feed clock db
    = (Thrown (ValidationError path), db)
    /\ In path ["network"; "tokenInfo"; "movementMetrics.currentHolders"]
    /\ (Mongoose.enum Networks.schema_network_enum network = true ->
        Nft.valid_tokenInfo info = true ->
        path = "movementMetrics.currentHolders").
Proof.
  intros Hcfg Haddr Hinfo Hprev Hnew. unfold Nft.analyzeNFTMovements.
  rewrite Hcfg, Haddr. cbn [negb].
  destruct (Nft.fetchLatestNFTTransactions feed) as [page i]; cbn [fst snd] in *.
  subst i. rewrite Hprev.
  destruct (Nft.getNewNFTTransactions page (Some p)) as [| tx new] eqn:En;
    [contradiction |].
  unfold Mongoose.save, Nft.validate.
  cbn [Nft.tokenAddress Nft.network Nft.tokenInfo Nft.movementMetrics].
  rewrite (required_lower_address _ Haddr), nft_holders_with_prior. cbn [negb].
  destruct (Mongoose.enum Networks.schema_network_enum network); cbn [negb].
  2:{ exists "network". split; [reflexivity |].
      split; [left; reflexivity | discriminate]. }
  destruct (Nft.valid_tokenInfo info); cbn [negb].
  2:{ exists "tokenInfo". split; [reflexivity |].
      split; [right; left; reflexivity | discriminate]. }
  exists "movementMetrics.currentHolders". split; [reflexivity |].
  split; [right; right; left; reflexivity | reflexivity].
Qed.

(** the second NFT cycle of the scenario: one new transfer on the page,
    the snapshot of the first cycle in the collection *)
Lemma X29_nft_cycle_with_prior_witness :
  exists p path,
    Nft.findPrevious Scenario.dongle "testnet" Scenario.nft_db1 = Some p
    /\ Scenario.nft_cycle2 = (Thrown (ValidationError path), Scenario.nft_db1)
    /\ path = "movementMetrics.currentHolders".
Proof.
  assert (E : exists p,
             Nft.findPrevious Scenario.dongle "testnet" Scenario.nft_db1 = Some p
             /\ Nft.getNewNFTTransactions Scenario.nft_page2 (Some p)
                = [Scenario.movement "0xn3" Scenario.bob Scenario.carol "7" 3000])
    by (eexists; split; vm_compute; reflexivity).
  destruct E as (p & Ep & En). exists p.
  destruct (X29_nft_cycle_with_prior_rejects Scenario.dongle_config "testnet"
              (Some Scenario.nft_page2) (Scenario.nft_clock 9000) Scenario.nft_db1
              p Scenario.dongle_info)
    as (path & Hrun & _ & Hpath).
  - reflexivity.
  - reflexivity.
  - reflexivity.
  - exact Ep.
  - change (fst (Nft.fetchLatestNFTTransactions (Some Scenario.nft_page2)))
      with Scenario.nft_page2.
    rewrite En. discriminate.
  - exists path. split; [exact Ep |]. split; [exact Hrun |].
    apply Hpath; reflexivity.
Defined.
